(** * ova-esxi-uploader: the resumable transfer subsystem

    A shallow embedding of the four packages that carry the transfer logic,
    and of the places where the upload command drives them:

    - [pkg/retry/manager.go]    : [Retry]    (constructor defaults, retry
                                              classification, backoff delay,
                                              the retry loop);
    - [pkg/progress/tracker.go] : [Progress] (session bookkeeping, its JSON
                                              persistence, [Close] and
                                              [Delete]);
    - [pkg/ova/parser.go]       : [Ova]      (archive indexing, manifest,
                                              checksum validation);
    - [pkg/esxi/uploader.go]    : [Uploader] (the chunk plan of the parallel
                                              upload, the loop of the
                                              sequential upload);
    - [cmd/upload.go]           : [Cmd]      (registration of the files, the
                                              retry callback, the skip test).

    Conventions.  Go's [int64], [int] and [time.Duration] are integers in
    [Z]; arithmetic that the source performs on them goes through
    [Int64.wrap].  A [float64] field of a configuration is kept as the
    rational it is written as; the arithmetic of [calculateDelay] is IEEE 754
    binary64 arithmetic ([Float64]), rounding to nearest.  Go strings are
    [string].  Loops that need not terminate take fuel. *)

From Stdlib Require Import ZArith QArith SpecFloat List Bool Ascii String.
From Stdlib Require Import DecimalString DecimalZ Lia.
From stdpp Require Import gmap strings sorting.

Import ListNotations.
Local Open Scope Z_scope.
#[local] Set Warnings "-register-all".

(** ** 64-bit signed integers *)

Module Int64.

Definition min_int : Z := - 2 ^ 63.
Definition max_int : Z := 2 ^ 63 - 1.

(** Two's-complement wrap-around of a mathematical integer. *)
Definition wrap (z : Z) : Z := (z + 2 ^ 63) mod 2 ^ 64 - 2 ^ 63.

Definition in_range (z : Z) : Prop := min_int <= z <= max_int.

Definition add (a b : Z) : Z := wrap (a + b).
Definition sub (a b : Z) : Z := wrap (a - b).

Definition mul (a b : Z) : Z := wrap (a * b).

(** Go's [/] and [%] on integers truncate toward zero. *)
Definition div (a b : Z) : Z := wrap (Z.quot a b).
Definition rem (a b : Z) : Z := Z.rem a b.

End Int64.

(** ** 64-bit floating point

    Go's [float64] is the binary64 format of IEEE 754; its values and
    operations are those of the standard library's [spec_float] with a
    53-bit significand, rounding to nearest, ties to even. *)

Module Float64.

Definition prec : Z := 53.
Definition emax : Z := 1024.

Definition t : Type := spec_float.

(** [float64(x)] for an integer [x]: the nearest float64. *)
Definition ofInt (z : Z) : t := binary_normalize prec emax z 0 false.

Definition zero : t := S754_zero false.

Definition mul : t -> t -> t := SFmul prec emax.
Definition sub : t -> t -> t := SFsub prec emax.
Definition div : t -> t -> t := SFdiv prec emax.

(** [x < y]; false when either side is NaN. *)
Definition ltb : t -> t -> bool := SFltb.

(** The float64 a rational denotes, the nearest one; exact for every
    rational that is a float64 (numerator and denominator below [2^53]). *)
Definition ofQ (q : Q) : t := div (ofInt (Qnum q)) (ofInt (Z.pos (Qden q))).

(** The integer part of a finite value (the fraction is dropped). *)
Definition trunc (x : t) : option Z :=
  match x with
  | S754_zero _ => Some 0
  | S754_finite s m e =>
      let a := if 0 <=? e then Z.pos m * 2 ^ e else Z.pos m / 2 ^ (- e) in
      Some (if s then - a else a)
  | S754_infinity _ | S754_nan => None
  end.

(** What the language leaves to the platform and the library:
    [math.Pow], and the result of converting to [int64] a value that
    [int64] cannot represent (NaN, an infinity, a value out of range),
    which the language specification calls implementation-dependent. *)
Record Platform := mkPlatform {
  Pow : t -> t -> t;
  outOfRange : t -> Z
}.

(** [int64(x)], also [time.Duration(x)]. *)
Definition toInt64 (fpu : Platform) (x : t) : Z :=
  match trunc x with
  | Some z =>
      if (Int64.min_int <=? z) && (z <=? Int64.max_int) then z
      else Int64.wrap (outOfRange fpu x)
  | None => Int64.wrap (outOfRange fpu x)
  end.

End Float64.

(** ** Results and strings *)

Inductive Result (E A : Type) : Type :=
| Ok (a : A)
| Err (e : E).
Arguments Ok {E A}.
Arguments Err {E A}.

Definition bindR {E A B : Type} (r : Result E A) (k : A -> Result E B)
  : Result E B :=
  match r with
  | Ok a => k a
  | Err e => Err e
  end.

Notation "'try' x <- r ; k" := (bindR r (fun x => k))
  (at level 10, x name, r at level 100, k at level 200).

(** How a call that can panic ends. *)
Inductive Exit (A : Type) : Type :=
| Panicked (msg : string)
| Returned (a : A).
Arguments Panicked {A}.
Arguments Returned {A}.

Module Str.

(** Lower-casing of one byte; bytes outside [A-Z] are kept. *)
Definition lower_ascii (c : ascii) : ascii :=
  let n := nat_of_ascii c in
  if ((65 <=? n) && (n <=? 90))%nat then ascii_of_nat (n + 32) else c.

(** [strings.ToLower], on ASCII text. *)
Fixpoint ToLower (s : string) : string :=
  match s with
  | EmptyString => EmptyString
  | String c s' => String (lower_ascii c) (ToLower s')
  end.

(** [strings.EqualFold], on ASCII text. *)
Definition EqualFold (a b : string) : bool :=
  String.eqb (ToLower a) (ToLower b).

(** The text [fmt.Sprintf("%d", z)] prints. *)
Definition Itoa (z : Z) : string :=
  DecimalString.NilEmpty.string_of_int (Z.to_int z).

End Str.

(** ** encoding/json, as far as the session file needs it

    The standard library is not part of the repository; it is taken at the
    level of JSON documents.  [Marshal] of a struct is the object of its
    tagged fields in declaration order (a field tagged [omitempty] is left
    out when empty), [Marshal] of a map is the object of its entries sorted
    by key.  [Unmarshal] into a struct walks the members of the object in
    order and stores every member whose key matches a field (ignoring case)
    into that field: [null] leaves the field as it is, a value of another
    JSON type is an error, unknown keys are skipped. *)

Module Json.

Inductive value :=
| Null
| Bool (b : bool)
| Number (z : Z)
| String (s : string)
| Array (items : list value)
| Object (members : list (string * value)).

(** The values a document binds to the field tagged [name], in order. *)
Definition values_of (name : string) (members : list (string * value))
  : list value :=
  List.map snd (List.filter (fun kv => Str.EqualFold (fst kv) name) members).

(** Decoding into one field: each bound value in turn, starting from the
    field's zero value. *)
Definition into {A : Type} (dec : A -> value -> Result string A) (zero : A)
           (vs : list value) : Result string A :=
  fold_left (fun acc v => try cur <- acc; dec cur v) vs (Ok zero).

Definition decodeString (cur : string) (v : value) : Result string string :=
  match v with
  | String s => Ok s
  | Null => Ok cur
  | _ => Err "json: cannot unmarshal into Go value of type string"
  end.

Definition in_int64 (z : Z) : bool :=
  (Int64.min_int <=? z) && (z <=? Int64.max_int).

Definition decodeInt (cur : Z) (v : value) : Result string Z :=
  match v with
  | Number z =>
      if in_int64 z then Ok z
      else Err "json: cannot unmarshal number into Go value of type int64"
  | Null => Ok cur
  | _ => Err "json: cannot unmarshal into Go value of type int64"
  end.

Definition decodeBool (cur : bool) (v : value) : Result string bool :=
  match v with
  | Bool b => Ok b
  | Null => Ok cur
  | _ => Err "json: cannot unmarshal into Go value of type bool"
  end.

(** Order of map keys in the output of [Marshal]. *)
Definition key_le {A : Type} (x y : string * A) : Prop :=
  String.leb (fst x) (fst y) = true.

#[global] Instance key_le_dec {A : Type} (x y : string * A)
  : Decision (key_le x y).
Proof. unfold key_le. apply bool_eq_dec. Defined.

Definition sorted_entries {A : Type} (m : gmap string A)
  : list (string * A) :=
  merge_sort key_le (map_to_list m).

End Json.

(** ** pkg/retry/manager.go *)

Module Retry.

(** [time.Duration] counts nanoseconds. *)
Definition Nanosecond : Z := 1.
Definition Second : Z := 1000000000.
Definition Minute : Z := 60 * Second.

Record Config := mkConfig {
  MaxRetries : Z;
  BaseDelay : Z;
  MaxDelay : Z;
  BackoffFactor : Q;
  JitterRange : Q;
  RetryableErrors : list string
}.

Record RetryManager := mkRetryManager {
  maxRetries : Z;
  baseDelay : Z;
  maxDelay : Z;
  backoffFactor : Q;
  jitterRange : Q;
  retryableErrors : list string
}.

(** [x == 0] on a float64. *)
Definition float_is_zero (x : Q) : bool := Qeq_bool x 0.

(** [x > 0] on a float64. *)
Definition float_is_pos (x : Q) : bool := negb (Qle_bool x 0).

Definition NewRetryManager (config : Config) : RetryManager :=
  let mr := if MaxRetries config =? 0 then -1 else MaxRetries config in
  let bd := if BaseDelay config =? 0 then 1 * Second else BaseDelay config in
  let md := if MaxDelay config =? 0 then 5 * Minute else MaxDelay config in
  let bf := if float_is_zero (BackoffFactor config) then 2 # 1
            else BackoffFactor config in
  let jr := if float_is_zero (JitterRange config) then 1 # 10
            else JitterRange config in
  {| maxRetries := mr;
     baseDelay := bd;
     maxDelay := md;
     backoffFactor := bf;
     jitterRange := jr;
     retryableErrors := RetryableErrors config |}.

Definition strlen (s : string) : Z := Z.of_nat (String.length s).

(** [for i := 0; i <= len(str)-len(substr); i++] comparing the slice
    [str[i:i+len(substr)]] with [substr]. *)
Definition containsSubstring (str substr : string) : bool :=
  let n := String.length substr in
  existsb (fun i => String.eqb (String.substring i n str) substr)
          (seq 0 (Z.to_nat (strlen str - strlen substr + 1))).

Definition containsString (str substr : string) : bool :=
  (strlen substr <=? strlen str)
  && (String.eqb substr EmptyString
      || String.eqb str substr
      || containsSubstring str substr).

Definition IsRetryableError (rm : RetryManager) (err : string) : bool :=
  match retryableErrors rm with
  | [] => true
  | pats => existsb (containsString err) pats
  end.

Definition shouldRetry (rm : RetryManager) (err : string) (attempt : Z)
  : bool :=
  if (0 <? maxRetries rm) && (maxRetries rm <=? attempt) then false
  else match retryableErrors rm with
       | [] => true
       | pats => existsb (containsString err) pats
       end.

(** [calculateDelay], with [r] the value of [rand.Float64()], a sample
    from [0,1).  Every product is rounded on its own; the one difference,
    [rand.Float64()*2 - 1], has an exact product, so it is the same value
    whether or not the platform fuses it. *)
Definition calculateDelay (fpu : Float64.Platform) (rm : RetryManager)
           (r : Q) (attempt : Z) : Z :=
  let delay :=
    Float64.toInt64 fpu
      (Float64.mul
         (Float64.ofInt (baseDelay rm))
         (Float64.Pow fpu (Float64.ofQ (backoffFactor rm))
                      (Float64.ofInt (Int64.sub attempt 1)))) in
  let delay := if maxDelay rm <? delay then maxDelay rm else delay in
  let delay :=
    if float_is_pos (jitterRange rm) then
      let jitter :=
        Float64.toInt64 fpu
          (Float64.mul
             (Float64.mul (Float64.ofInt delay)
                          (Float64.ofQ (jitterRange rm)))
             (Float64.sub (Float64.mul (Float64.ofQ r) (Float64.ofInt 2))
                          (Float64.ofInt 1))) in
      Int64.add delay jitter
    else delay in
  if delay <? 0 then baseDelay rm else delay.

Record RetryStats := mkRetryStats {
  Attempts : Z;
  LastError : option string;
  CurrentDelay : Z
}.

(** How a call of [ExecuteWithStats] ends. *)
Inductive ExecError :=
| ExhaustedError (attempts : Z) (lastError : string)
| CancelledError (ctxErr : string).

(** What a run leaves behind: the returned error ([None] for [nil]), the
    number of times the operation was invoked, the state the operation
    left, and the snapshots handed to the statistics callback. *)
Record Outcome (W : Type) := mkOutcome {
  returned : option ExecError;
  invocations : nat;
  world : W;
  reported : list RetryStats
}.
Arguments mkOutcome {W}.
Arguments returned {W}.
Arguments invocations {W}.
Arguments world {W}.
Arguments reported {W}.

Section Execute.

(** The operation is a closure over some state [W]; it returns [None]
    for [nil] and [Some msg] for an error whose text is [msg]. *)
Variable W : Type.
Variable fn : W -> option string * W.

(** The context: [ctxDone k] tells whether the [select] that follows the
    [k]-th attempt takes the [ctx.Done()] branch; [ctxErr] is
    [ctx.Err()]. *)
Variable ctxDone : Z -> bool.
Variable ctxErr : string.

(** [rnd k] is the random sample drawn after the [k]-th attempt. *)
Variable rnd : Z -> Q.

Variable fpu : Float64.Platform.

Variable rm : RetryManager.

Fixpoint loop (fuel : nat) (attempt : Z) (stats : RetryStats) (w : W)
         (calls : nat) (log : list RetryStats) : option (Outcome W) :=
  match fuel with
  | O => None
  | S fuel' =>
      let attempt := attempt + 1 in
      let stats := {| Attempts := attempt;
                      LastError := LastError stats;
                      CurrentDelay := CurrentDelay stats |} in
      let log := log ++ [stats] in
      match fn w with
      | (None, w') => Some (mkOutcome None (S calls) w' log)
      | (Some err, w') =>
          let stats := {| Attempts := attempt;
                          LastError := Some err;
                          CurrentDelay := CurrentDelay stats |} in
          if negb (shouldRetry rm err attempt) then
            Some (mkOutcome (Some (ExhaustedError attempt err))
                            (S calls) w' log)
          else
            let delay := calculateDelay fpu rm (rnd attempt) attempt in
            let stats := {| Attempts := attempt;
                            LastError := Some err;
                            CurrentDelay := delay |} in
            if ctxDone attempt then
              Some (mkOutcome (Some (CancelledError ctxErr))
                              (S calls) w' log)
            else loop fuel' attempt stats w' (S calls) log
      end
  end.

Definition ExecuteWithStats (fuel : nat) (w : W) : option (Outcome W) :=
  loop fuel 0 {| Attempts := 0; LastError := None; CurrentDelay := 0 |}
       w O [].

End Execute.

Definition CreateInfiniteRetryManager : RetryManager :=
  NewRetryManager
    {| MaxRetries := 0;
       BaseDelay := 2 * Second;
       MaxDelay := 2 * Minute;
       BackoffFactor := 3 # 2;
       JitterRange := 2 # 10;
       RetryableErrors := [] |}.

(** [GetConfig] *)
Definition GetConfig (rm : RetryManager) : Config :=
  {| MaxRetries := maxRetries rm;
     BaseDelay := baseDelay rm;
     MaxDelay := maxDelay rm;
     BackoffFactor := backoffFactor rm;
     JitterRange := jitterRange rm;
     RetryableErrors := retryableErrors rm |}.

Definition CreateNetworkRetryManager : RetryManager :=
  NewRetryManager
    {| MaxRetries := 0;
       BaseDelay := 1 * Second;
       MaxDelay := 30 * Second;
       BackoffFactor := 2 # 1;
       JitterRange := 3 # 10;
       RetryableErrors :=
         ["connection refused"; "timeout"; "network"; "temporary failure";
          "503"; "502"; "504"; "EOF"; "broken pipe"] |}.

(** [ExecuteWithProgress] hands every snapshot to the progress callback as
    the triple (attempt, last error, next retry delay). *)
Definition progressArgs (stats : RetryStats) : Z * option string * Z :=
  (Attempts stats, LastError stats, CurrentDelay stats).

(** The state the operation is in before its [i]-th invocation (counted
    from 0), when it starts in [w]. *)
Fixpoint nth_world {W : Type} (fn : W -> option string * W) (i : nat) (w : W)
  : W :=
  match i with
  | O => w
  | S i' => nth_world fn i' (snd (fn w))
  end.

End Retry.

(** ** pkg/progress/tracker.go *)

Module Progress.

(** A [time.Time] is kept as the instant it denotes. *)
Definition Time : Type := Z.

Module FileProgress.
Record t := mk {
  FileName : string;
  TotalSize : Z;
  UploadedSize : Z;
  ChunksTotal : Z;
  ChunksUploaded : Z;
  StartTime : Time;
  LastUpdate : Time;
  IsCompleted : bool;
  SHA1Hash : string
}.
End FileProgress.

Module UploadSession.
Record t := mk {
  SessionID : string;
  OVAFile : string;
  ESXiHost : string;
  Datastore : string;
  VMName : string;
  TotalSize : Z;
  UploadedSize : Z;
  StartTime : Time;
  LastUpdate : Time;
  IsCompleted : bool;
  Files : gmap string FileProgress.t;
  RetryAttempts : Z
}.
End UploadSession.

(** The tracker without its logger, mutex and stop channel. *)
Record Tracker := mkTracker {
  session : UploadSession.t;
  sessionFile : string;
  autoSave : bool;
  saveInterval : Z
}.

Definition with_session (t : Tracker) (s : UploadSession.t) : Tracker :=
  {| session := s;
     sessionFile := sessionFile t;
     autoSave := autoSave t;
     saveInterval := saveInterval t |}.

(** [fmt.Sprintf(".upload-session-%s.json", sessionID)] *)
Definition session_file_name (sessionID : string) : string :=
  (".upload-session-" ++ sessionID ++ ".json")%string.

Definition NewTracker (now1 now2 : Time)
           (sessionID ovaFile esxiHost datastore vmName : string) : Tracker :=
  {| session :=
       {| UploadSession.SessionID := sessionID;
          UploadSession.OVAFile := ovaFile;
          UploadSession.ESXiHost := esxiHost;
          UploadSession.Datastore := datastore;
          UploadSession.VMName := vmName;
          UploadSession.TotalSize := 0;
          UploadSession.UploadedSize := 0;
          UploadSession.StartTime := now1;
          UploadSession.LastUpdate := now2;
          UploadSession.IsCompleted := false;
          UploadSession.Files := ∅;
          UploadSession.RetryAttempts := 0 |};
     sessionFile := session_file_name sessionID;
     autoSave := true;
     saveInterval := 5 * Retry.Second |}.

(** [int64(32 * 1024 * 1024)] *)
Definition chunkSize : Z := 32 * 1024 * 1024.

(** Each [time.Now()] of the source is an argument, in the order the
    source reads the clock. *)
Definition AddFile (now1 now2 now3 : Time) (fileName : string)
           (totalSize : Z) (sha1Hash : string) (t : Tracker) : Tracker :=
  let s := session t in
  let chunksTotal :=
    Int64.div (Int64.sub (Int64.add totalSize chunkSize) 1) chunkSize in
  let file :=
    {| FileProgress.FileName := fileName;
       FileProgress.TotalSize := totalSize;
       FileProgress.UploadedSize := 0;
       FileProgress.ChunksTotal := chunksTotal;
       FileProgress.ChunksUploaded := 0;
       FileProgress.StartTime := now1;
       FileProgress.LastUpdate := now2;
       FileProgress.IsCompleted := false;
       FileProgress.SHA1Hash := sha1Hash |} in
  with_session t
    {| UploadSession.SessionID := UploadSession.SessionID s;
       UploadSession.OVAFile := UploadSession.OVAFile s;
       UploadSession.ESXiHost := UploadSession.ESXiHost s;
       UploadSession.Datastore := UploadSession.Datastore s;
       UploadSession.VMName := UploadSession.VMName s;
       UploadSession.TotalSize :=
         Int64.add (UploadSession.TotalSize s) totalSize;
       UploadSession.UploadedSize := UploadSession.UploadedSize s;
       UploadSession.StartTime := UploadSession.StartTime s;
       UploadSession.LastUpdate := now3;
       UploadSession.IsCompleted := UploadSession.IsCompleted s;
       UploadSession.Files := <[fileName := file]> (UploadSession.Files s);
       UploadSession.RetryAttempts := UploadSession.RetryAttempts s |}.

Definition UpdateFileProgress (now1 now2 : Time) (fileName : string)
           (uploadedSize : Z) (t : Tracker) : Tracker :=
  let s := session t in
  match UploadSession.Files s !! fileName with
  | Some file =>
      let oldUploaded := FileProgress.UploadedSize file in
      let chunks := Int64.div uploadedSize chunkSize in
      let chunks :=
        if 0 <? Int64.rem uploadedSize chunkSize
        then Int64.add chunks 1 else chunks in
      let file' :=
        {| FileProgress.FileName := FileProgress.FileName file;
           FileProgress.TotalSize := FileProgress.TotalSize file;
           FileProgress.UploadedSize := uploadedSize;
           FileProgress.ChunksTotal := FileProgress.ChunksTotal file;
           FileProgress.ChunksUploaded := chunks;
           FileProgress.StartTime := FileProgress.StartTime file;
           FileProgress.LastUpdate := now1;
           FileProgress.IsCompleted :=
             if FileProgress.TotalSize file <=? uploadedSize then true
             else FileProgress.IsCompleted file;
           FileProgress.SHA1Hash := FileProgress.SHA1Hash file |} in
      with_session t
        {| UploadSession.SessionID := UploadSession.SessionID s;
           UploadSession.OVAFile := UploadSession.OVAFile s;
           UploadSession.ESXiHost := UploadSession.ESXiHost s;
           UploadSession.Datastore := UploadSession.Datastore s;
           UploadSession.VMName := UploadSession.VMName s;
           UploadSession.TotalSize := UploadSession.TotalSize s;
           UploadSession.UploadedSize :=
             Int64.add (UploadSession.UploadedSize s)
                       (Int64.sub uploadedSize oldUploaded);
           UploadSession.StartTime := UploadSession.StartTime s;
           UploadSession.LastUpdate := now2;
           UploadSession.IsCompleted := UploadSession.IsCompleted s;
           UploadSession.Files :=
             <[fileName := file']> (UploadSession.Files s);
           UploadSession.RetryAttempts := UploadSession.RetryAttempts s |}
  | None => t
  end.

(** The loop of [MarkFileCompleted] over the map: [true] unless some
    entry is not completed. *)
Definition allCompleted (files : gmap string FileProgress.t) : bool :=
  forallb (fun kv => FileProgress.IsCompleted (snd kv)) (map_to_list files).

(** First half of [MarkFileCompleted]: the update of the named entry. *)
Definition completeFile (now1 now2 : Time) (fileName : string)
           (s : UploadSession.t) : UploadSession.t :=
  match UploadSession.Files s !! fileName with
  | Some file =>
      let done := FileProgress.IsCompleted file in
      let remaining :=
        Int64.sub (FileProgress.TotalSize file)
                  (FileProgress.UploadedSize file) in
      let file' :=
        {| FileProgress.FileName := FileProgress.FileName file;
           FileProgress.TotalSize := FileProgress.TotalSize file;
           FileProgress.UploadedSize :=
             if done then FileProgress.UploadedSize file
             else FileProgress.TotalSize file;
           FileProgress.ChunksTotal := FileProgress.ChunksTotal file;
           FileProgress.ChunksUploaded := FileProgress.ChunksTotal file;
           FileProgress.StartTime := FileProgress.StartTime file;
           FileProgress.LastUpdate := now1;
           FileProgress.IsCompleted := true;
           FileProgress.SHA1Hash := FileProgress.SHA1Hash file |} in
      {| UploadSession.SessionID := UploadSession.SessionID s;
         UploadSession.OVAFile := UploadSession.OVAFile s;
         UploadSession.ESXiHost := UploadSession.ESXiHost s;
         UploadSession.Datastore := UploadSession.Datastore s;
         UploadSession.VMName := UploadSession.VMName s;
         UploadSession.TotalSize := UploadSession.TotalSize s;
         UploadSession.UploadedSize :=
           if done then UploadSession.UploadedSize s
           else Int64.add (UploadSession.UploadedSize s) remaining;
         UploadSession.StartTime := UploadSession.StartTime s;
         UploadSession.LastUpdate := now2;
         UploadSession.IsCompleted := UploadSession.IsCompleted s;
         UploadSession.Files :=
           <[fileName := file']> (UploadSession.Files s);
         UploadSession.RetryAttempts := UploadSession.RetryAttempts s |}
  | None => s
  end.

(** Second half: the aggregate flag is raised when every entry is
    completed. *)
Definition raiseCompleted (s : UploadSession.t) : UploadSession.t :=
  if allCompleted (UploadSession.Files s) then
    {| UploadSession.SessionID := UploadSession.SessionID s;
       UploadSession.OVAFile := UploadSession.OVAFile s;
       UploadSession.ESXiHost := UploadSession.ESXiHost s;
       UploadSession.Datastore := UploadSession.Datastore s;
       UploadSession.VMName := UploadSession.VMName s;
       UploadSession.TotalSize := UploadSession.TotalSize s;
       UploadSession.UploadedSize := UploadSession.UploadedSize s;
       UploadSession.StartTime := UploadSession.StartTime s;
       UploadSession.LastUpdate := UploadSession.LastUpdate s;
       UploadSession.IsCompleted := true;
       UploadSession.Files := UploadSession.Files s;
       UploadSession.RetryAttempts := UploadSession.RetryAttempts s |}
  else s.

Definition MarkFileCompleted (now1 now2 : Time) (fileName : string)
           (t : Tracker) : Tracker :=
  with_session t (raiseCompleted (completeFile now1 now2 fileName (session t))).

Definition GetFileProgress (fileName : string) (t : Tracker)
  : option FileProgress.t :=
  UploadSession.Files (session t) !! fileName.

Definition GetSession (t : Tracker) : UploadSession.t := session t.

(** *** Persistence: [Save] and [LoadTracker] *)

(** The zero [time.Time], January 1 of year 1, in nanoseconds relative to
    the Unix epoch. *)
Definition zeroTime : Time := -62135596800 * Retry.Second.

Section Persistence.

(** [time.Time.MarshalJSON] and [UnmarshalJSON]: the RFC 3339 text of an
    instant, and its parser. *)
Variable formatTime : Time -> string.
Variable parseTime : string -> option Time.

(** The text layer of [encoding/json]: [json.MarshalIndent] renders a
    document as the content of a file, [json.Unmarshal] parses one
    ([None] on a syntax error). *)
Variable Text : Type.
Variable render : Json.value -> Text.
Variable parse : Text -> option Json.value.

Definition decodeTime (cur : Time) (v : Json.value) : Result string Time :=
  match v with
  | Json.String s =>
      match parseTime s with
      | Some t => Ok t
      | None => Err "parsing time: cannot parse"
      end
  | Json.Null => Ok cur
  | _ => Err "Time.UnmarshalJSON: input is not a JSON string"
  end.

Definition encodeFileProgress (f : FileProgress.t) : Json.value :=
  Json.Object
    ([ ("fileName", Json.String (FileProgress.FileName f));
       ("totalSize", Json.Number (FileProgress.TotalSize f));
       ("uploadedSize", Json.Number (FileProgress.UploadedSize f));
       ("chunksTotal", Json.Number (FileProgress.ChunksTotal f));
       ("chunksUploaded", Json.Number (FileProgress.ChunksUploaded f));
       ("startTime", Json.String (formatTime (FileProgress.StartTime f)));
       ("lastUpdate", Json.String (formatTime (FileProgress.LastUpdate f)));
       ("isCompleted", Json.Bool (FileProgress.IsCompleted f)) ]
     ++ (if String.eqb (FileProgress.SHA1Hash f) "" then []
         else [ ("sha1Hash", Json.String (FileProgress.SHA1Hash f)) ])).

Definition encodeSession (s : UploadSession.t) : Json.value :=
  Json.Object
    [ ("sessionId", Json.String (UploadSession.SessionID s));
      ("ovaFile", Json.String (UploadSession.OVAFile s));
      ("esxiHost", Json.String (UploadSession.ESXiHost s));
      ("datastore", Json.String (UploadSession.Datastore s));
      ("vmName", Json.String (UploadSession.VMName s));
      ("totalSize", Json.Number (UploadSession.TotalSize s));
      ("uploadedSize", Json.Number (UploadSession.UploadedSize s));
      ("startTime", Json.String (formatTime (UploadSession.StartTime s)));
      ("lastUpdate", Json.String (formatTime (UploadSession.LastUpdate s)));
      ("isCompleted", Json.Bool (UploadSession.IsCompleted s));
      ("files",
       Json.Object
         (List.map (fun kv => (fst kv, encodeFileProgress (snd kv)))
                   (Json.sorted_entries (UploadSession.Files s))));
      ("retryAttempts", Json.Number (UploadSession.RetryAttempts s)) ].

(** An element of the [files] map is decoded into a fresh
    [FileProgress].  ([null] would leave a nil pointer in the Go map;
    the model has no nil entries and refuses such a document.) *)
Definition decodeFileProgress (v : Json.value) : Result string FileProgress.t :=
  match v with
  | Json.Object ms =>
      try fileName <-
        Json.into Json.decodeString "" (Json.values_of "fileName" ms);
      try totalSize <-
        Json.into Json.decodeInt 0 (Json.values_of "totalSize" ms);
      try uploadedSize <-
        Json.into Json.decodeInt 0 (Json.values_of "uploadedSize" ms);
      try chunksTotal <-
        Json.into Json.decodeInt 0 (Json.values_of "chunksTotal" ms);
      try chunksUploaded <-
        Json.into Json.decodeInt 0 (Json.values_of "chunksUploaded" ms);
      try startTime <-
        Json.into decodeTime zeroTime (Json.values_of "startTime" ms);
      try lastUpdate <-
        Json.into decodeTime zeroTime (Json.values_of "lastUpdate" ms);
      try isCompleted <-
        Json.into Json.decodeBool false (Json.values_of "isCompleted" ms);
      try sha1Hash <-
        Json.into Json.decodeString "" (Json.values_of "sha1Hash" ms);
      Ok {| FileProgress.FileName := fileName;
            FileProgress.TotalSize := totalSize;
            FileProgress.UploadedSize := uploadedSize;
            FileProgress.ChunksTotal := chunksTotal;
            FileProgress.ChunksUploaded := chunksUploaded;
            FileProgress.StartTime := startTime;
            FileProgress.LastUpdate := lastUpdate;
            FileProgress.IsCompleted := isCompleted;
            FileProgress.SHA1Hash := sha1Hash |}
  | Json.Null => Err "nil entry in files"
  | _ => Err "json: cannot unmarshal into Go value of type FileProgress"
  end.

Definition decodeFiles (cur : gmap string FileProgress.t) (v : Json.value)
  : Result string (gmap string FileProgress.t) :=
  match v with
  | Json.Object ms =>
      fold_left
        (fun acc kv =>
           try m <- acc;
           try f <- decodeFileProgress (snd kv);
           Ok (<[fst kv := f]> m))
        ms (Ok cur)
  | Json.Null => Ok cur
  | _ => Err "json: cannot unmarshal into Go value of type map"
  end.

Definition zeroSession : UploadSession.t :=
  {| UploadSession.SessionID := "";
     UploadSession.OVAFile := "";
     UploadSession.ESXiHost := "";
     UploadSession.Datastore := "";
     UploadSession.VMName := "";
     UploadSession.TotalSize := 0;
     UploadSession.UploadedSize := 0;
     UploadSession.StartTime := zeroTime;
     UploadSession.LastUpdate := zeroTime;
     UploadSession.IsCompleted := false;
     UploadSession.Files := ∅;
     UploadSession.RetryAttempts := 0 |}.

Definition decodeSession (v : Json.value) : Result string UploadSession.t :=
  match v with
  | Json.Object ms =>
      try sessionId <-
        Json.into Json.decodeString "" (Json.values_of "sessionId" ms);
      try ovaFile <-
        Json.into Json.decodeString "" (Json.values_of "ovaFile" ms);
      try esxiHost <-
        Json.into Json.decodeString "" (Json.values_of "esxiHost" ms);
      try datastore <-
        Json.into Json.decodeString "" (Json.values_of "datastore" ms);
      try vmName <-
        Json.into Json.decodeString "" (Json.values_of "vmName" ms);
      try totalSize <-
        Json.into Json.decodeInt 0 (Json.values_of "totalSize" ms);
      try uploadedSize <-
        Json.into Json.decodeInt 0 (Json.values_of "uploadedSize" ms);
      try startTime <-
        Json.into decodeTime zeroTime (Json.values_of "startTime" ms);
      try lastUpdate <-
        Json.into decodeTime zeroTime (Json.values_of "lastUpdate" ms);
      try isCompleted <-
        Json.into Json.decodeBool false (Json.values_of "isCompleted" ms);
      try files <-
        Json.into decodeFiles ∅ (Json.values_of "files" ms);
      try retryAttempts <-
        Json.into Json.decodeInt 0 (Json.values_of "retryAttempts" ms);
      Ok {| UploadSession.SessionID := sessionId;
            UploadSession.OVAFile := ovaFile;
            UploadSession.ESXiHost := esxiHost;
            UploadSession.Datastore := datastore;
            UploadSession.VMName := vmName;
            UploadSession.TotalSize := totalSize;
            UploadSession.UploadedSize := uploadedSize;
            UploadSession.StartTime := startTime;
            UploadSession.LastUpdate := lastUpdate;
            UploadSession.IsCompleted := isCompleted;
            UploadSession.Files := files;
            UploadSession.RetryAttempts := retryAttempts |}
  | Json.Null => Ok zeroSession
  | _ => Err "json: cannot unmarshal into Go value of type UploadSession"
  end.

(** The file system: the content of every file that exists. *)
Definition ReadFile (fs : gmap string Text) (name : string)
  : Result string Text :=
  match fs !! name with
  | Some data => Ok data
  | None => Err "open: no such file or directory"
  end.

(** Writing creates or replaces the file; the empty path names no
    file. *)
Definition WriteFile (fs : gmap string Text) (name : string) (data : Text)
  : Result string (gmap string Text) :=
  if String.eqb name "" then Err "open: no such file or directory"
  else Ok (<[name := data]> fs).

(** [Save] returns its error ([None] for [nil]) and the file system it
    leaves. *)
Definition Save (t : Tracker) (fs : gmap string Text)
  : option string * gmap string Text :=
  let data := render (encodeSession (session t)) in
  match WriteFile fs (sessionFile t) data with
  | Ok fs' => (None, fs')
  | Err e => (Some ("failed to write session file: " ++ e)%string, fs)
  end.

Definition LoadTracker (fs : gmap string Text) (sessionFile : string)
  : Result string Tracker :=
  match ReadFile fs sessionFile with
  | Err e => Err ("failed to read session file: " ++ e)%string
  | Ok data =>
      match parse data with
      | None => Err "failed to parse session file: invalid JSON"
      | Some doc =>
          match decodeSession doc with
          | Err e => Err ("failed to parse session file: " ++ e)%string
          | Ok s =>
              Ok {| session := s;
                    sessionFile := sessionFile;
                    autoSave := true;
                    saveInterval := 5 * Retry.Second |}
          end
      end
  end.




(** *** [Close] and [Delete]

    The stop channel is kept beside the tracker: [stopped] tells whether
    [stopSaving] has been closed; closing it again panics.  The operating
    system can let a write or a removal fail whatever the files are (a
    directory that is missing or read-only, a full disk); the model takes
    these failures as given.  The goroutine that saves periodically is not
    part of the model: what follows is what the calling goroutine does. *)

Section Lifecycle.

(** How [os.WriteFile] fails on a path, if it does: before the file is
    opened, which leaves the file system as it is, or after, which leaves
    the file with some other content. *)
Inductive WriteFault :=
| Refused
| Truncated (content : Text).

Variable writeFault : string -> option WriteFault.

(** The paths [os.Remove] refuses although the file exists. *)
Variable removeRefused : string -> bool.

(** The final [t.Save()] on such a system. *)
Definition finalSave (t : Tracker) (fs : gmap string Text)
  : option string * gmap string Text :=
  match writeFault (sessionFile t) with
  | None => Save t fs
  | Some Refused =>
      (Some "failed to write session file: permission denied", fs)
  | Some (Truncated content) =>
      (Some "failed to write session file: no space left on device",
       <[sessionFile t := content]> fs)
  end.

(** [os.Remove]: the file must exist. *)
Definition Remove (fs : gmap string Text) (name : string)
  : Result string (gmap string Text) :=
  match fs !! name with
  | Some _ =>
      if removeRefused name then Err "remove: permission denied"
      else Ok (delete name fs)
  | None => Err "remove: no such file or directory"
  end.

(** [Close] closes the stop channel and saves once more; the error of that
    save is dropped.  The result is the state of the channel and the file
    system. *)
Definition Close (t : Tracker) (stopped : bool) (fs : gmap string Text)
  : Exit (bool * gmap string Text) :=
  if stopped then Panicked "close of closed channel"
  else Returned (true, snd (finalSave t fs)).

(** [Delete]: [Close], then removal of the session file. *)
Definition Delete (t : Tracker) (stopped : bool) (fs : gmap string Text)
  : Exit (option string * bool * gmap string Text) :=
  match Close t stopped fs with
  | Panicked msg => Panicked msg
  | Returned (stopped', fs1) =>
      match Remove fs1 (sessionFile t) with
      | Ok fs2 => Returned (None, stopped', fs2)
      | Err e => Returned (Some e, stopped', fs1)
      end
  end.

End Lifecycle.

End Persistence.

Definition IncrementRetryAttempts (now : Time) (t : Tracker) : Tracker :=
  let s := session t in
  with_session t
    {| UploadSession.SessionID := UploadSession.SessionID s;
       UploadSession.OVAFile := UploadSession.OVAFile s;
       UploadSession.ESXiHost := UploadSession.ESXiHost s;
       UploadSession.Datastore := UploadSession.Datastore s;
       UploadSession.VMName := UploadSession.VMName s;
       UploadSession.TotalSize := UploadSession.TotalSize s;
       UploadSession.UploadedSize := UploadSession.UploadedSize s;
       UploadSession.StartTime := UploadSession.StartTime s;
       UploadSession.LastUpdate := now;
       UploadSession.IsCompleted := UploadSession.IsCompleted s;
       UploadSession.Files := UploadSession.Files s;
       UploadSession.RetryAttempts :=
         Int64.add (UploadSession.RetryAttempts s) 1 |}.

(** *** [formatBytes]: the choice of the unit

    The loop [for n := bytes / unit; n >= unit; n /= unit] that multiplies
    [div] and counts [exp]; the text it prints afterwards divides by [div]
    in floating point and is not modelled. *)
Definition unit : Z := 1024.

Fixpoint scale (fuel : nat) (n div exp : Z) : option (Z * Z) :=
  match fuel with
  | O => None
  | S fuel' =>
      if unit <=? n
      then scale fuel' (Int64.div n unit) (Int64.mul div unit)
                 (Int64.add exp 1)
      else Some (div, exp)
  end.

(** ["KMGTPE"[exp]]; [None] is the index-out-of-range panic. *)
Definition suffix (exp : Z) : option ascii :=
  if exp <? 0 then None
  else nth_error (list_ascii_of_string "KMGTPE") (Z.to_nat exp).

(** For [bytes >= unit]: the divisor and the letter [formatBytes] prints
    with. *)
Definition formatBytes_unit (fuel : nat) (bytes : Z) : option (Z * ascii) :=
  match scale fuel (Int64.div bytes unit) unit 0 with
  | Some (div, exp) =>
      match suffix exp with
      | Some letter => Some (div, letter)
      | None => None
      end
  | None => None
  end.

(** The sums the aggregate counters of the session stand for. *)
Definition uploadedSum (files : gmap string FileProgress.t) : Z :=
  map_fold (fun _ f acc => FileProgress.UploadedSize f + acc) 0 files.

Definition totalSum (files : gmap string FileProgress.t) : Z :=
  map_fold (fun _ f acc => FileProgress.TotalSize f + acc) 0 files.

(** The aggregates agree with the items, as 64-bit integers. *)
Definition aggregates_agree (s : UploadSession.t) : Prop :=
  Int64.wrap (UploadSession.UploadedSize s)
  = Int64.wrap (uploadedSum (UploadSession.Files s)) /\
  Int64.wrap (UploadSession.TotalSize s)
  = Int64.wrap (totalSum (UploadSession.Files s)).

End Progress.

(** ** pkg/ova/parser.go *)

Module Tar.

(** What [archive/tar] reports for one record. *)
Record Header := mkHeader {
  Typeflag : ascii;
  Name : string;
  Size : Z
}.

(** [tar.TypeReg] *)
Definition TypeReg : ascii := "0"%char.

(** One call of [tarReader.Next()] before [io.EOF]. *)
Inductive next :=
| Entry (h : Header)
| ReadError (msg : string).

End Tar.

Module Ova.

Record OVAFile := mkOVAFile {
  Name : string;
  Size : Z;
  Offset : Z;
  SHA1Hash : string
}.

Module ManifestEntry.
Record t := mk {
  FileName : string;
  SHA1Hash : string
}.
End ManifestEntry.

Record OVAPackage := mkOVAPackage {
  FilePath : string;
  OVFFile : option OVAFile;
  VMDKFiles : list OVAFile;
  ManifestFile : option OVAFile;
  CertFile : option OVAFile;
  TotalSize : Z
}.

Inductive Error :=
| OpenFailed
| TarReadFailed (msg : string)
| NoOVFFile
| NoVMDKFiles
| ManifestFailed (cause : Error)
| SeekFailed
| SliceOutOfRange
| EndOfFile
| ChecksumMismatch (name expected actual : string).

(** The two failures of [ParseOVA] for an archive that lacks a required
    entry. *)
Definition MissingRequiredEntry (e : Error) : bool :=
  match e with
  | NoOVFFile | NoVMDKFiles => true
  | _ => false
  end.

(** A file on disk: its bytes, and the records [archive/tar] reads from
    them.  (The decoding of the tar format belongs to the standard
    library and is not modelled.) *)
Record File := mkFile {
  bytes : string;
  records : list Tar.next
}.

(** [filepath.Ext]: the loop runs from the last byte down to the first
    and stops at a path separator. *)
Fixpoint ext_scan (rev_prefix : list ascii) (suffix : string) : string :=
  match rev_prefix with
  | [] => ""
  | c :: rest =>
      if Ascii.eqb c "/" then ""
      else if Ascii.eqb c "." then String c suffix
      else ext_scan rest (String c suffix)
  end.

Definition Ext (path : string) : string :=
  ext_scan (rev (list_ascii_of_string path)) "".

Definition withOVF (pkg : OVAPackage) (f : OVAFile) : OVAPackage :=
  {| FilePath := FilePath pkg; OVFFile := Some f;
     VMDKFiles := VMDKFiles pkg; ManifestFile := ManifestFile pkg;
     CertFile := CertFile pkg; TotalSize := TotalSize pkg |}.

Definition withVMDK (pkg : OVAPackage) (f : OVAFile) : OVAPackage :=
  {| FilePath := FilePath pkg; OVFFile := OVFFile pkg;
     VMDKFiles := VMDKFiles pkg ++ [f]; ManifestFile := ManifestFile pkg;
     CertFile := CertFile pkg; TotalSize := TotalSize pkg |}.

Definition withManifest (pkg : OVAPackage) (f : OVAFile) : OVAPackage :=
  {| FilePath := FilePath pkg; OVFFile := OVFFile pkg;
     VMDKFiles := VMDKFiles pkg; ManifestFile := Some f;
     CertFile := CertFile pkg; TotalSize := TotalSize pkg |}.

Definition withCert (pkg : OVAPackage) (f : OVAFile) : OVAPackage :=
  {| FilePath := FilePath pkg; OVFFile := OVFFile pkg;
     VMDKFiles := VMDKFiles pkg; ManifestFile := ManifestFile pkg;
     CertFile := Some f; TotalSize := TotalSize pkg |}.

(** The [switch ext] of [ParseOVA]. *)
Definition classify (pkg : OVAPackage) (f : OVAFile) : OVAPackage :=
  let ext := Str.ToLower (Ext (Name f)) in
  if String.eqb ext ".ovf" then withOVF pkg f
  else if String.eqb ext ".vmdk" then withVMDK pkg f
  else if String.eqb ext ".mf" then withManifest pkg f
  else if String.eqb ext ".cert" then withCert pkg f
  else pkg.

(** The [for] loop of [ParseOVA]: one step per record, [offset] being the
    running sum of the sizes seen so far. *)
Fixpoint index (stream : list Tar.next) (offset : Z) (pkg : OVAPackage)
  : Result Error OVAPackage :=
  match stream with
  | [] => Ok pkg
  | Tar.ReadError msg :: _ => Err (TarReadFailed msg)
  | Tar.Entry header :: rest =>
      if negb (Ascii.eqb (Tar.Typeflag header) Tar.TypeReg) then
        index rest (Int64.add offset (Tar.Size header)) pkg
      else
        let ovaFile := {| Name := Tar.Name header;
                          Size := Tar.Size header;
                          Offset := offset;
                          SHA1Hash := "" |} in
        index rest (Int64.add offset (Tar.Size header)) (classify pkg ovaFile)
  end.

(** How [ParseOVA] sees a record: only regular files count, and the
    lower-cased extension decides the kind. *)
Definition is_regular (h : Tar.Header) : bool :=
  Ascii.eqb (Tar.Typeflag h) Tar.TypeReg.

Definition has_ext (ext : string) (h : Tar.Header) : bool :=
  is_regular h && String.eqb (Str.ToLower (Ext (Tar.Name h))) ext.

(** The configuration descriptor and the payload entries of an
    archive. *)
Definition is_config : Tar.Header -> bool := has_ext ".ovf".
Definition is_payload : Tar.Header -> bool := has_ext ".vmdk".



(** The payload descriptors the loop collects from [hs] when it starts
    at [offset]. *)
Fixpoint payloads (hs : list Tar.Header) (offset : Z) : list OVAFile :=
  match hs with
  | [] => []
  | h :: rest =>
      (if is_payload h
       then [ {| Name := Tar.Name h; Size := Tar.Size h;
                 Offset := offset; SHA1Hash := "" |} ]
       else [])
      ++ payloads rest (Int64.add offset (Tar.Size h))
  end.

(** [file.Seek(offset, io.SeekStart)] followed by reading exactly [size]
    bytes, as [io.ReadFull] into a buffer of [size] bytes does. *)
Definition read_at (data : string) (offset size : Z) : Result Error string :=
  if offset <? 0 then Err SeekFailed
  else if size <? 0 then Err SliceOutOfRange
  else if size =? 0 then Ok ""
  else if Retry.strlen data <? offset + size then Err EndOfFile
  else Ok (String.substring (Z.to_nat offset) (Z.to_nat size) data).

(** [strings.Split(s, "\n")] *)
Fixpoint split_lines (s : string) : list string :=
  match s with
  | EmptyString => [""]
  | String c rest =>
      if Ascii.eqb c "010" then "" :: split_lines rest
      else match split_lines rest with
           | [] => [String c ""]
           | l :: ls => String c l :: ls
           end
  end.

Definition is_space (c : ascii) : bool :=
  let n := nat_of_ascii c in
  ((9 <=? n) && (n <=? 13) || (n =? 32))%nat.

Fixpoint trim_left (s : string) : string :=
  match s with
  | String c rest => if is_space c then trim_left rest else s
  | EmptyString => EmptyString
  end.

Fixpoint trim_right (s : string) : string :=
  match s with
  | EmptyString => EmptyString
  | String c rest =>
      match trim_right rest with
      | EmptyString => if is_space c then EmptyString else String c ""
      | rest' => String c rest'
      end
  end.

(** [strings.TrimSpace], on ASCII text. *)
Definition TrimSpace (s : string) : string := trim_right (trim_left s).

Section WithLibraries.

(** [re.FindStringSubmatch] for the manifest pattern: the whole match
    followed by its two groups, or nothing. *)
Variable FindStringSubmatch : string -> list string.

(** [crypto/sha1]: the 20-byte digest of a byte sequence, as the
    lower-case hexadecimal text [fmt.Sprintf("%x", ...)] prints. *)
Variable sha1_hex : string -> string.

Definition manifest_line (line : string) : list ManifestEntry.t :=
  let line := TrimSpace line in
  if String.eqb line "" then []
  else match FindStringSubmatch line with
       | [_; name; hash] =>
           [ {| ManifestEntry.FileName := name;
                ManifestEntry.SHA1Hash := Str.ToLower hash |} ]
       | _ => []
       end.

Definition parseManifestFile (disk : string -> option File)
           (ovaPath : string) (manifestFile : OVAFile)
  : Result Error (list ManifestEntry.t) :=
  match disk ovaPath with
  | None => Err OpenFailed
  | Some file =>
      try content <-
        read_at (bytes file) (Offset manifestFile) (Size manifestFile);
      Ok (flat_map manifest_line (split_lines content))
  end.

Definition manifestMap (manifest : list ManifestEntry.t)
  : gmap string string :=
  fold_left
    (fun m e => <[ManifestEntry.FileName e := ManifestEntry.SHA1Hash e]> m)
    manifest ∅.

Definition setHash (m : gmap string string) (f : OVAFile) : OVAFile :=
  match m !! Name f with
  | Some hash => {| Name := Name f; Size := Size f;
                    Offset := Offset f; SHA1Hash := hash |}
  | None => f
  end.

Definition updateHashesFromManifest (pkg : OVAPackage)
           (manifest : list ManifestEntry.t) : OVAPackage :=
  let m := manifestMap manifest in
  {| FilePath := FilePath pkg;
     OVFFile := option_map (setHash m) (OVFFile pkg);
     VMDKFiles := List.map (setHash m) (VMDKFiles pkg);
     ManifestFile := ManifestFile pkg;
     CertFile := CertFile pkg;
     TotalSize := TotalSize pkg |}.

Definition ParseOVA (disk : string -> option File) (ovaPath : string)
  : Result Error OVAPackage :=
  match disk ovaPath with
  | None => Err OpenFailed
  | Some file =>
      let pkg := {| FilePath := ovaPath;
                    OVFFile := None;
                    VMDKFiles := [];
                    ManifestFile := None;
                    CertFile := None;
                    TotalSize := Retry.strlen (bytes file) |} in
      try pkg <- index (records file) 0 pkg;
      match OVFFile pkg with
      | None => Err NoOVFFile
      | Some _ =>
          match VMDKFiles pkg with
          | [] => Err NoVMDKFiles
          | _ :: _ =>
              match ManifestFile pkg with
              | Some mf =>
                  match parseManifestFile disk ovaPath mf with
                  | Err e => Err (ManifestFailed e)
                  | Ok manifest =>
                      Ok (updateHashesFromManifest pkg manifest)
                  end
              | None => Ok pkg
              end
          end
      end
  end.

(** [io.CopyN(hash, file, n)] after the seek: the bytes hashed, or the
    error. *)
Definition copy_at (data : string) (offset n : Z) : Result Error string :=
  if offset <? 0 then Err SeekFailed
  else if n <=? 0 then Ok ""
  else if Retry.strlen data <? offset + n then Err EndOfFile
  else Ok (String.substring (Z.to_nat offset) (Z.to_nat n) data).

(** [ValidateFileChecksum]: [None] is [nil]. *)
Definition ValidateFileChecksum (disk : string -> option File)
           (ovaPath : string) (ovaFile : OVAFile) : option Error :=
  if String.eqb (SHA1Hash ovaFile) "" then None
  else
    match disk ovaPath with
    | None => Some OpenFailed
    | Some file =>
        match copy_at (bytes file) (Offset ovaFile) (Size ovaFile) with
        | Err e => Some e
        | Ok data =>
            let calculatedHash := sha1_hex data in
            if negb (String.eqb (Str.ToLower calculatedHash)
                                (Str.ToLower (SHA1Hash ovaFile)))
            then Some (ChecksumMismatch (Name ovaFile) (SHA1Hash ovaFile)
                                        calculatedHash)
            else None
        end
    end.

End WithLibraries.

Definition GetTotalVMDKSize (pkg : OVAPackage) : Z :=
  fold_left (fun total vmdk => Int64.add total (Size vmdk)) (VMDKFiles pkg) 0.

Definition ListFiles (pkg : OVAPackage) : list string :=
  match OVFFile pkg with Some f => [Name f] | None => [] end
  ++ List.map Name (VMDKFiles pkg)
  ++ match ManifestFile pkg with Some f => [Name f] | None => [] end
  ++ match CertFile pkg with Some f => [Name f] | None => [] end.

End Ova.

(** ** pkg/esxi/uploader.go: the work queue of [uploadFromOVAParallel] *)

Module Uploader.

Record chunkWork := mkChunkWork {
  chunkNumber : Z;
  ovaOffset : Z;
  chunkSize : Z
}.

(** [(totalSize + u.chunkSize - 1) / u.chunkSize] *)
Definition totalChunks (u_chunkSize totalSize : Z) : Z :=
  Int64.div (Int64.sub (Int64.add totalSize u_chunkSize) 1) u_chunkSize.

(** The loop [for chunkNum := 1; chunkNum <= totalChunks; chunkNum++]
    that fills the queue; [todo] counts the iterations left. *)
Fixpoint enqueue (todo : nat) (u_chunkSize offset totalSize : Z)
         (chunkNum currentOffset : Z) : list chunkWork :=
  match todo with
  | O => []
  | S todo' =>
      let chunkSize :=
        if totalSize <? Int64.add currentOffset u_chunkSize
        then Int64.sub totalSize currentOffset
        else u_chunkSize in
      {| chunkNumber := chunkNum;
         ovaOffset := Int64.add offset currentOffset;
         chunkSize := chunkSize |}
      :: enqueue todo' u_chunkSize offset totalSize
                 (Int64.add chunkNum 1) (Int64.add currentOffset chunkSize)
  end.

(** The content of [workQueue] when it is closed, in the order the items
    were sent.  The channel is buffered for [totalChunks] items, so every
    send is accepted whatever the workers do. *)
Definition workQueue (u_chunkSize offset totalSize : Z) : list chunkWork :=
  enqueue (Z.to_nat (totalChunks u_chunkSize totalSize))
          u_chunkSize offset totalSize 1 0.


(** *** The sequential upload, [uploadFromOVAChunkedQuiet] *)

(** The status check of [uploadChunkFromOVAQuiet]: [None] when the status
    is 200, 201, 206 or 204. *)
Definition statusError (status : Z) (body : string) : option string :=
  if negb (status =? 200) && negb (status =? 201)
     && negb (status =? 206) && negb (status =? 204)
  then Some ("upload failed with status " ++ Str.Itoa status ++ ": "
             ++ body)%string
  else None.

(** What a run of the sequential upload leaves: the error returned, the
    ranges (offset in the archive, length) it asked to be sent, the values
    it reported to the progress callback, and the state of the endpoint. *)
Record StreamOutcome (W : Type) := mkStreamOutcome {
  streamError : option string;
  requests : list (Z * Z);
  reportedBytes : list Z;
  endpoint : W
}.
Arguments mkStreamOutcome {W}.
Arguments streamError {W}.
Arguments requests {W}.
Arguments reportedBytes {W}.
Arguments endpoint {W}.

Section Streaming.

(** [uploadChunkFromOVAQuiet] for the range of [chunkSize] bytes at
    [ovaOffset]: the error ([None] for nil) and the endpoint afterwards. *)
Variable W : Type.
Variable put : W -> Z -> Z -> option string * W.

(** The loop [for uploadedBytes < totalSize]. *)
Fixpoint streamLoop (fuel : nat) (u_chunkSize offset totalSize : Z)
         (uploadedBytes : Z) (w : W) (sent : list (Z * Z))
         (reported : list Z) : option (StreamOutcome W) :=
  match fuel with
  | O => None
  | S fuel' =>
      if uploadedBytes <? totalSize then
        let chunkSize :=
          if totalSize <? Int64.add uploadedBytes u_chunkSize
          then Int64.sub totalSize uploadedBytes
          else u_chunkSize in
        let ovaOffset := Int64.add offset uploadedBytes in
        match put w ovaOffset chunkSize with
        | (Some err, w') =>
            Some (mkStreamOutcome
                    (Some ("failed to upload chunk at offset "
                           ++ Str.Itoa uploadedBytes ++ ": " ++ err)%string)
                    (sent ++ [(ovaOffset, chunkSize)]) reported w')
        | (None, w') =>
            let uploadedBytes := Int64.add uploadedBytes chunkSize in
            streamLoop fuel' u_chunkSize offset totalSize uploadedBytes w'
                       (sent ++ [(ovaOffset, chunkSize)])
                       (reported ++ [uploadedBytes])
        end
      else Some (mkStreamOutcome None sent reported w)
  end.

(** The division [(totalSize + u.chunkSize - 1) / u.chunkSize] that
    computes the number of chunks for the log panics when the chunk size is
    0.  [Returned None] is a loop that has not ended within [fuel]
    iterations. *)
Definition uploadFromOVAChunkedQuiet (fuel : nat)
           (u_chunkSize offset totalSize : Z) (w : W)
  : Exit (option (StreamOutcome W)) :=
  if u_chunkSize =? 0 then Panicked "integer divide by zero"
  else Returned (streamLoop fuel u_chunkSize offset totalSize 0 w [] []).

End Streaming.

(** The range a work item asks for. *)
Definition range (work : chunkWork) : Z * Z :=
  (ovaOffset work, chunkSize work).

End Uploader.

(** ** The upload command: how it drives the tracker *)

Module Cmd.

(** The progress callback [runUpload] hands to [ExecuteWithProgress]: a
    snapshot that carries an error counts as one retry. *)
Definition onAttempt (clock : Z -> Progress.Time) (t : Progress.Tracker)
           (args : Z * option string * Z) : Progress.Tracker :=
  match args with
  | (attempt, Some _, _) => Progress.IncrementRetryAttempts (clock attempt) t
  | (_, None, _) => t
  end.

(** Registration of the files of the parsed package, the descriptor first,
    then the disks.  The [n]-th reading of the clock is [clock n]. *)
Definition addOne (clock : nat -> Progress.Time)
           (st : nat * Progress.Tracker) (f : Ova.OVAFile)
  : nat * Progress.Tracker :=
  let '(n, t) := st in
  (n + 3,
   Progress.AddFile (clock n) (clock (n + 1)) (clock (n + 2))
                    (Ova.Name f) (Ova.Size f) (Ova.SHA1Hash f) t)%nat.

Definition registerFiles (clock : nat -> Progress.Time)
           (pkg : Ova.OVAPackage) (t : Progress.Tracker) : Progress.Tracker :=
  let st := match Ova.OVFFile pkg with
            | Some f => addOne clock (O, t) f
            | None => (O, t)
            end in
  snd (fold_left (addOne clock) (Ova.VMDKFiles pkg) st).

(** The test of the upload loop that skips a disk:
    [fileProgress != nil && fileProgress.IsCompleted]. *)
Definition alreadyUploaded (t : Progress.Tracker) (name : string) : bool :=
  match Progress.GetFileProgress name t with
  | Some file => Progress.FileProgress.IsCompleted file
  | None => false
  end.

End Cmd.

(** ** Sample states used in the examples below *)

Module Sample.

(** A fresh session with one registered item of 100 bytes. *)
Definition tracker : Progress.Tracker :=
  Progress.AddFile 1 1 1 "disk1.vmdk" 100 ""
    (Progress.NewTracker 0 0 "1700000000" "vm.ova" "esxi.local"
                         "datastore1" "vm").

(** The item was reported fully uploaded, then reported at 40 bytes by a
    restarted upload, then marked completed; a second item was registered
    afterwards. *)
Definition restarted : Progress.Tracker :=
  Progress.AddFile 6 6 6 "disk2.vmdk" 10 ""
    (Progress.MarkFileCompleted 5 5 "disk1.vmdk"
       (Progress.UpdateFileProgress 4 4 "disk1.vmdk" 40
          (Progress.UpdateFileProgress 3 3 "disk1.vmdk" 100 tracker))).

Definition regular (name : string) (size : Z) : Tar.Header :=
  {| Tar.Typeflag := Tar.TypeReg; Tar.Name := name; Tar.Size := size |}.

(** An archive without a configuration descriptor. *)
Definition no_descriptor : Ova.File :=
  {| Ova.bytes := "0123456789abcdef";
     Ova.records := [Tar.Entry (regular "disk1.vmdk" 8)] |}.



(** Libraries for the examples: a pattern that matches no line, and a
    digest function that ignores its input. *)
Definition no_match (line : string) : list string := [].
Definition constant_digest (data : string) : string :=
  "da39a3ee5e6b4b0d3255bfef95601890afd80709".

(** A package with a descriptor and one disk, and a manifest that lists
    the disk twice. *)
Definition package : Ova.OVAPackage :=
  {| Ova.FilePath := "vm.ova";
     Ova.OVFFile := Some {| Ova.Name := "vm.ovf"; Ova.Size := 4;
                            Ova.Offset := 0; Ova.SHA1Hash := "" |};
     Ova.VMDKFiles := [ {| Ova.Name := "disk1.vmdk"; Ova.Size := 100;
                           Ova.Offset := 4; Ova.SHA1Hash := "" |} ];
     Ova.ManifestFile := None;
     Ova.CertFile := None;
     Ova.TotalSize := 104 |}.

Definition manifest : list Ova.ManifestEntry.t :=
  [ {| Ova.ManifestEntry.FileName := "disk1.vmdk";
       Ova.ManifestEntry.SHA1Hash := "aaaa" |};
    {| Ova.ManifestEntry.FileName := "disk1.vmdk";
       Ova.ManifestEntry.SHA1Hash := "bbbb" |} ].

(** An archive whose reader fails after two entries. *)
Definition cut_short : Ova.File :=
  {| Ova.bytes := "0123456789abcdef";
     Ova.records := [Tar.Entry (regular "vm.ovf" 4);
                     Tar.Entry (regular "disk1.vmdk" 8);
                     Tar.ReadError "unexpected EOF"] |}.

(** A platform for the examples.  A conversion to [int64] that is out of
    range gives the smallest [int64], as the conversion instruction of
    amd64 does; a power with a natural exponent is computed by repeated
    multiplication (so [Pow x 0 = 1] and [Pow x 1 = x], as [math.Pow]
    documents), any other power is NaN. *)
Definition Pow (x y : Float64.t) : Float64.t :=
  match y with
  | S754_zero _ => Float64.ofInt 1
  | S754_finite false _ _ =>
      match Float64.trunc y with
      | Some n =>
          if SFeqb (Float64.ofInt n) y
          then Z.iter n (Float64.mul x) (Float64.ofInt 1)
          else S754_nan
      | None => S754_nan
      end
  | _ => S754_nan
  end.

Definition fpu : Float64.Platform :=
  {| Float64.Pow := Pow; Float64.outOfRange := fun _ => Int64.min_int |}.

(** A codec for time stamps: the decimal text of the instant. *)
Definition formatTime (tm : Progress.Time) : string :=
  DecimalString.NilEmpty.string_of_int (Z.to_int tm).
Definition parseTime (text : string) : option Progress.Time :=
  option_map Z.of_int (DecimalString.NilEmpty.int_of_string text).

End Sample.

(** * Properties *)

(** ** Integers *)

Lemma wrap_in_range (z : Z) : Int64.in_range z -> Int64.wrap z = z.
Proof.
  unfold Int64.in_range, Int64.min_int, Int64.max_int, Int64.wrap.
  intros [Hlo Hhi].
  rewrite Z.mod_small by lia. lia.
Qed.

Lemma wrap_range (z : Z) : Int64.in_range (Int64.wrap z).
Proof.
  unfold Int64.in_range, Int64.min_int, Int64.max_int, Int64.wrap.
  pose proof (Z.mod_pos_bound (z + 2 ^ 63) (2 ^ 64) ltac:(lia)). lia.
Qed.

(** ** The retry executor *)

Lemma float_is_zero_spec (x : Q) : Retry.float_is_zero x = true <-> (x == 0)%Q.
Proof. unfold Retry.float_is_zero. apply Qeq_bool_iff. Qed.

Lemma float_is_pos_spec (x : Q) : Retry.float_is_pos x = true <-> (0 < x)%Q.
Proof.
  unfold Retry.float_is_pos. rewrite negb_true_iff.
  destruct (Qle_bool x 0) eqn:E.
  - apply Qle_bool_iff in E. split; [discriminate|].
    intros H. exfalso. apply (Qlt_irrefl 0). eapply Qlt_le_trans; eauto.
  - split; [intros _|reflexivity].
    apply Qnot_le_lt. intros H. apply Qle_bool_iff in H. congruence.
Qed.

(** C10, as stated, fails: a negative jitter fraction or base delay is not
    zero, so the constructor keeps it, and the executor it builds has a
    jitter fraction and a base delay that are not strictly positive. *)
Lemma NewRetryManager_keeps_negative :
  let config := {| Retry.MaxRetries := 3;
                   Retry.BaseDelay := - Retry.Second;
                   Retry.MaxDelay := 0;
                   Retry.BackoffFactor := 0;
                   Retry.JitterRange := - (1 # 2);
                   Retry.RetryableErrors := [] |} in
  let rm := Retry.NewRetryManager config in
  Retry.jitterRange rm = (- (1 # 2))%Q /\
  Retry.baseDelay rm = - Retry.Second /\
  ~ (0 < Retry.jitterRange rm)%Q /\
  ~ (0 < Retry.baseDelay rm).
Proof.
  cbv zeta. repeat split.
  - intros H. vm_compute in H. discriminate.
  - intros H. vm_compute in H. discriminate.
Qed.

(** C10, amended.  The constructor replaces a zero field by its default:
    maximum attempts [0] by the sentinel [-1], base delay [0] by one second,
    maximum delay [0] by five minutes, backoff factor [0] by [2.0], jitter
    fraction [0] by [0.1]; a field that is not zero is kept, negative values
    included.  So no executor built by the constructor has jitter fraction
    zero, and for a configuration whose jitter fraction and base delay are
    not negative the executor's jitter fraction and base delay are strictly
    positive. *)
Theorem NewRetryManager_defaults (config : Retry.Config) :
  let rm := Retry.NewRetryManager config in
  (Retry.MaxRetries config = 0 -> Retry.maxRetries rm = -1) /\
  (Retry.BaseDelay config = 0 -> Retry.baseDelay rm = 1 * Retry.Second) /\
  (Retry.MaxDelay config = 0 -> Retry.maxDelay rm = 5 * Retry.Minute) /\
  ((Retry.BackoffFactor config == 0)%Q -> Retry.backoffFactor rm = 2 # 1) /\
  ((Retry.JitterRange config == 0)%Q -> Retry.jitterRange rm = 1 # 10) /\
  (Retry.MaxRetries config <> 0 ->
   Retry.maxRetries rm = Retry.MaxRetries config) /\
  (Retry.BaseDelay config <> 0 ->
   Retry.baseDelay rm = Retry.BaseDelay config) /\
  (Retry.MaxDelay config <> 0 ->
   Retry.maxDelay rm = Retry.MaxDelay config) /\
  (~ (Retry.BackoffFactor config == 0)%Q ->
   Retry.backoffFactor rm = Retry.BackoffFactor config) /\
  (~ (Retry.JitterRange config == 0)%Q ->
   Retry.jitterRange rm = Retry.JitterRange config) /\
  ~ (Retry.jitterRange rm == 0)%Q /\
  ((0 <= Retry.JitterRange config)%Q -> (0 < Retry.jitterRange rm)%Q) /\
  (0 <= Retry.BaseDelay config -> 0 < Retry.baseDelay rm).
Proof.
  destruct config as [mr bd md bf jr pats]. cbn.
  pose proof (float_is_zero_spec bf) as Hbf.
  pose proof (float_is_zero_spec jr) as Hjr.
  destruct (Z.eqb_spec mr 0), (Z.eqb_spec bd 0), (Z.eqb_spec md 0),
    (Retry.float_is_zero bf) eqn:Ebf, (Retry.float_is_zero jr) eqn:Ejr;
    repeat split; intros;
    try reflexivity; try lia; try discriminate;
    try (exfalso; intuition congruence);
    try (unfold Retry.Second; lia).
  all: try (apply Qlt_alt; reflexivity).
  all: try (apply Qle_lteq in H; destruct H as [H|H]; [exact H|];
            exfalso; symmetry in H; intuition congruence).
  all: try (intuition congruence).
Qed.

Lemma NewRetryManager_defaults_witness :
  let rm := Retry.NewRetryManager
              {| Retry.MaxRetries := 0; Retry.BaseDelay := 0;
                 Retry.MaxDelay := 0; Retry.BackoffFactor := 0;
                 Retry.JitterRange := 0; Retry.RetryableErrors := [] |} in
  Retry.maxRetries rm = -1 /\
  Retry.baseDelay rm = 1 * Retry.Second /\
  Retry.maxDelay rm = 5 * Retry.Minute /\
  Retry.backoffFactor rm = 2 # 1 /\
  Retry.jitterRange rm = 1 # 10 /\
  (0 < Retry.jitterRange rm)%Q /\
  0 < Retry.baseDelay rm.
Proof.
  pose proof (NewRetryManager_defaults
                {| Retry.MaxRetries := 0; Retry.BaseDelay := 0;
                   Retry.MaxDelay := 0; Retry.BackoffFactor := 0;
                   Retry.JitterRange := 0; Retry.RetryableErrors := [] |})
    as (H1 & H2 & H3 & H4 & H5 & _ & _ & _ & _ & _ & _ & H6 & H7).
  cbv zeta.
  split; [apply H1; reflexivity|].
  split; [apply H2; reflexivity|].
  split; [apply H3; reflexivity|].
  split; [apply H4; reflexivity|].
  split; [apply H5; reflexivity|].
  split; [apply H6; cbn; apply Qle_refl|].
  apply H7; cbn; lia.
Defined.

(** C2.  The jitter is added after the clamp to the maximum delay, so the
    delay can exceed it.  With base delay and maximum delay of one second,
    jitter fraction [0.5] and the random sample [0.75], the delay after the
    first attempt is 1.25 seconds, on every platform whose [math.Pow]
    returns 1 for the exponent 0: every operation of the computation is
    exact in binary64. *)
Theorem calculateDelay_exceeds_maxDelay (fpu : Float64.Platform) :
  Float64.Pow fpu (Float64.ofQ (2 # 1)) (Float64.ofInt 0) = Float64.ofInt 1 ->
  let rm := Retry.NewRetryManager
              {| Retry.MaxRetries := 3;
                 Retry.BaseDelay := Retry.Second;
                 Retry.MaxDelay := Retry.Second;
                 Retry.BackoffFactor := 2 # 1;
                 Retry.JitterRange := 1 # 2;
                 Retry.RetryableErrors := [] |} in
  Retry.maxDelay rm = 1000000000 /\
  Retry.calculateDelay fpu rm (3 # 4) 1 = 1250000000 /\
  ~ Retry.calculateDelay fpu rm (3 # 4) 1 <= Retry.maxDelay rm.
Proof.
  intros Hpow rm.
  assert (Hrun : Retry.calculateDelay fpu rm (3 # 4) 1 = 1250000000).
  { unfold Retry.calculateDelay. subst rm.
    change (Retry.backoffFactor _) with (2 # 1).
    change (Int64.sub 1 1) with 0.
    rewrite Hpow. reflexivity. }
  split; [reflexivity|]. split; [exact Hrun|].
  rewrite Hrun. subst rm. cbn. unfold Retry.Second. lia.
Qed.

Lemma calculateDelay_exceeds_maxDelay_witness :
  let rm := Retry.NewRetryManager
              {| Retry.MaxRetries := 3;
                 Retry.BaseDelay := Retry.Second;
                 Retry.MaxDelay := Retry.Second;
                 Retry.BackoffFactor := 2 # 1;
                 Retry.JitterRange := 1 # 2;
                 Retry.RetryableErrors := [] |} in
  Retry.maxDelay rm = 1000000000 /\
  Retry.calculateDelay Sample.fpu rm (3 # 4) 1 = 1250000000 /\
  ~ Retry.calculateDelay Sample.fpu rm (3 # 4) 1 <= Retry.maxDelay rm.
Proof.
  apply (calculateDelay_exceeds_maxDelay Sample.fpu).
  reflexivity.
Defined.

Lemma shouldRetry_unfold (rm : Retry.RetryManager) (err : string) (attempt : Z) :
  Retry.shouldRetry rm err attempt
  = negb ((0 <? Retry.maxRetries rm) && (Retry.maxRetries rm <=? attempt))
    && Retry.IsRetryableError rm err.
Proof.
  unfold Retry.shouldRetry, Retry.IsRetryableError.
  destruct ((0 <? Retry.maxRetries rm) && (Retry.maxRetries rm <=? attempt));
    reflexivity.
Qed.

Section LoopSteps.

Variable W : Type.
Variable fn : W -> option string * W.
Variable ctxDone : Z -> bool.
Variable ctxErr : string.
Variable rnd : Z -> Q.
Variable fpu : Float64.Platform.
Variable rm : Retry.RetryManager.

Let loop := Retry.loop W fn ctxDone ctxErr rnd fpu rm.

(** A failed attempt that is retried and whose wait is not cancelled
    costs one unit of fuel and one invocation. *)
Lemma loop_retry fuel attempt stats w calls log err w' :
  fn w = (Some err, w') ->
  Retry.shouldRetry rm err (attempt + 1) = true ->
  ctxDone (attempt + 1) = false ->
  exists stats' log',
    loop (S fuel) attempt stats w calls log
    = loop fuel (attempt + 1) stats' w' (S calls) log'.
Proof.
  intros Hfn Hretry Hwait. subst loop. cbn [Retry.loop].
  rewrite Hfn, Hretry, Hwait. cbn [negb]. eauto.
Qed.

Lemma loop_exhausted fuel attempt stats w calls log err w' :
  fn w = (Some err, w') ->
  Retry.shouldRetry rm err (attempt + 1) = false ->
  exists out,
    loop (S fuel) attempt stats w calls log = Some out /\
    Retry.invocations out = S calls /\
    Retry.returned out = Some (Retry.ExhaustedError (attempt + 1) err).
Proof.
  intros Hfn Hretry. subst loop. cbn [Retry.loop].
  rewrite Hfn, Hretry. cbn [negb]. eexists. split; [reflexivity|].
  split; reflexivity.
Qed.

Lemma loop_cancelled fuel attempt stats w calls log err w' :
  fn w = (Some err, w') ->
  Retry.shouldRetry rm err (attempt + 1) = true ->
  ctxDone (attempt + 1) = true ->
  exists out,
    loop (S fuel) attempt stats w calls log = Some out /\
    Retry.invocations out = S calls /\
    Retry.returned out = Some (Retry.CancelledError ctxErr).
Proof.
  intros Hfn Hretry Hwait. subst loop. cbn [Retry.loop].
  rewrite Hfn, Hretry, Hwait. cbn [negb]. eexists. split; [reflexivity|].
  split; reflexivity.
Qed.

End LoopSteps.

(** C1, as stated, fails: with a ceiling of three attempts and a pattern
    list that the error text does not match, the first failure is final.
    The operation is invoked once and the error reports one attempt. *)
Lemma Execute_stops_on_unmatched_error :
  let rm := Retry.NewRetryManager
              {| Retry.MaxRetries := 3;
                 Retry.BaseDelay := 0;
                 Retry.MaxDelay := 0;
                 Retry.BackoffFactor := 0;
                 Retry.JitterRange := 0;
                 Retry.RetryableErrors := ["timeout"] |} in
  let fn := fun _ : unit => (Some "disk full", tt) in
  Retry.maxRetries rm = 3 /\
  (forall w, fst (fn w) <> None) /\
  exists out,
    Retry.ExecuteWithStats unit fn (fun _ => false) "context canceled"
                           (fun _ => 1 # 2) Sample.fpu rm 3 tt = Some out /\
    Retry.invocations out = 1%nat /\
    Retry.invocations out <> 3%nat /\
    Retry.returned out = Some (Retry.ExhaustedError 1 "disk full").
Proof.
  cbv zeta. split; [reflexivity|]. split; [intros w; discriminate|].
  eexists. split; [vm_compute; reflexivity|].
  cbn. repeat split. discriminate.
Qed.

(** C1, amended.  Let the operation fail on every invocation with an error
    that is classified retryable (the pattern list is empty, or the error
    text contains one of the patterns).  With [maxRetries = 3] and no
    cancellation during the two waits, [Execute] invokes the operation
    exactly 3 times and returns the exhaustion error carrying the attempt
    count 3 and the error of the third invocation.  With no ceiling and the
    cancellation signal taken in the second wait (not in the first),
    [Execute] returns the cancellation error after exactly 2 invocations. *)
Theorem Execute_always_failing
        (W : Type) (fn : W -> option string * W)
        (ctxDone : Z -> bool) (ctxErr : string) (rnd : Z -> Q)
        (fpu : Float64.Platform)
        (rm : Retry.RetryManager) (w : W) :
  (forall w0, exists err, fst (fn w0) = Some err
                          /\ Retry.IsRetryableError rm err = true) ->
  ctxDone 1 = false ->
  (Retry.maxRetries rm = 3 -> ctxDone 2 = false ->
   forall fuel, (3 <= fuel)%nat ->
   exists out err,
     Retry.ExecuteWithStats W fn ctxDone ctxErr rnd fpu rm fuel w = Some out /\
     Retry.invocations out = 3%nat /\
     fst (fn (snd (fn (snd (fn w))))) = Some err /\
     Retry.returned out = Some (Retry.ExhaustedError 3 err)) /\
  (Retry.maxRetries rm <= 0 -> ctxDone 2 = true ->
   forall fuel, (2 <= fuel)%nat ->
   exists out,
     Retry.ExecuteWithStats W fn ctxDone ctxErr rnd fpu rm fuel w = Some out /\
     Retry.invocations out = 2%nat /\
     Retry.returned out = Some (Retry.CancelledError ctxErr)).
Proof.
  intros Hfail Hc1. split.
  - intros Hmax Hc2 fuel Hfuel.
    destruct fuel as [|[|[|fuel]]]; try lia.
    destruct (Hfail w) as (e1 & He1 & Hr1).
    destruct (fn w) as [o1 w1] eqn:E1. cbn in He1. subst o1.
    destruct (Hfail w1) as (e2 & He2 & Hr2).
    destruct (fn w1) as [o2 w2] eqn:E2. cbn in He2. subst o2.
    destruct (Hfail w2) as (e3 & He3 & Hr3).
    destruct (fn w2) as [o3 w3] eqn:E3. cbn in He3. subst o3.
    unfold Retry.ExecuteWithStats.
    edestruct (loop_retry W fn ctxDone ctxErr rnd fpu rm) as (s1 & l1 & ->);
      [exact E1 | rewrite shouldRetry_unfold, Hr1, Hmax; reflexivity
       | exact Hc1 |].
    change (0 + 1) with 1.
    edestruct (loop_retry W fn ctxDone ctxErr rnd fpu rm) as (s2 & l2 & ->);
      [exact E2 | rewrite shouldRetry_unfold, Hr2, Hmax; reflexivity
       | exact Hc2 |].
    change (1 + 1) with 2.
    edestruct (loop_exhausted W fn ctxDone ctxErr rnd fpu rm)
      as (out & -> & Hcalls & Hret);
      [exact E3 | rewrite shouldRetry_unfold, Hr3, Hmax; reflexivity |].
    exists out, e3. cbn [snd]. rewrite E2. cbn [snd]. rewrite E3.
    change (2 + 1) with 3 in Hret. auto.
  - intros Hmax Hc2 fuel Hfuel.
    destruct fuel as [|[|fuel]]; try lia.
    destruct (Hfail w) as (e1 & He1 & Hr1).
    destruct (fn w) as [o1 w1] eqn:E1. cbn in He1. subst o1.
    destruct (Hfail w1) as (e2 & He2 & Hr2).
    destruct (fn w1) as [o2 w2] eqn:E2. cbn in He2. subst o2.
    assert (Hno : forall a, (0 <? Retry.maxRetries rm)
                            && (Retry.maxRetries rm <=? a) = false).
    { intros a. destruct (Z.ltb_spec 0 (Retry.maxRetries rm)); [lia|].
      reflexivity. }
    unfold Retry.ExecuteWithStats.
    edestruct (loop_retry W fn ctxDone ctxErr rnd fpu rm) as (s1 & l1 & ->);
      [exact E1 | rewrite shouldRetry_unfold, Hr1, Hno; reflexivity
       | exact Hc1 |].
    change (0 + 1) with 1.
    edestruct (loop_cancelled W fn ctxDone ctxErr rnd fpu rm)
      as (out & -> & Hcalls & Hret);
      [exact E2 | rewrite shouldRetry_unfold, Hr2, Hno; reflexivity
       | exact Hc2 |].
    exists out. auto.
Qed.

Lemma Execute_always_failing_witness :
  let fn := fun _ : unit => (Some "read timeout", tt) in
  let rm3 := Retry.NewRetryManager
               {| Retry.MaxRetries := 3; Retry.BaseDelay := 0;
                  Retry.MaxDelay := 0; Retry.BackoffFactor := 0;
                  Retry.JitterRange := 0;
                  Retry.RetryableErrors := ["timeout"] |} in
  let rm0 := Retry.NewRetryManager
               {| Retry.MaxRetries := 0; Retry.BaseDelay := 0;
                  Retry.MaxDelay := 0; Retry.BackoffFactor := 0;
                  Retry.JitterRange := 0;
                  Retry.RetryableErrors := [] |} in
  (exists out,
     Retry.ExecuteWithStats unit fn (fun _ => false) "context canceled"
                            (fun _ => 1 # 2) Sample.fpu rm3 3 tt = Some out /\
     Retry.invocations out = 3%nat /\
     Retry.returned out = Some (Retry.ExhaustedError 3 "read timeout")) /\
  (exists out,
     Retry.ExecuteWithStats unit fn (fun k => k =? 2) "context canceled"
                            (fun _ => 1 # 2) Sample.fpu rm0 2 tt = Some out /\
     Retry.invocations out = 2%nat /\
     Retry.returned out = Some (Retry.CancelledError "context canceled")).
Proof.
  cbv zeta. split.
  - destruct (Execute_always_failing
                unit (fun _ : unit => (Some "read timeout", tt))
                (fun _ => false) "context canceled" (fun _ => 1 # 2) Sample.fpu
                (Retry.NewRetryManager
                   {| Retry.MaxRetries := 3; Retry.BaseDelay := 0;
                      Retry.MaxDelay := 0; Retry.BackoffFactor := 0;
                      Retry.JitterRange := 0;
                      Retry.RetryableErrors := ["timeout"] |}) tt)
      as [HA _].
    + intros w0. exists "read timeout". split; reflexivity.
    + reflexivity.
    + destruct (HA eq_refl eq_refl 3%nat (le_n 3))
        as (out & err & Hrun & Hcalls & Herr & Hret).
      exists out. cbn in Herr. injection Herr as <-. auto.
  - destruct (Execute_always_failing
                unit (fun _ : unit => (Some "read timeout", tt))
                (fun k => k =? 2) "context canceled" (fun _ => 1 # 2) Sample.fpu
                (Retry.NewRetryManager
                   {| Retry.MaxRetries := 0; Retry.BaseDelay := 0;
                      Retry.MaxDelay := 0; Retry.BackoffFactor := 0;
                      Retry.JitterRange := 0;
                      Retry.RetryableErrors := [] |}) tt)
      as [_ HB].
    + intros w0. exists "read timeout". split; reflexivity.
    + reflexivity.
    + apply (HB ltac:(cbn; lia) eq_refl 2%nat (le_n 2)).
Defined.

(** ** The session tracker *)

Lemma allCompleted_spec (files : gmap string Progress.FileProgress.t) :
  Progress.allCompleted files = true <->
  forall name file, files !! name = Some file ->
                    Progress.FileProgress.IsCompleted file = true.
Proof.
  unfold Progress.allCompleted. rewrite forallb_forall. split.
  - intros H name file Hlookup.
    apply (H (name, file)). apply list_elem_of_In.
    apply elem_of_map_to_list. exact Hlookup.
  - intros H [name file] Hin. cbn.
    apply (H name). apply elem_of_map_to_list, list_elem_of_In. exact Hin.
Qed.

(** The aggregate of the flags looks at the flags only. *)
Lemma allCompleted_insert_flag (files : gmap string Progress.FileProgress.t)
      (name : string) (f1 f2 : Progress.FileProgress.t) :
  Progress.FileProgress.IsCompleted f1 = Progress.FileProgress.IsCompleted f2 ->
  Progress.allCompleted (<[name := f1]> files)
  = Progress.allCompleted (<[name := f2]> files).
Proof.
  intros Hflag.
  assert (Himp : forall g1 g2,
             Progress.FileProgress.IsCompleted g1
             = Progress.FileProgress.IsCompleted g2 ->
             Progress.allCompleted (<[name := g1]> files) = true ->
             Progress.allCompleted (<[name := g2]> files) = true).
  { intros g1 g2 Hg H. rewrite allCompleted_spec in *.
    intros k f Hk. destruct (decide (name = k)) as [->|Hne].
    - rewrite lookup_insert_eq in Hk. injection Hk as <-.
      rewrite <- Hg. apply (H k). apply lookup_insert_eq.
    - rewrite lookup_insert_ne in Hk by exact Hne.
      apply (H k). rewrite lookup_insert_ne by exact Hne. exact Hk. }
  destruct (Progress.allCompleted (<[name := f1]> files)) eqn:E1,
           (Progress.allCompleted (<[name := f2]> files)) eqn:E2;
    try reflexivity.
  - apply (Himp f1 f2 Hflag) in E1. congruence.
  - apply (Himp f2 f1 (eq_sym Hflag)) in E2. congruence.
Qed.

(** C4, as stated, fails: [UpdateFileProgress] stores the value it is
    given.  After progress 50 has been recorded for an item of 100 bytes,
    recording 20 leaves the item and the session at 20. *)
Lemma UpdateFileProgress_accepts_decrease :
  let t1 := Progress.UpdateFileProgress 2 2 "disk1.vmdk" 50 Sample.tracker in
  let t2 := Progress.UpdateFileProgress 3 3 "disk1.vmdk" 20 t1 in
  option_map Progress.FileProgress.UploadedSize
             (Progress.GetFileProgress "disk1.vmdk" t1) = Some 50 /\
  Progress.UploadSession.UploadedSize (Progress.session t1) = 50 /\
  option_map Progress.FileProgress.UploadedSize
             (Progress.GetFileProgress "disk1.vmdk" t2) = Some 20 /\
  Progress.UploadSession.UploadedSize (Progress.session t2) = 20.
Proof. cbv zeta. repeat split; vm_compute; reflexivity. Qed.

(** C4, amended.  For every registered item, [UpdateFileProgress] with any
    value, smaller than the recorded one or not, sets the item's uploaded
    size to that value and moves the session's aggregate uploaded size by
    the difference between the new and the old value: a decrease lowers
    both. *)
Theorem UpdateFileProgress_absolute
        (now1 now2 : Progress.Time) (fileName : string) (uploadedSize : Z)
        (t : Progress.Tracker) (file : Progress.FileProgress.t) :
  Progress.UploadSession.Files (Progress.session t) !! fileName = Some file ->
  let old := Progress.FileProgress.UploadedSize file in
  let total := Progress.UploadSession.UploadedSize (Progress.session t) in
  let t' := Progress.UpdateFileProgress now1 now2 fileName uploadedSize t in
  (exists file',
     Progress.GetFileProgress fileName t' = Some file' /\
     Progress.FileProgress.UploadedSize file' = uploadedSize) /\
  Progress.UploadSession.UploadedSize (Progress.session t')
  = Int64.add total (Int64.sub uploadedSize old) /\
  (Int64.in_range (uploadedSize - old) ->
   Int64.in_range (total + (uploadedSize - old)) ->
   Progress.UploadSession.UploadedSize (Progress.session t')
   = total - (old - uploadedSize)).
Proof.
  intros Hfile old total t'. subst t'.
  unfold Progress.UpdateFileProgress, Progress.GetFileProgress.
  rewrite Hfile. cbn.
  split; [|split].
  - eexists. split; [apply lookup_insert_eq | reflexivity].
  - reflexivity.
  - intros H1 H2. subst old total. unfold Int64.add, Int64.sub.
    rewrite (wrap_in_range _ H1), (wrap_in_range _ H2). lia.
Qed.

Lemma UpdateFileProgress_absolute_witness :
  let t1 := Progress.UpdateFileProgress 2 2 "disk1.vmdk" 50 Sample.tracker in
  let t2 := Progress.UpdateFileProgress 3 3 "disk1.vmdk" 20 t1 in
  (exists file',
     Progress.GetFileProgress "disk1.vmdk" t2 = Some file' /\
     Progress.FileProgress.UploadedSize file' = 20) /\
  Progress.UploadSession.UploadedSize (Progress.session t2) = 50 - (50 - 20).
Proof.
  cbv zeta.
  destruct (UpdateFileProgress_absolute 3 3 "disk1.vmdk" 20
              (Progress.UpdateFileProgress 2 2 "disk1.vmdk" 50 Sample.tracker)
              {| Progress.FileProgress.FileName := "disk1.vmdk";
                 Progress.FileProgress.TotalSize := 100;
                 Progress.FileProgress.UploadedSize := 50;
                 Progress.FileProgress.ChunksTotal := 1;
                 Progress.FileProgress.ChunksUploaded := 1;
                 Progress.FileProgress.StartTime := 1;
                 Progress.FileProgress.LastUpdate := 2;
                 Progress.FileProgress.IsCompleted := false;
                 Progress.FileProgress.SHA1Hash := "" |})
    as (H1 & _ & H3).
  - vm_compute. reflexivity.
  - split; [exact H1|].
    apply H3; vm_compute; split; discriminate.
Defined.

(** C6, as stated, fails on two counts.  An item that is already flagged
    completed keeps its uploaded size, whatever it is; and the session flag
    is only ever raised, so it stays [true] when an item that is not
    completed has been registered since. *)
Lemma MarkFileCompleted_flag_is_not_the_conjunction :
  let t' := Progress.MarkFileCompleted 7 7 "disk1.vmdk" Sample.restarted in
  option_map Progress.FileProgress.UploadedSize
             (Progress.GetFileProgress "disk1.vmdk" t') = Some 40 /\
  option_map Progress.FileProgress.TotalSize
             (Progress.GetFileProgress "disk1.vmdk" t') = Some 100 /\
  option_map Progress.FileProgress.IsCompleted
             (Progress.GetFileProgress "disk2.vmdk" t') = Some false /\
  Progress.allCompleted (Progress.UploadSession.Files (Progress.session t'))
  = false /\
  Progress.UploadSession.IsCompleted (Progress.session t') = true.
Proof. cbv zeta. repeat split; vm_compute; reflexivity. Qed.

(** C6, amended.  For every registered item, [MarkFileCompleted] is
    idempotent: two calls leave the state that the second call alone
    leaves (the time stamps are those of the last call).  After the call the
    item's completion flag is true; its uploaded size equals its total size
    when the item was not flagged completed before, and is unchanged when it
    was.  The session's completion flag is raised when all registered items
    are completed and is otherwise left as it was: it is the old flag or-ed
    with the conjunction of the items' flags. *)
Theorem MarkFileCompleted_idempotent_latch
        (a1 a2 b1 b2 : Progress.Time) (fileName : string)
        (t : Progress.Tracker) (file : Progress.FileProgress.t) :
  Progress.UploadSession.Files (Progress.session t) !! fileName = Some file ->
  let t1 := Progress.MarkFileCompleted a1 a2 fileName t in
  Progress.MarkFileCompleted b1 b2 fileName t1
  = Progress.MarkFileCompleted b1 b2 fileName t /\
  (exists file1,
     Progress.GetFileProgress fileName t1 = Some file1 /\
     Progress.FileProgress.IsCompleted file1 = true /\
     Progress.FileProgress.TotalSize file1
     = Progress.FileProgress.TotalSize file /\
     Progress.FileProgress.UploadedSize file1
     = if Progress.FileProgress.IsCompleted file
       then Progress.FileProgress.UploadedSize file
       else Progress.FileProgress.TotalSize file) /\
  Progress.UploadSession.IsCompleted (Progress.session t1)
  = Progress.UploadSession.IsCompleted (Progress.session t)
    || Progress.allCompleted
         (Progress.UploadSession.Files (Progress.session t1)).
Proof.
  intros Hfile t1. subst t1.
  destruct t as [s path auto interval]. cbn in Hfile.
  unfold Progress.MarkFileCompleted, Progress.GetFileProgress,
    Progress.with_session. cbn [Progress.session Progress.sessionFile
    Progress.autoSave Progress.saveInterval].
  split; [|split].
  - f_equal.
    unfold Progress.completeFile at 2. rewrite Hfile.
    unfold Progress.raiseCompleted at 2.
    cbn [Progress.UploadSession.Files].
    match goal with
    | |- context [Progress.allCompleted (<[fileName := ?f]> _)] =>
        set (fa := f)
    end.
    destruct (Progress.allCompleted
                (<[fileName := fa]> (Progress.UploadSession.Files s)))
      eqn:Eall;
      unfold Progress.completeFile;
      cbn [Progress.UploadSession.Files]; rewrite lookup_insert_eq, Hfile;
      unfold Progress.raiseCompleted;
      cbn [Progress.UploadSession.Files Progress.FileProgress.IsCompleted
           Progress.FileProgress.TotalSize Progress.FileProgress.UploadedSize
           Progress.FileProgress.ChunksTotal Progress.FileProgress.FileName
           Progress.FileProgress.StartTime Progress.FileProgress.SHA1Hash
           fa];
      rewrite insert_insert_eq;
      match goal with
      | |- context [Progress.allCompleted (<[fileName := ?f]> _)] =>
          rewrite (allCompleted_insert_flag _ fileName f fa eq_refl), Eall
      end;
      cbn; destruct (Progress.FileProgress.IsCompleted file);
      try reflexivity;
      destruct (Progress.UploadSession.IsCompleted s); reflexivity.
  - unfold Progress.completeFile. rewrite Hfile.
    unfold Progress.raiseCompleted.
    match goal with
    | |- context [if ?b then _ else _] => destruct b
    end; cbn; rewrite lookup_insert_eq; eexists; split; try reflexivity;
      cbn; auto.
  - unfold Progress.completeFile. rewrite Hfile.
    unfold Progress.raiseCompleted.
    cbn [Progress.UploadSession.Files].
    match goal with
    | |- context [if ?b then _ else _] => destruct b eqn:Eall
    end; cbn [Progress.UploadSession.IsCompleted Progress.UploadSession.Files];
      rewrite Eall.
    + apply eq_sym, orb_true_r.
    + apply eq_sym, orb_false_r.
Qed.

Lemma MarkFileCompleted_idempotent_latch_witness :
  let t1 := Progress.MarkFileCompleted 2 2 "disk1.vmdk" Sample.tracker in
  Progress.MarkFileCompleted 3 3 "disk1.vmdk" t1
  = Progress.MarkFileCompleted 3 3 "disk1.vmdk" Sample.tracker /\
  Progress.UploadSession.IsCompleted (Progress.session t1) = true.
Proof.
  cbv zeta.
  destruct (MarkFileCompleted_idempotent_latch 2 2 3 3 "disk1.vmdk"
              Sample.tracker
              {| Progress.FileProgress.FileName := "disk1.vmdk";
                 Progress.FileProgress.TotalSize := 100;
                 Progress.FileProgress.UploadedSize := 0;
                 Progress.FileProgress.ChunksTotal := 1;
                 Progress.FileProgress.ChunksUploaded := 0;
                 Progress.FileProgress.StartTime := 1;
                 Progress.FileProgress.LastUpdate := 1;
                 Progress.FileProgress.IsCompleted := false;
                 Progress.FileProgress.SHA1Hash := "" |})
    as (H1 & _ & H3).
  - vm_compute. reflexivity.
  - split; [exact H1|]. rewrite H3. vm_compute. reflexivity.
Defined.

(** ** The archive indexer *)

Lemma classify_cases (pkg : Ova.OVAPackage) (f : Ova.OVAFile) :
  let ext := Str.ToLower (Ova.Ext (Ova.Name f)) in
  Ova.OVFFile (Ova.classify pkg f)
  = (if String.eqb ext ".ovf" then Some f else Ova.OVFFile pkg) /\
  Ova.VMDKFiles (Ova.classify pkg f)
  = (if String.eqb ext ".vmdk" then Ova.VMDKFiles pkg ++ [f]
     else Ova.VMDKFiles pkg) /\
  (forall mf, Ova.ManifestFile (Ova.classify pkg f) = Some mf ->
              Ova.ManifestFile pkg = Some mf \/ mf = f).
Proof.
  unfold Ova.classify. cbv zeta.
  generalize (Str.ToLower (Ova.Ext (Ova.Name f))). intros ext.
  destruct (String.eqb_spec ext ".ovf") as [->|H1]; [cbn; auto|].
  destruct (String.eqb_spec ext ".vmdk") as [->|H2]; [cbn; auto|].
  destruct (String.eqb_spec ext ".mf") as [->|H3].
  - cbn. split; [reflexivity|]. split; [reflexivity|].
    intros mf [= <-]. auto.
  - destruct (String.eqb ext ".cert"); cbn; auto.
Qed.

(** The loop never fails on a stream without read errors; it collects the
    payload descriptors in order and keeps the last configuration entry. *)
Lemma index_entries (hs : list Tar.Header) :
  forall (offset : Z) (pkg : Ova.OVAPackage),
  exists pkg',
    Ova.index (List.map Tar.Entry hs) offset pkg = Ok pkg' /\
    Ova.VMDKFiles pkg' = Ova.VMDKFiles pkg ++ Ova.payloads hs offset /\
    (Ova.OVFFile pkg' = None <->
     Ova.OVFFile pkg = None /\ existsb Ova.is_config hs = false).
Proof.
  induction hs as [|h rest IH]; intros offset pkg.
  - exists pkg. cbn. rewrite app_nil_r. intuition.
  - cbn [List.map Ova.index Ova.payloads existsb].
    unfold Ova.is_config, Ova.is_payload, Ova.has_ext, Ova.is_regular.
    destruct (Ascii.eqb (Tar.Typeflag h) Tar.TypeReg); cbn [negb andb].
    + set (f := {| Ova.Name := Tar.Name h; Ova.Size := Tar.Size h;
                   Ova.Offset := offset; Ova.SHA1Hash := "" |}).
      destruct (IH (Int64.add offset (Tar.Size h)) (Ova.classify pkg f))
        as (pkg' & Hrun & Hvmdk & Hovf).
      exists pkg'. split; [exact Hrun|].
      destruct (classify_cases pkg f) as (Co & Cv & _). cbv zeta in Co, Cv.
      rewrite Hvmdk, Cv, Hovf, Co.
      change (Ova.Name f) with (Tar.Name h).
      split.
      * destruct (String.eqb (Str.ToLower (Ova.Ext (Tar.Name h))) ".vmdk");
          [rewrite <- app_assoc|]; reflexivity.
      * destruct (String.eqb (Str.ToLower (Ova.Ext (Tar.Name h))) ".ovf");
          cbn; intuition congruence.
    + destruct (IH (Int64.add offset (Tar.Size h)) pkg)
        as (pkg' & Hrun & Hvmdk & Hovf).
      exists pkg'. split; [exact Hrun|]. split; [exact Hvmdk|].
      cbn. exact Hovf.
Qed.

Lemma payloads_nil (hs : list Tar.Header) (offset : Z) :
  Ova.payloads hs offset = [] <-> existsb Ova.is_payload hs = false.
Proof.
  revert offset. induction hs as [|h rest IH]; intros offset; cbn.
  - intuition.
  - destruct (Ova.is_payload h); cbn.
    + split; discriminate.
    + apply IH.
Qed.

(** C8.  An archive (a stream of records read without error) that holds no
    configuration descriptor, or no payload entry, makes [ParseOVA] fail
    with one of the two missing-entry errors; no package is returned. *)
Theorem ParseOVA_missing_required_entry
        (FindStringSubmatch : string -> list string)
        (disk : string -> option Ova.File) (ovaPath : string)
        (file : Ova.File) (hs : list Tar.Header) :
  disk ovaPath = Some file ->
  Ova.records file = List.map Tar.Entry hs ->
  existsb Ova.is_config hs = false \/ existsb Ova.is_payload hs = false ->
  exists e,
    Ova.ParseOVA FindStringSubmatch disk ovaPath = Err e /\
    Ova.MissingRequiredEntry e = true.
Proof.
  intros Hopen Hrec Hmiss. unfold Ova.ParseOVA. rewrite Hopen, Hrec.
  match goal with
  | |- context [Ova.index _ 0 ?p] =>
      destruct (index_entries hs 0 p) as (pkg' & -> & Hvmdk & Hovf)
  end.
  cbn [bindR]. cbn in Hvmdk, Hovf.
  destruct (Ova.OVFFile pkg') as [ovf|] eqn:Eovf.
  - destruct Hmiss as [Hc|Hp].
    + exfalso. assert (Some ovf = None) by (apply Hovf; auto). discriminate.
    + apply payloads_nil with (offset := 0) in Hp.
      rewrite Hvmdk, Hp. exists Ova.NoVMDKFiles. split; reflexivity.
  - exists Ova.NoOVFFile. split; reflexivity.
Qed.

Lemma ParseOVA_missing_required_entry_witness :
  exists e,
    Ova.ParseOVA Sample.no_match (fun _ => Some Sample.no_descriptor) "vm.ova"
    = Err e /\
    Ova.MissingRequiredEntry e = true.
Proof.
  apply (ParseOVA_missing_required_entry
           Sample.no_match (fun _ => Some Sample.no_descriptor) "vm.ova"
           Sample.no_descriptor [Sample.regular "disk1.vmdk" 8]).
  - reflexivity.
  - reflexivity.
  - left. reflexivity.
Defined.










Lemma substring_0_len (n : nat) (s : string) : String.substring n 0 s = "".
Proof.
  revert s. induction n as [|n IH]; intros [|c s]; cbn; auto.
Qed.

Lemma copy_at_in_bounds (data : string) (offset n : Z) :
  0 <= offset -> 0 <= n -> offset + n <= Retry.strlen data ->
  Ova.copy_at data offset n
  = Ok (String.substring (Z.to_nat offset) (Z.to_nat n) data).
Proof.
  intros Ho Hn Hlen. unfold Ova.copy_at.
  destruct (Z.ltb_spec offset 0); [lia|].
  destruct (Z.leb_spec n 0).
  - replace n with 0 by lia. cbn. rewrite substring_0_len. reflexivity.
  - destruct (Z.ltb_spec (Retry.strlen data) (offset + n)); [lia|].
    reflexivity.
Qed.

(** C9.  [ValidateFileChecksum] succeeds for every entry without a
    recorded hash, whatever the file holds (even when it cannot be opened);
    and for an entry with a recorded hash, whose [size] bytes at [offset]
    exist in the file and hash to a value that differs from the recorded
    one when both are lower-cased, it fails with the checksum-mismatch error
    carrying the entry's name, the recorded hash and the computed hash. *)
Theorem ValidateFileChecksum_spec
        (sha1_hex : string -> string)
        (disk : string -> option Ova.File) (ovaPath : string)
        (ovaFile : Ova.OVAFile) :
  (Ova.SHA1Hash ovaFile = "" ->
   Ova.ValidateFileChecksum sha1_hex disk ovaPath ovaFile = None) /\
  (forall file,
      Ova.SHA1Hash ovaFile <> "" ->
      disk ovaPath = Some file ->
      0 <= Ova.Offset ovaFile ->
      0 <= Ova.Size ovaFile ->
      Ova.Offset ovaFile + Ova.Size ovaFile <= Retry.strlen (Ova.bytes file) ->
      let actual :=
        sha1_hex (String.substring (Z.to_nat (Ova.Offset ovaFile))
                                   (Z.to_nat (Ova.Size ovaFile))
                                   (Ova.bytes file)) in
      Str.ToLower actual <> Str.ToLower (Ova.SHA1Hash ovaFile) ->
      Ova.ValidateFileChecksum sha1_hex disk ovaPath ovaFile
      = Some (Ova.ChecksumMismatch (Ova.Name ovaFile)
                                   (Ova.SHA1Hash ovaFile) actual)).
Proof.
  unfold Ova.ValidateFileChecksum. split.
  - intros ->. reflexivity.
  - intros file Hhash Hopen Ho Hs Hlen Hdiff.
    destruct (String.eqb_spec (Ova.SHA1Hash ovaFile) ""); [contradiction|].
    rewrite Hopen, (copy_at_in_bounds _ _ _ Ho Hs Hlen).
    match goal with
    | |- context [String.eqb ?a ?b] =>
        destruct (String.eqb_spec a b); [contradiction|]
    end.
    reflexivity.
Qed.

Lemma ValidateFileChecksum_spec_witness :
  let unhashed := {| Ova.Name := "disk1.vmdk"; Ova.Size := 8;
                     Ova.Offset := 4; Ova.SHA1Hash := "" |} in
  let hashed := {| Ova.Name := "disk1.vmdk"; Ova.Size := 8;
                   Ova.Offset := 4; Ova.SHA1Hash := "ABCDEF" |} in
  Ova.ValidateFileChecksum Sample.constant_digest (fun _ => None) "vm.ova"
                           unhashed = None /\
  Ova.ValidateFileChecksum Sample.constant_digest
                           (fun _ => Some Sample.no_descriptor) "vm.ova" hashed
  = Some (Ova.ChecksumMismatch "disk1.vmdk" "ABCDEF"
            "da39a3ee5e6b4b0d3255bfef95601890afd80709").
Proof.
  cbv zeta. split.
  - apply (ValidateFileChecksum_spec Sample.constant_digest (fun _ => None)
             "vm.ova"
             {| Ova.Name := "disk1.vmdk"; Ova.Size := 8;
                Ova.Offset := 4; Ova.SHA1Hash := "" |}).
    reflexivity.
  - apply (proj2 (ValidateFileChecksum_spec
                    Sample.constant_digest
                    (fun _ => Some Sample.no_descriptor) "vm.ova"
                    {| Ova.Name := "disk1.vmdk"; Ova.Size := 8;
                       Ova.Offset := 4; Ova.SHA1Hash := "ABCDEF" |})
                 Sample.no_descriptor).
    + discriminate.
    + reflexivity.
    + cbn; lia.
    + cbn; lia.
    + vm_compute; discriminate.
    + vm_compute; discriminate.
Defined.

(** ** The work queue of the parallel upload *)

Lemma enqueue_length (todo : nat) (C offset total : Z) :
  forall k cur, List.length (Uploader.enqueue todo C offset total k cur) = todo.
Proof.
  induction todo as [|todo IH]; intros k cur; cbn; [reflexivity|].
  rewrite IH. reflexivity.
Qed.


Lemma totalChunks_ceiling (C total : Z) :
  0 < C -> 0 < total -> total + C <= Int64.max_int ->
  let n := Uploader.totalChunks C total in
  n = (total + C - 1) / C /\ 0 < n /\ (n - 1) * C < total <= n * C.
Proof.
  intros HC HS Hmax n. subst n. unfold Uploader.totalChunks.
  assert (H1 : Int64.add total C = total + C).
  { apply wrap_in_range.
    unfold Int64.in_range, Int64.min_int, Int64.max_int in *. lia. }
  assert (H2 : Int64.sub (total + C) 1 = total + C - 1).
  { apply wrap_in_range.
    unfold Int64.in_range, Int64.min_int, Int64.max_int in *. lia. }
  rewrite H1, H2. unfold Int64.div.
  rewrite Z.quot_div_nonneg by lia.
  pose proof (Z.div_mod (total + C - 1) C ltac:(lia)) as Hdm.
  pose proof (Z.mod_pos_bound (total + C - 1) C HC) as Hmod.
  assert (Hq : 0 <= (total + C - 1) / C) by (apply Z.div_pos; lia).
  assert (HqS : (total + C - 1) / C <= total + C - 1)
    by (apply Z.div_le_upper_bound; nia).
  rewrite wrap_in_range
    by (unfold Int64.in_range, Int64.min_int, Int64.max_int in *; lia).
  split; [reflexivity|]. nia.
Qed.



(** ** Persistence of the session *)





Section RoundTrip.

Variable formatTime : Progress.Time -> string.
Variable parseTime : string -> option Progress.Time.
Variable Text : Type.
Variable render : Json.value -> Text.
Variable parse : Text -> option Json.value.





End RoundTrip.




(** * Further properties *)

(** ** Substring search of the retry classification *)

Lemma append_cons (c : Ascii.ascii) (a b : string) :
  (String c a ++ b)%string = String c (a ++ b)%string.
Proof. reflexivity. Qed.

Lemma append_empty_l (a : string) : ("" ++ a)%string = a.
Proof. reflexivity. Qed.

Lemma substring_of_prefix (sub post : string) :
  String.substring 0 (String.length sub) (sub ++ post)%string = sub.
Proof.
  induction sub as [|c sub IH].
  - rewrite append_empty_l. destruct post; reflexivity.
  - rewrite append_cons. cbn. rewrite IH. reflexivity.
Qed.

Lemma substring_at_prefix (pre sub post : string) :
  String.substring (String.length pre) (String.length sub)
                   (pre ++ sub ++ post)%string
  = sub.
Proof.
  induction pre as [|c pre IH].
  - rewrite append_empty_l. apply substring_of_prefix.
  - rewrite append_cons. cbn. exact IH.
Qed.

Lemma substring_0_splits (n : nat) :
  forall str : string,
    (n <= String.length str)%nat ->
    exists post, str = (String.substring 0 n str ++ post)%string.
Proof.
  induction n as [|n IHn]; intros str Hlen.
  - exists str. destruct str; reflexivity.
  - destruct str as [|c str]; cbn in Hlen; [lia|].
    destruct (IHn str ltac:(lia)) as [post Hpost].
    exists post. cbn. rewrite append_cons, <- Hpost. reflexivity.
Qed.

Lemma substring_splits (i n : nat) :
  forall str : string,
    (i + n <= String.length str)%nat ->
    exists pre post,
      str = (pre ++ String.substring i n str ++ post)%string.
Proof.
  induction i as [|i IH]; intros str Hlen.
  - destruct (substring_0_splits n str ltac:(lia)) as [post Hpost].
    exists ""%string, post. rewrite append_empty_l. exact Hpost.
  - destruct str as [|c str]; cbn in Hlen; [lia|].
    destruct (IH str ltac:(lia)) as (pre & post & Hsplit).
    exists (String c pre), post. rewrite append_cons. cbn.
    rewrite <- Hsplit. reflexivity.
Qed.

Lemma length_append (a b : string) :
  String.length (a ++ b)%string = (String.length a + String.length b)%nat.
Proof.
  induction a as [|c a IH]; [reflexivity|].
  rewrite append_cons. cbn. rewrite IH. reflexivity.
Qed.

Lemma append_empty_r (a : string) : (a ++ "")%string = a.
Proof.
  induction a as [|c a IH]; [reflexivity|].
  rewrite append_cons, IH. reflexivity.
Qed.

(** A positive answer of [containsString] exhibits an occurrence. *)
Lemma containsString_sound (str substr : string) :
  Retry.containsString str substr = true ->
  exists pre post, str = (pre ++ substr ++ post)%string.
Proof.
  unfold Retry.containsString, Retry.containsSubstring, Retry.strlen.
  intros H. apply andb_true_iff in H as [Hlen H].
  apply Z.leb_le in Hlen.
  apply orb_true_iff in H as [H|H];
    [apply orb_true_iff in H as [H|H]|].
  - apply String.eqb_eq in H. subst. exists ""%string, str. reflexivity.
  - apply String.eqb_eq in H. subst. exists ""%string, ""%string.
    rewrite append_empty_l, append_empty_r. reflexivity.
  - apply existsb_exists in H as (i & Hin & Heq).
    apply in_seq in Hin. apply String.eqb_eq in Heq.
    destruct (substring_splits i (String.length substr) str ltac:(lia))
      as (pre & post & Hsplit).
    rewrite Heq in Hsplit. eauto.
Qed.

(** Every occurrence is found. *)
Lemma containsString_complete (pre substr post : string) :
  Retry.containsString (pre ++ substr ++ post)%string substr = true.
Proof.
  unfold Retry.containsString, Retry.containsSubstring, Retry.strlen.
  rewrite !length_append.
  apply andb_true_iff. split; [apply Z.leb_le; lia|].
  apply orb_true_iff. right.
  apply existsb_exists. exists (String.length pre). split.
  - apply in_seq. lia.
  - apply String.eqb_eq. apply substring_at_prefix.
Qed.

(** X1.  [containsString] decides the substring relation: it answers
    [true] exactly when the pattern occurs in the text as a contiguous,
    byte-for-byte (so case-sensitive) run. *)
Theorem containsString_iff (str substr : string) :
  Retry.containsString str substr = true <->
  exists pre post, str = (pre ++ substr ++ post)%string.
Proof.
  split.
  - apply containsString_sound.
  - intros (pre & post & ->). apply containsString_complete.
Qed.

(** ** The retry loop in general *)

Section ExecuteFacts.

Variable W : Type.
Variable fn : W -> option string * W.
Variable ctxDone : Z -> bool.
Variable ctxErr : string.
Variable rnd : Z -> Q.
Variable fpu : Float64.Platform.
Variable rm : Retry.RetryManager.

Let run := Retry.loop W fn ctxDone ctxErr rnd fpu rm.

(** [k] failures in a row that are all retried take the loop [k] attempts
    further. *)
Lemma loop_skip_retries (k : nat) :
  forall fuel attempt stats w calls log,
    (forall i, (i < k)%nat ->
               exists err,
                 fst (fn (Retry.nth_world fn i w)) = Some err /\
                 Retry.shouldRetry rm err (attempt + Z.of_nat i + 1) = true /\
                 ctxDone (attempt + Z.of_nat i + 1) = false) ->
    exists stats' log',
      run (k + fuel)%nat attempt stats w calls log
      = run fuel (attempt + Z.of_nat k) stats' (Retry.nth_world fn k w)
            (k + calls)%nat log'.
Proof.
  induction k as [|k IH]; intros fuel attempt stats w calls log Hfail.
  - exists stats, log. rewrite Z.add_0_r. reflexivity.
  - destruct (Hfail 0%nat ltac:(lia)) as (err & Herr & Hretry & Hwait).
    cbn [Retry.nth_world] in Herr. rewrite Z.add_0_r in Hretry, Hwait.
    destruct (fn w) as [o w1] eqn:Efn. cbn in Herr. subst o.
    destruct (loop_retry W fn ctxDone ctxErr rnd fpu rm (k + fuel) attempt stats
                         w calls log err w1 Efn Hretry Hwait)
      as (stats1 & log1 & Hstep).
    change (S k + fuel)%nat with (S (k + fuel)).
    subst run. rewrite Hstep.
    destruct (IH fuel (attempt + 1) stats1 w1 (S calls) log1)
      as (stats' & log' & Hrest).
    { intros i Hi. destruct (Hfail (S i) ltac:(lia)) as (e & He & Hr & Hw).
      cbn [Retry.nth_world] in He. rewrite Efn in He. cbn [snd] in He.
      exists e. rewrite Nat2Z.inj_succ in Hr, Hw.
      replace (attempt + 1 + Z.of_nat i + 1)
        with (attempt + Z.succ (Z.of_nat i) + 1) by lia.
      auto. }
    exists stats', log'. rewrite Hrest.
    cbn [Retry.nth_world]. rewrite Efn. cbn [snd].
    replace (attempt + 1 + Z.of_nat k) with (attempt + Z.of_nat (S k)) by lia.
    replace (k + S calls)%nat with (S k + calls)%nat by lia.
    reflexivity.
Qed.

(** Failures classified retryable are retried as long as the ceiling, if
    there is one, is not reached. *)
Lemma shouldRetry_below_ceiling (err : string) (attempt : Z) :
  Retry.IsRetryableError rm err = true ->
  Retry.maxRetries rm <= 0 \/ attempt < Retry.maxRetries rm ->
  Retry.shouldRetry rm err attempt = true.
Proof.
  intros Hre Hceil. rewrite shouldRetry_unfold, Hre.
  destruct (Z.ltb_spec 0 (Retry.maxRetries rm));
    destruct (Z.leb_spec (Retry.maxRetries rm) attempt);
    try reflexivity; lia.
Qed.

End ExecuteFacts.

(** X2.  When the first [k] invocations fail with errors classified
    retryable, the next one succeeds, no wait is cancelled and the ceiling,
    if any, lies above [k], [Execute] returns nil having invoked the
    operation exactly [k + 1] times, and leaves the operation in the state
    the successful invocation produced. *)
Theorem Execute_returns_at_first_success
        (W : Type) (fn : W -> option string * W)
        (ctxDone : Z -> bool) (ctxErr : string) (rnd : Z -> Q)
        (fpu : Float64.Platform)
        (rm : Retry.RetryManager) (w : W) (k : nat) :
  (forall i, (i < k)%nat ->
             exists err, fst (fn (Retry.nth_world fn i w)) = Some err /\
                         Retry.IsRetryableError rm err = true) ->
  fst (fn (Retry.nth_world fn k w)) = None ->
  Retry.maxRetries rm <= 0 \/ Z.of_nat k < Retry.maxRetries rm ->
  (forall attempt, ctxDone attempt = false) ->
  forall fuel, (k < fuel)%nat ->
  exists out,
    Retry.ExecuteWithStats W fn ctxDone ctxErr rnd fpu rm fuel w = Some out /\
    Retry.returned out = None /\
    Retry.invocations out = S k /\
    Retry.world out = Retry.nth_world fn (S k) w.
Proof.
  intros Hfail Hok Hceil Hctx fuel Hfuel.
  unfold Retry.ExecuteWithStats.
  replace fuel with (k + S (fuel - S k))%nat by lia.
  edestruct (loop_skip_retries W fn ctxDone ctxErr rnd fpu rm k)
    as (stats' & log' & ->).
  { intros i Hi. destruct (Hfail i Hi) as (err & Herr & Hre).
    exists err. split; [exact Herr|]. split; [|apply Hctx].
    apply shouldRetry_below_ceiling; [exact Hre | lia]. }
  cbn [Retry.loop].
  destruct (fn (Retry.nth_world fn k w)) as [o w'] eqn:Efn.
  cbn in Hok. subst o.
  eexists. split; [reflexivity|]. cbn.
  split; [reflexivity|]. split; [lia|].
  clear - Efn. revert w Efn. induction k as [|k IH]; intros w Efn; cbn in *.
  - rewrite Efn. reflexivity.
  - apply IH. exact Efn.
Qed.

Lemma Execute_returns_at_first_success_witness :
  let fn := fun n : nat =>
              (if (n <? 2)%nat then Some "connection refused" else None, S n) in
  exists out,
    Retry.ExecuteWithStats nat fn (fun _ => false) "context canceled"
                           (fun _ => 1 # 2) Sample.fpu
                           Retry.CreateNetworkRetryManager
                           3 0%nat = Some out /\
    Retry.returned out = None /\
    Retry.invocations out = 3%nat /\
    Retry.world out = 3%nat.
Proof.
  cbv zeta.
  apply (Execute_returns_at_first_success
           nat (fun n : nat =>
                  (if (n <? 2)%nat then Some "connection refused" else None,
                   S n))
           (fun _ => false) "context canceled" (fun _ => 1 # 2) Sample.fpu
           Retry.CreateNetworkRetryManager 0%nat 2).
  - intros i Hi. exists "connection refused".
    destruct i as [|[|i]]; [split; reflexivity | split; reflexivity | lia].
  - reflexivity.
  - left. vm_compute. discriminate.
  - reflexivity.
  - lia.
Defined.

(** X3.  When the first [k] invocations fail with errors classified
    retryable and are retried, and the next one fails with an error the
    pattern list does not match, [Execute] stops there: the operation has
    been invoked exactly [k + 1] times and the error returned carries the
    attempt count [k + 1] and that last error. *)
Theorem Execute_stops_at_unmatched_error
        (W : Type) (fn : W -> option string * W)
        (ctxDone : Z -> bool) (ctxErr : string) (rnd : Z -> Q)
        (fpu : Float64.Platform)
        (rm : Retry.RetryManager) (w : W) (k : nat) (last : string) :
  (forall i, (i < k)%nat ->
             exists err, fst (fn (Retry.nth_world fn i w)) = Some err /\
                         Retry.IsRetryableError rm err = true) ->
  fst (fn (Retry.nth_world fn k w)) = Some last ->
  Retry.IsRetryableError rm last = false ->
  Retry.maxRetries rm <= 0 \/ Z.of_nat k < Retry.maxRetries rm ->
  (forall attempt, ctxDone attempt = false) ->
  forall fuel, (k < fuel)%nat ->
  exists out,
    Retry.ExecuteWithStats W fn ctxDone ctxErr rnd fpu rm fuel w = Some out /\
    Retry.returned out
    = Some (Retry.ExhaustedError (Z.of_nat k + 1) last) /\
    Retry.invocations out = S k.
Proof.
  intros Hfail Hlast Hno Hceil Hctx fuel Hfuel.
  unfold Retry.ExecuteWithStats.
  replace fuel with (k + S (fuel - S k))%nat by lia.
  edestruct (loop_skip_retries W fn ctxDone ctxErr rnd fpu rm k)
    as (stats' & log' & ->).
  { intros i Hi. destruct (Hfail i Hi) as (err & Herr & Hre).
    exists err. split; [exact Herr|]. split; [|apply Hctx].
    apply shouldRetry_below_ceiling; [exact Hre | lia]. }
  destruct (fn (Retry.nth_world fn k w)) as [o w'] eqn:Efn.
  cbn in Hlast. subst o.
  edestruct (loop_exhausted W fn ctxDone ctxErr rnd fpu rm)
    as (out & -> & Hcalls & Hret);
    [exact Efn | rewrite shouldRetry_unfold, Hno; apply andb_false_r |].
  exists out. split; [reflexivity|]. split; [exact Hret | lia].
Qed.

Lemma Execute_stops_at_unmatched_error_witness :
  let fn := fun n : nat =>
              (Some (if (n <? 1)%nat then "read timeout"
                     else "permission denied"), S n) in
  exists out,
    Retry.ExecuteWithStats nat fn (fun _ => false) "context canceled"
                           (fun _ => 1 # 2) Sample.fpu
                           Retry.CreateNetworkRetryManager
                           2 0%nat = Some out /\
    Retry.returned out = Some (Retry.ExhaustedError 2 "permission denied") /\
    Retry.invocations out = 2%nat.
Proof.
  cbv zeta.
  apply (Execute_stops_at_unmatched_error
           nat (fun n : nat =>
                  (Some (if (n <? 1)%nat then "read timeout"
                         else "permission denied"), S n))
           (fun _ => false) "context canceled" (fun _ => 1 # 2) Sample.fpu
           Retry.CreateNetworkRetryManager 0%nat 1 "permission denied").
  - intros i Hi. exists "read timeout".
    destruct i as [|i]; [split; reflexivity | lia].
  - reflexivity.
  - reflexivity.
  - left. vm_compute. discriminate.
  - reflexivity.
  - lia.
Defined.

Section ExecuteBounds.

Variable W : Type.
Variable fn : W -> option string * W.
Variable ctxDone : Z -> bool.
Variable ctxErr : string.
Variable rnd : Z -> Q.
Variable fpu : Float64.Platform.
Variable rm : Retry.RetryManager.

Let run := Retry.loop W fn ctxDone ctxErr rnd fpu rm.

Lemma shouldRetry_ceiling (err : string) (attempt : Z) :
  0 < Retry.maxRetries rm ->
  Retry.shouldRetry rm err attempt = true ->
  attempt < Retry.maxRetries rm.
Proof.
  intros Hm. unfold Retry.shouldRetry.
  destruct (Z.ltb_spec 0 (Retry.maxRetries rm)); [|lia].
  destruct (Z.leb_spec (Retry.maxRetries rm) attempt); [discriminate|].
  intros _. exact H0.
Qed.

(** Below the ceiling, every run of the loop invokes the operation at
    least once and at most as often as attempts are left. *)
Lemma loop_invocations_bound (fuel : nat) :
  forall attempt stats w calls log out,
    0 < Retry.maxRetries rm ->
    attempt < Retry.maxRetries rm ->
    run fuel attempt stats w calls log = Some out ->
    (calls < Retry.invocations out)%nat /\
    Z.of_nat (Retry.invocations out) - Z.of_nat calls
    <= Retry.maxRetries rm - attempt.
Proof.
  induction fuel as [|fuel IH]; intros attempt stats w calls log out Hm Hlt Hrun;
    [discriminate|].
  subst run. cbn [Retry.loop] in Hrun.
  destruct (fn w) as [[err|] w'].
  - destruct (Retry.shouldRetry rm err (attempt + 1)) eqn:Hretry;
      cbn [negb] in Hrun.
    + destruct (ctxDone (attempt + 1)).
      * injection Hrun as <-. cbn. lia.
      * pose proof (shouldRetry_ceiling err _ Hm Hretry) as Hnext.
        destruct (IH _ _ _ _ _ _ Hm Hnext Hrun) as [H1 H2]. lia.
    + injection Hrun as <-. cbn. lia.
  - injection Hrun as <-. cbn. lia.
Qed.

(** With a ceiling, the loop ends within as many steps as attempts are
    left. *)
Lemma loop_terminates (fuel : nat) :
  forall attempt stats w calls log,
    0 < Retry.maxRetries rm ->
    attempt < Retry.maxRetries rm ->
    Retry.maxRetries rm - attempt <= Z.of_nat fuel ->
    exists out, run fuel attempt stats w calls log = Some out.
Proof.
  induction fuel as [|fuel IH]; intros attempt stats w calls log Hm Hlt Hfuel;
    [cbn in Hfuel; lia|].
  subst run. cbn [Retry.loop].
  destruct (fn w) as [[err|] w']; [|eauto].
  destruct (Retry.shouldRetry rm err (attempt + 1)) eqn:Hretry;
    cbn [negb]; [|eauto].
  destruct (ctxDone (attempt + 1)); [eauto|].
  pose proof (shouldRetry_ceiling err _ Hm Hretry) as Hnext.
  apply IH; [exact Hm | exact Hnext | lia].
Qed.

End ExecuteBounds.

(** X4.  With a ceiling [maxRetries > 0], whatever the operation and the
    cancellation signal do, [Execute] always returns, and it has invoked the
    operation at least once and never more than [maxRetries] times. *)
Theorem Execute_respects_ceiling
        (W : Type) (fn : W -> option string * W)
        (ctxDone : Z -> bool) (ctxErr : string) (rnd : Z -> Q)
        (fpu : Float64.Platform)
        (rm : Retry.RetryManager) (w : W) (fuel : nat) :
  0 < Retry.maxRetries rm ->
  Retry.maxRetries rm <= Z.of_nat fuel ->
  exists out,
    Retry.ExecuteWithStats W fn ctxDone ctxErr rnd fpu rm fuel w = Some out /\
    (1 <= Retry.invocations out)%nat /\
    Z.of_nat (Retry.invocations out) <= Retry.maxRetries rm.
Proof.
  intros Hm Hfuel. unfold Retry.ExecuteWithStats.
  edestruct (loop_terminates W fn ctxDone ctxErr rnd fpu rm fuel 0)
    as [out Hrun];
    [exact Hm | exact Hm | lia |].
  exists out. split; [exact Hrun|].
  destruct (loop_invocations_bound W fn ctxDone ctxErr rnd fpu rm fuel
                                   _ _ _ _ _ _
                                   Hm Hm Hrun) as [H1 H2].
  lia.
Qed.

Lemma Execute_respects_ceiling_witness :
  exists out,
    Retry.ExecuteWithStats
      unit (fun _ => (Some "timeout", tt)) (fun _ => false) "context canceled"
      (fun _ => 1 # 2) Sample.fpu
      (Retry.NewRetryManager
         {| Retry.MaxRetries := 5; Retry.BaseDelay := 0; Retry.MaxDelay := 0;
            Retry.BackoffFactor := 0; Retry.JitterRange := 0;
            Retry.RetryableErrors := [] |})
      5 tt = Some out /\
    (1 <= Retry.invocations out)%nat /\
    Z.of_nat (Retry.invocations out) <= 5.
Proof.
  apply (Execute_respects_ceiling
           unit (fun _ => (Some "timeout", tt)) (fun _ => false)
           "context canceled" (fun _ => 1 # 2) Sample.fpu
           (Retry.NewRetryManager
              {| Retry.MaxRetries := 5; Retry.BaseDelay := 0;
                 Retry.MaxDelay := 0; Retry.BackoffFactor := 0;
                 Retry.JitterRange := 0; Retry.RetryableErrors := [] |})
           tt 5).
  - cbn. lia.
  - cbn. lia.
Defined.

Section ExecuteReports.

Variable W : Type.
Variable fn : W -> option string * W.
Variable ctxDone : Z -> bool.
Variable ctxErr : string.
Variable rnd : Z -> Q.
Variable fpu : Float64.Platform.
Variable rm : Retry.RetryManager.

Let run := Retry.loop W fn ctxDone ctxErr rnd fpu rm.

(** The snapshots a run adds to the log: one per invocation, numbered
    consecutively; every snapshot but the first carries the error of the
    attempt before it. *)
Lemma loop_reported (fuel : nat) :
  forall attempt stats w calls log out,
    run fuel attempt stats w calls log = Some out ->
    exists rest,
      Retry.reported out
      = log ++ {| Retry.Attempts := attempt + 1;
                  Retry.LastError := Retry.LastError stats;
                  Retry.CurrentDelay := Retry.CurrentDelay stats |} :: rest /\
      Forall (fun s => Retry.LastError s <> None) rest /\
      Retry.invocations out = (calls + S (List.length rest))%nat /\
      List.map Retry.Attempts rest
      = List.map (fun i => attempt + 2 + Z.of_nat i)
                 (seq 0 (List.length rest)).
Proof.
  induction fuel as [|fuel IH]; intros attempt stats w calls log out Hrun;
    [discriminate|].
  subst run. cbn [Retry.loop] in Hrun.
  destruct (fn w) as [[err|] w'].
  - destruct (Retry.shouldRetry rm err (attempt + 1)); cbn [negb] in Hrun.
    + destruct (ctxDone (attempt + 1)).
      * injection Hrun as <-. exists []. cbn.
        repeat split; [constructor | lia].
      * apply IH in Hrun as (rest & Hrep & Hall & Hcalls & Hatt).
        cbn [Retry.LastError Retry.CurrentDelay] in Hrep.
        eexists (_ :: rest). split; [|split; [|split]].
        -- rewrite Hrep, <- app_assoc. reflexivity.
        -- constructor; [cbn; discriminate | exact Hall].
        -- rewrite Hcalls. cbn. lia.
        -- cbn [List.length seq List.map Retry.Attempts]. f_equal; [lia|].
           rewrite Hatt, <- seq_shift, List.map_map.
           apply List.map_ext. intros i. lia.
    + injection Hrun as <-. exists []. cbn.
      repeat split; [constructor | lia].
  - injection Hrun as <-. exists []. cbn.
    repeat split; [constructor | lia].
Qed.

End ExecuteReports.

Lemma Execute_reports_shape
      (W : Type) (fn : W -> option string * W)
      (ctxDone : Z -> bool) (ctxErr : string) (rnd : Z -> Q)
      (fpu : Float64.Platform)
      (rm : Retry.RetryManager) (w : W) (fuel : nat)
      (out : Retry.Outcome W) :
  Retry.ExecuteWithStats W fn ctxDone ctxErr rnd fpu rm fuel w = Some out ->
  exists first rest,
    Retry.reported out = first :: rest /\
    Retry.LastError first = None /\
    Forall (fun s => Retry.LastError s <> None) rest /\
    Retry.invocations out = S (List.length rest).
Proof.
  unfold Retry.ExecuteWithStats. intros Hrun.
  apply loop_reported in Hrun as (rest & Hrep & Hall & Hcalls & _).
  cbn in Hrep, Hcalls. eexists. exists rest.
  split; [exact Hrep|]. split; [reflexivity|]. split; assumption.
Qed.



Lemma onAttempt_counts (clock : Z -> Progress.Time)
      (snapshots : list Retry.RetryStats) :
  forall t : Progress.Tracker,
    Forall (fun s => Retry.LastError s <> None) snapshots ->
    0 <= Progress.UploadSession.RetryAttempts (Progress.session t) ->
    Progress.UploadSession.RetryAttempts (Progress.session t)
    + Z.of_nat (List.length snapshots) <= Int64.max_int ->
    Progress.UploadSession.RetryAttempts
      (Progress.session
         (fold_left (Cmd.onAttempt clock)
                    (List.map Retry.progressArgs snapshots) t))
    = Progress.UploadSession.RetryAttempts (Progress.session t)
      + Z.of_nat (List.length snapshots).
Proof.
  induction snapshots as [|s rest IH]; intros t Hall Hlo Hhi.
  - cbn. lia.
  - apply Forall_cons in Hall as [Hs Hrest].
    cbn [List.map fold_left List.length] in *.
    unfold Retry.progressArgs at 2. unfold Cmd.onAttempt at 2.
    destruct (Retry.LastError s) as [e|]; [|contradiction].
    assert (Hone : Progress.UploadSession.RetryAttempts
                     (Progress.session
                        (Progress.IncrementRetryAttempts
                           (clock (Retry.Attempts s)) t))
                   = Progress.UploadSession.RetryAttempts (Progress.session t)
                     + 1).
    { cbn. apply wrap_in_range.
      unfold Int64.in_range, Int64.min_int, Int64.max_int in *. lia. }
    rewrite IH; [| exact Hrest | rewrite Hone; lia | rewrite Hone; lia].
    rewrite Hone. lia.
Qed.

(** X6.  Driven by [ExecuteWithProgress] with the callback of [runUpload],
    the session's retry counter grows by the number of invocations minus
    one: every attempt after the first counts as one retry, whether the run
    ends in success, exhaustion or cancellation. *)
Theorem retry_counter_counts_retries
        (W : Type) (fn : W -> option string * W)
        (ctxDone : Z -> bool) (ctxErr : string) (rnd : Z -> Q)
        (fpu : Float64.Platform)
        (rm : Retry.RetryManager) (w : W) (fuel : nat)
        (out : Retry.Outcome W)
        (clock : Z -> Progress.Time) (t : Progress.Tracker) :
  Retry.ExecuteWithStats W fn ctxDone ctxErr rnd fpu rm fuel w = Some out ->
  0 <= Progress.UploadSession.RetryAttempts (Progress.session t) ->
  Progress.UploadSession.RetryAttempts (Progress.session t)
  + Z.of_nat (Retry.invocations out) <= Int64.max_int ->
  Progress.UploadSession.RetryAttempts
    (Progress.session
       (fold_left (Cmd.onAttempt clock)
                  (List.map Retry.progressArgs (Retry.reported out)) t))
  = Progress.UploadSession.RetryAttempts (Progress.session t)
    + Z.of_nat (Retry.invocations out) - 1.
Proof.
  intros Hrun Hlo Hhi.
  destruct (Execute_reports_shape W fn ctxDone ctxErr rnd fpu rm w fuel out
                                  Hrun)
    as (first & rest & Hrep & Hfirst & Hrest & Hlen).
  rewrite Hrep. cbn [List.map fold_left].
  unfold Retry.progressArgs at 2. unfold Cmd.onAttempt at 2.
  rewrite Hfirst.
  rewrite onAttempt_counts; [lia | exact Hrest | exact Hlo | lia].
Qed.

Lemma retry_counter_counts_retries_witness :
  exists out,
    Retry.ExecuteWithStats
      unit (fun _ => (Some "timeout", tt)) (fun _ => false) "context canceled"
      (fun _ => 1 # 2) Sample.fpu
      (Retry.NewRetryManager
         {| Retry.MaxRetries := 3; Retry.BaseDelay := 0; Retry.MaxDelay := 0;
            Retry.BackoffFactor := 0; Retry.JitterRange := 0;
            Retry.RetryableErrors := [] |})
      3 tt = Some out /\
    Progress.UploadSession.RetryAttempts
      (Progress.session
         (fold_left (Cmd.onAttempt (fun attempt => attempt))
                    (List.map Retry.progressArgs (Retry.reported out))
                    Sample.tracker))
    = 0 + Z.of_nat (Retry.invocations out) - 1.
Proof.
  eexists. split; [vm_compute; reflexivity|].
  match goal with
  | |- context [Retry.reported ?o] =>
      apply (retry_counter_counts_retries
               unit (fun _ => (Some "timeout", tt)) (fun _ => false)
               "context canceled" (fun _ => 1 # 2) Sample.fpu
               (Retry.NewRetryManager
                  {| Retry.MaxRetries := 3; Retry.BaseDelay := 0;
                     Retry.MaxDelay := 0; Retry.BackoffFactor := 0;
                     Retry.JitterRange := 0;
                     Retry.RetryableErrors := [] |})
               tt 3 o (fun attempt => attempt) Sample.tracker)
  end.
  - vm_compute. reflexivity.
  - vm_compute. discriminate.
  - vm_compute. discriminate.
Defined.

(** ** Configuration of the retry executor *)

(** X7.  The configuration read back with [GetConfig] rebuilds the same
    executor: the defaults are applied once and are stable. *)
Theorem NewRetryManager_GetConfig (config : Retry.Config) :
  Retry.NewRetryManager (Retry.GetConfig (Retry.NewRetryManager config))
  = Retry.NewRetryManager config.
Proof.
  destruct config as [mr bd md bf jr pats].
  unfold Retry.NewRetryManager, Retry.GetConfig. cbn.
  assert (Hmr : ((if mr =? 0 then -1 else mr) =? 0) = false).
  { destruct (Z.eqb_spec mr 0); [reflexivity|]. apply Z.eqb_neq. exact n. }
  assert (Hbd : ((if bd =? 0 then 1 * Retry.Second else bd) =? 0) = false).
  { destruct (Z.eqb_spec bd 0); [reflexivity|]. apply Z.eqb_neq. exact n. }
  assert (Hmd : ((if md =? 0 then 5 * Retry.Minute else md) =? 0) = false).
  { destruct (Z.eqb_spec md 0); [reflexivity|]. apply Z.eqb_neq. exact n. }
  assert (Hbf : Retry.float_is_zero
                  (if Retry.float_is_zero bf then 2 # 1 else bf) = false).
  { destruct (Retry.float_is_zero bf) eqn:E; [reflexivity | exact E]. }
  assert (Hjr : Retry.float_is_zero
                  (if Retry.float_is_zero jr then 1 # 10 else jr) = false).
  { destruct (Retry.float_is_zero jr) eqn:E; [reflexivity | exact E]. }
  rewrite Hmr, Hbd, Hmd, Hbf, Hjr. reflexivity.
Qed.

(** X8.  The classification of an error survives wrapping: if an error
    text is retryable, so is every text that contains it, such as the
    message an outer function builds around it. *)
Theorem IsRetryableError_wrapped
        (rm : Retry.RetryManager) (err pre post : string) :
  Retry.IsRetryableError rm err = true ->
  Retry.IsRetryableError rm (pre ++ err ++ post)%string = true.
Proof.
  unfold Retry.IsRetryableError.
  destruct (Retry.retryableErrors rm) as [|p pats]; [reflexivity|].
  intros H. apply existsb_exists in H as (pat & Hin & Hc).
  apply existsb_exists. exists pat. split; [exact Hin|].
  apply containsString_sound in Hc as (a & b & ->).
  replace (pre ++ (a ++ pat ++ b) ++ post)%string
    with ((pre ++ a) ++ pat ++ (b ++ post))%string;
    [apply containsString_complete|].
  clear. induction pre as [|c pre IH].
  - rewrite !append_empty_l.
    induction a as [|c a IHa].
    + rewrite !append_empty_l.
      induction pat as [|c pat IHp];
        [rewrite !append_empty_l; reflexivity|].
      rewrite !append_cons, IHp. reflexivity.
    + rewrite !append_cons, IHa. reflexivity.
  - rewrite !append_cons, IH. reflexivity.
Qed.

Lemma IsRetryableError_wrapped_witness :
  Retry.IsRetryableError
    Retry.CreateNetworkRetryManager
    ("failed to upload chunk at offset 0: " ++ "HTTP request failed: EOF"
     ++ "")%string
  = true.
Proof.
  apply (IsRetryableError_wrapped Retry.CreateNetworkRetryManager
           "HTTP request failed: EOF" "failed to upload chunk at offset 0: "
           "").
  reflexivity.
Defined.

Lemma append_assoc (a b c : string) :
  ((a ++ b) ++ c)%string = (a ++ b ++ c)%string.
Proof.
  induction a as [|x a IH]; [reflexivity|].
  rewrite !append_cons, IH. reflexivity.
Qed.

(** X9.  A chunk answered with status 502, 503 or 504 fails with an error
    that names the status, and the error the sequential upload builds
    around it, whatever the offset and the response body, is one the retry
    executor for network operations retries. *)
Theorem gateway_errors_are_retried (status uploadedBytes : Z) (body : string) :
  status = 502 \/ status = 503 \/ status = 504 ->
  exists err,
    Uploader.statusError status body = Some err /\
    Retry.IsRetryableError
      Retry.CreateNetworkRetryManager
      ("failed to upload chunk at offset " ++ Str.Itoa uploadedBytes ++ ": "
       ++ err)%string
    = true.
Proof.
  intros Hstatus.
  assert (Hfind : forall code : string,
             In code ["503"; "502"; "504"]%string ->
             Retry.IsRetryableError
               Retry.CreateNetworkRetryManager
               ("failed to upload chunk at offset " ++ Str.Itoa uploadedBytes
                ++ ": " ++ "upload failed with status " ++ code ++ ": "
                ++ body)%string = true).
  { intros code Hin.
    unfold Retry.IsRetryableError. cbn [Retry.retryableErrors
      Retry.CreateNetworkRetryManager Retry.NewRetryManager
      Retry.RetryableErrors].
    apply existsb_exists. exists code. split.
    - cbn in Hin. cbn. intuition.
    - replace ("failed to upload chunk at offset " ++ Str.Itoa uploadedBytes
               ++ ": " ++ "upload failed with status " ++ code ++ ": "
               ++ body)%string
        with (("failed to upload chunk at offset " ++ Str.Itoa uploadedBytes
               ++ ": " ++ "upload failed with status ")
              ++ code ++ ": " ++ body)%string
        by (rewrite !append_assoc; reflexivity).
      apply containsString_complete. }
  destruct Hstatus as [-> | [-> | ->]]; eexists; (split; [reflexivity|]);
    apply Hfind; cbn; auto.
Qed.

Lemma gateway_errors_are_retried_witness :
  exists err,
    Uploader.statusError 503 "Service Unavailable" = Some err /\
    Retry.IsRetryableError
      Retry.CreateNetworkRetryManager
      ("failed to upload chunk at offset " ++ Str.Itoa 33554432 ++ ": "
       ++ err)%string
    = true.
Proof.
  apply (gateway_errors_are_retried 503 33554432 "Service Unavailable").
  right. left. reflexivity.
Defined.

(** X10.  Whatever the platform does in the floating-point part
    ([math.Pow], rounding, a conversion to [time.Duration] that is out of
    range), the delay is never negative when the base delay is not, and
    without jitter (a jitter fraction that is not positive) it never
    exceeds the larger of the maximum delay and the base delay: a
    conversion that comes out negative falls back to the base delay. *)
Theorem calculateDelay_guards
        (fpu : Float64.Platform)
        (rm : Retry.RetryManager) (r : Q)
        (attempt : Z) :
  0 <= Retry.baseDelay rm ->
  0 <= Retry.calculateDelay fpu rm r attempt /\
  (~ (0 < Retry.jitterRange rm)%Q ->
   Retry.calculateDelay fpu rm r attempt
   <= Z.max (Retry.maxDelay rm) (Retry.baseDelay rm)).
Proof.
  intros Hbase. unfold Retry.calculateDelay.
  set (d0 := Float64.toInt64 fpu _).
  set (d1 := if Retry.maxDelay rm <? d0 then Retry.maxDelay rm else d0).
  assert (Hd1 : d1 <= Retry.maxDelay rm).
  { subst d1. destruct (Z.ltb_spec (Retry.maxDelay rm) d0); lia. }
  split.
  - match goal with
    | |- 0 <= (if ?d <? 0 then _ else _) => destruct (Z.ltb_spec d 0); lia
    end.
  - intros Hj.
    destruct (Retry.float_is_pos (Retry.jitterRange rm)) eqn:Ej;
      [apply float_is_pos_spec in Ej; contradiction|].
    destruct (Z.ltb_spec d1 0); lia.
Qed.

Lemma calculateDelay_guards_witness :
  let rm := {| Retry.maxRetries := -1; Retry.baseDelay := Retry.Second;
               Retry.maxDelay := 5 * Retry.Minute;
               Retry.backoffFactor := 2 # 1; Retry.jitterRange := 0;
               Retry.retryableErrors := [] |} in
  Retry.calculateDelay Sample.fpu rm (1 # 2) 34 = 5 * Retry.Minute /\
  Retry.calculateDelay Sample.fpu rm (1 # 2) 35 = Retry.Second /\
  0 <= Retry.calculateDelay Sample.fpu rm (1 # 2) 35 /\
  (~ (0 < Retry.jitterRange rm)%Q ->
   Retry.calculateDelay Sample.fpu rm (1 # 2) 35
   <= Z.max (Retry.maxDelay rm) (Retry.baseDelay rm)).
Proof.
  cbv zeta. split; [reflexivity|]. split; [reflexivity|].
  apply calculateDelay_guards.
  vm_compute; discriminate.
Defined.

(** ** Invariants of the session tracker *)

Lemma wrap_wrap_add_l (a b : Z) :
  Int64.wrap (Int64.wrap a + b) = Int64.wrap (a + b).
Proof.
  unfold Int64.wrap.
  replace ((a + 2 ^ 63) mod 2 ^ 64 - 2 ^ 63 + b + 2 ^ 63)
    with ((a + 2 ^ 63) mod 2 ^ 64 + b) by lia.
  rewrite Zplus_mod_idemp_l. f_equal. f_equal. lia.
Qed.

Lemma wrap_wrap_add_r (a b : Z) :
  Int64.wrap (a + Int64.wrap b) = Int64.wrap (a + b).
Proof. rewrite Z.add_comm, wrap_wrap_add_l. f_equal. lia. Qed.

Lemma wrap_idempotent (a : Z) : Int64.wrap (Int64.wrap a) = Int64.wrap a.
Proof. apply wrap_in_range, wrap_range. Qed.

Lemma wrap_congruent (a b c : Z) :
  Int64.wrap a = Int64.wrap b -> Int64.wrap (a + c) = Int64.wrap (b + c).
Proof.
  intros H. rewrite <- (wrap_wrap_add_l a), <- (wrap_wrap_add_l b), H.
  reflexivity.
Qed.

Lemma uploadedSum_insert (files : gmap string Progress.FileProgress.t)
      (name : string) (f : Progress.FileProgress.t) :
  Progress.uploadedSum (<[name := f]> files)
  = Progress.FileProgress.UploadedSize f
    + Progress.uploadedSum (delete name files).
Proof.
  unfold Progress.uploadedSum.
  rewrite <- insert_delete_eq.
  rewrite map_fold_insert_L; [reflexivity | intros; lia |].
  apply lookup_delete_eq.
Qed.

Lemma uploadedSum_lookup (files : gmap string Progress.FileProgress.t)
      (name : string) (f : Progress.FileProgress.t) :
  files !! name = Some f ->
  Progress.uploadedSum files
  = Progress.FileProgress.UploadedSize f
    + Progress.uploadedSum (delete name files).
Proof.
  intros H. rewrite <- (insert_id files name f H) at 1.
  apply uploadedSum_insert.
Qed.

Lemma totalSum_insert (files : gmap string Progress.FileProgress.t)
      (name : string) (f : Progress.FileProgress.t) :
  Progress.totalSum (<[name := f]> files)
  = Progress.FileProgress.TotalSize f
    + Progress.totalSum (delete name files).
Proof.
  unfold Progress.totalSum.
  rewrite <- insert_delete_eq.
  rewrite map_fold_insert_L; [reflexivity | intros; lia |].
  apply lookup_delete_eq.
Qed.

Lemma totalSum_lookup (files : gmap string Progress.FileProgress.t)
      (name : string) (f : Progress.FileProgress.t) :
  files !! name = Some f ->
  Progress.totalSum files
  = Progress.FileProgress.TotalSize f
    + Progress.totalSum (delete name files).
Proof.
  intros H. rewrite <- (insert_id files name f H) at 1.
  apply totalSum_insert.
Qed.

Lemma raiseCompleted_keeps (s : Progress.UploadSession.t) :
  Progress.UploadSession.Files (Progress.raiseCompleted s)
  = Progress.UploadSession.Files s /\
  Progress.UploadSession.UploadedSize (Progress.raiseCompleted s)
  = Progress.UploadSession.UploadedSize s /\
  Progress.UploadSession.TotalSize (Progress.raiseCompleted s)
  = Progress.UploadSession.TotalSize s /\
  Progress.UploadSession.RetryAttempts (Progress.raiseCompleted s)
  = Progress.UploadSession.RetryAttempts s.
Proof.
  unfold Progress.raiseCompleted.
  destruct (Progress.allCompleted (Progress.UploadSession.Files s)); cbn; auto.
Qed.

(** X11.  The session's aggregate counters stay the sums of the items'
    counters (as 64-bit integers): a fresh tracker has the property, and
    [UpdateFileProgress], [MarkFileCompleted], [IncrementRetryAttempts] and
    the registration of a name that is not yet registered keep it. *)
Theorem aggregates_agree_invariant (t : Progress.Tracker) :
  (forall now1 now2 id ova host ds vm,
      Progress.aggregates_agree
        (Progress.session (Progress.NewTracker now1 now2 id ova host ds vm)))
  /\
  (Progress.aggregates_agree (Progress.session t) ->
   (forall now1 now2 name uploaded,
       Progress.aggregates_agree
         (Progress.session
            (Progress.UpdateFileProgress now1 now2 name uploaded t))) /\
   (forall now1 now2 name,
       Progress.aggregates_agree
         (Progress.session (Progress.MarkFileCompleted now1 now2 name t))) /\
   (forall now,
       Progress.aggregates_agree
         (Progress.session (Progress.IncrementRetryAttempts now t))) /\
   (forall now1 now2 now3 name size hash,
       Progress.UploadSession.Files (Progress.session t) !! name = None ->
       Progress.aggregates_agree
         (Progress.session
            (Progress.AddFile now1 now2 now3 name size hash t)))).
Proof.
  split.
  { intros. unfold Progress.aggregates_agree, Progress.uploadedSum,
      Progress.totalSum. cbn. rewrite !map_fold_empty. auto. }
  destruct t as [s path auto interval].
  unfold Progress.aggregates_agree. cbn [Progress.session].
  intros [Hup Htot]. split; [|split; [|split]].
  - intros now1 now2 name uploaded.
    unfold Progress.UpdateFileProgress. cbn [Progress.session].
    destruct (Progress.UploadSession.Files s !! name) as [file|] eqn:Hfile;
      [|cbn; auto].
    cbn [Progress.with_session Progress.session
         Progress.UploadSession.UploadedSize Progress.UploadSession.TotalSize
         Progress.UploadSession.Files].
    rewrite uploadedSum_insert, totalSum_insert.
    rewrite (uploadedSum_lookup _ _ _ Hfile) in Hup.
    rewrite (totalSum_lookup _ _ _ Hfile) in Htot.
    cbn [Progress.FileProgress.UploadedSize Progress.FileProgress.TotalSize].
    split; [|exact Htot].
    unfold Int64.add, Int64.sub.
    rewrite wrap_idempotent, wrap_wrap_add_r.
    rewrite (wrap_congruent _ _ (uploaded
                                 - Progress.FileProgress.UploadedSize file) Hup).
    f_equal. lia.
  - intros now1 now2 name.
    unfold Progress.MarkFileCompleted. cbn [Progress.session
      Progress.with_session].
    destruct (raiseCompleted_keeps (Progress.completeFile now1 now2 name s))
      as (-> & -> & -> & _).
    unfold Progress.completeFile.
    destruct (Progress.UploadSession.Files s !! name) as [file|] eqn:Hfile;
      [|auto].
    cbn [Progress.UploadSession.UploadedSize Progress.UploadSession.TotalSize
         Progress.UploadSession.Files].
    rewrite uploadedSum_insert, totalSum_insert.
    rewrite (uploadedSum_lookup _ _ _ Hfile) in Hup.
    rewrite (totalSum_lookup _ _ _ Hfile) in Htot.
    cbn [Progress.FileProgress.UploadedSize Progress.FileProgress.TotalSize].
    split; [|exact Htot].
    destruct (Progress.FileProgress.IsCompleted file); [exact Hup|].
    unfold Int64.add, Int64.sub.
    rewrite wrap_idempotent, wrap_wrap_add_r.
    rewrite (wrap_congruent _ _ (Progress.FileProgress.TotalSize file
                                 - Progress.FileProgress.UploadedSize file) Hup).
    f_equal. lia.
  - intros now. cbn. auto.
  - intros now1 now2 now3 name size hash Hfresh.
    unfold Progress.AddFile.
    cbn [Progress.session Progress.with_session
         Progress.UploadSession.UploadedSize Progress.UploadSession.TotalSize
         Progress.UploadSession.Files].
    rewrite uploadedSum_insert, totalSum_insert.
    rewrite (delete_id _ _ Hfresh).
    cbn [Progress.FileProgress.UploadedSize Progress.FileProgress.TotalSize].
    split; [rewrite Hup; reflexivity|].
    unfold Int64.add. rewrite wrap_idempotent.
    rewrite (wrap_congruent _ _ size Htot). f_equal. lia.
Qed.

Lemma aggregates_agree_invariant_witness :
  Progress.aggregates_agree
    (Progress.session
       (Progress.MarkFileCompleted 3 3 "disk1.vmdk"
          (Progress.UpdateFileProgress 2 2 "disk1.vmdk" 50 Sample.tracker))).
Proof.
  pose proof (aggregates_agree_invariant
                (Progress.NewTracker 0 0 "1700000000" "vm.ova" "esxi.local"
                                     "datastore1" "vm")) as [Hnew [_ [_ [_ Hadd]]]].
  { apply Hnew. }
  pose proof (aggregates_agree_invariant Sample.tracker) as [_ [Hupd _]].
  { apply Hadd. reflexivity. }
  pose proof (aggregates_agree_invariant
                (Progress.UpdateFileProgress 2 2 "disk1.vmdk" 50
                                             Sample.tracker))
    as [_ [_ [Hmark _]]].
  { apply Hupd. }
  apply Hmark.
Defined.

(** X12.  Only registration adds an item: [UpdateFileProgress] and
    [MarkFileCompleted] leave the set of registered names as it is, also
    when they are called with a name that is not registered, and [AddFile]
    adds exactly the name it is given. *)
Theorem registered_names (t : Progress.Tracker) (name : string) :
  (forall now1 now2 uploaded,
      dom (Progress.UploadSession.Files
             (Progress.session
                (Progress.UpdateFileProgress now1 now2 name uploaded t)))
      = dom (Progress.UploadSession.Files (Progress.session t))) /\
  (forall now1 now2,
      dom (Progress.UploadSession.Files
             (Progress.session (Progress.MarkFileCompleted now1 now2 name t)))
      = dom (Progress.UploadSession.Files (Progress.session t))) /\
  (forall now1 now2 now3 size hash,
      dom (Progress.UploadSession.Files
             (Progress.session
                (Progress.AddFile now1 now2 now3 name size hash t)))
      = {[ name ]} ∪ dom (Progress.UploadSession.Files (Progress.session t))).
Proof.
  destruct t as [s path autosave interval].
  assert (Hkeep : forall f g,
             Progress.UploadSession.Files s !! name = Some f ->
             dom (<[name := g]> (Progress.UploadSession.Files s))
             = dom (Progress.UploadSession.Files s)).
  { intros f g Hf. rewrite dom_insert_L.
    apply subseteq_union_1_L. apply singleton_subseteq_l.
    apply elem_of_dom. eauto. }
  split; [|split].
  - intros now1 now2 uploaded.
    unfold Progress.UpdateFileProgress. cbn [Progress.session].
    destruct (Progress.UploadSession.Files s !! name) as [file|] eqn:Hfile;
      [|reflexivity].
    cbn. eapply Hkeep. reflexivity.
  - intros now1 now2.
    unfold Progress.MarkFileCompleted. cbn [Progress.session
      Progress.with_session].
    destruct (raiseCompleted_keeps (Progress.completeFile now1 now2 name s))
      as (-> & _).
    unfold Progress.completeFile.
    destruct (Progress.UploadSession.Files s !! name) as [file|] eqn:Hfile;
      [|reflexivity].
    cbn. eapply Hkeep. reflexivity.
  - intros now1 now2 now3 size hash. cbn. apply dom_insert_L.
Qed.

(** X13.  Reporting the same progress value twice is the same as reporting
    it once (the second call only renews the time stamps). *)
Theorem UpdateFileProgress_idempotent
        (a1 a2 b1 b2 : Progress.Time) (name : string) (uploaded : Z)
        (t : Progress.Tracker) :
  Progress.UpdateFileProgress b1 b2 name uploaded
    (Progress.UpdateFileProgress a1 a2 name uploaded t)
  = Progress.UpdateFileProgress b1 b2 name uploaded t.
Proof.
  destruct t as [s path autosave interval].
  unfold Progress.UpdateFileProgress at 2 3. cbn [Progress.session].
  destruct (Progress.UploadSession.Files s !! name) as [file|] eqn:Hfile.
  - unfold Progress.UpdateFileProgress, Progress.with_session.
    cbn [Progress.session Progress.sessionFile Progress.autoSave
         Progress.saveInterval Progress.UploadSession.Files].
    rewrite lookup_insert_eq.
    cbn [Progress.FileProgress.UploadedSize Progress.FileProgress.TotalSize
         Progress.FileProgress.IsCompleted Progress.FileProgress.FileName
         Progress.FileProgress.ChunksTotal Progress.FileProgress.StartTime
         Progress.FileProgress.SHA1Hash
         Progress.UploadSession.SessionID Progress.UploadSession.OVAFile
         Progress.UploadSession.ESXiHost Progress.UploadSession.Datastore
         Progress.UploadSession.VMName Progress.UploadSession.TotalSize
         Progress.UploadSession.UploadedSize Progress.UploadSession.StartTime
         Progress.UploadSession.IsCompleted Progress.UploadSession.Files
         Progress.UploadSession.RetryAttempts].
    rewrite insert_insert_eq.
    f_equal. f_equal.
    + replace (Int64.sub uploaded uploaded) with 0
        by (unfold Int64.sub; rewrite Z.sub_diag; reflexivity).
      unfold Int64.add at 1. rewrite Z.add_0_r.
      unfold Int64.add. apply wrap_idempotent.
    + f_equal. f_equal.
      destruct (Progress.FileProgress.TotalSize file <=? uploaded);
        reflexivity.
  - unfold Progress.UpdateFileProgress. cbn [Progress.session].
    rewrite Hfile. reflexivity.
Qed.

(** X14.  Completion flags are never taken back by progress reports: an
    item that is flagged completed stays flagged under
    [UpdateFileProgress] and [MarkFileCompleted] for any name and value,
    and so does the session's flag. *)
Theorem completion_is_sticky
        (t : Progress.Tracker) (name : string) (file : Progress.FileProgress.t) :
  Progress.GetFileProgress name t = Some file ->
  Progress.FileProgress.IsCompleted file = true ->
  (forall now1 now2 other uploaded,
      Cmd.alreadyUploaded
        (Progress.UpdateFileProgress now1 now2 other uploaded t) name = true)
  /\
  (forall now1 now2 other,
      Cmd.alreadyUploaded
        (Progress.MarkFileCompleted now1 now2 other t) name = true) /\
  (Progress.UploadSession.IsCompleted (Progress.session t) = true ->
   (forall now1 now2 other uploaded,
       Progress.UploadSession.IsCompleted
         (Progress.session
            (Progress.UpdateFileProgress now1 now2 other uploaded t)) = true)
   /\
   (forall now1 now2 other,
       Progress.UploadSession.IsCompleted
         (Progress.session (Progress.MarkFileCompleted now1 now2 other t))
       = true)).
Proof.
  destruct t as [s path autosave interval].
  unfold Progress.GetFileProgress, Cmd.alreadyUploaded. cbn [Progress.session].
  intros Hfile Hdone. split; [|split].
  - intros now1 now2 other uploaded.
    unfold Progress.UpdateFileProgress, Progress.GetFileProgress.
    cbn [Progress.session].
    destruct (Progress.UploadSession.Files s !! other) as [g|] eqn:Hother;
      cbn [Progress.session Progress.with_session Progress.UploadSession.Files].
    + destruct (decide (other = name)) as [->|Hne].
      * rewrite lookup_insert_eq. cbn.
        assert (g = file) by congruence. subst g. rewrite Hdone.
        destruct (_ <=? _); reflexivity.
      * rewrite lookup_insert_ne by exact Hne. rewrite Hfile. exact Hdone.
    + rewrite Hfile. exact Hdone.
  - intros now1 now2 other.
    unfold Progress.MarkFileCompleted, Progress.GetFileProgress.
    cbn [Progress.session Progress.with_session].
    destruct (raiseCompleted_keeps (Progress.completeFile now1 now2 other s))
      as (-> & _).
    unfold Progress.completeFile.
    destruct (Progress.UploadSession.Files s !! other) as [g|] eqn:Hother;
      cbn [Progress.UploadSession.Files].
    + destruct (decide (other = name)) as [->|Hne].
      * rewrite lookup_insert_eq. reflexivity.
      * rewrite lookup_insert_ne by exact Hne. rewrite Hfile. exact Hdone.
    + rewrite Hfile. exact Hdone.
  - intros Hsession. split.
    + intros now1 now2 other uploaded.
      unfold Progress.UpdateFileProgress. cbn [Progress.session].
      destruct (Progress.UploadSession.Files s !! other); cbn; exact Hsession.
    + intros now1 now2 other.
      unfold Progress.MarkFileCompleted, Progress.raiseCompleted.
      cbn [Progress.session Progress.with_session].
      destruct (Progress.allCompleted _); [reflexivity|].
      unfold Progress.completeFile.
      destruct (Progress.UploadSession.Files s !! other); cbn; exact Hsession.
Qed.

Lemma completion_is_sticky_witness :
  let t := Progress.MarkFileCompleted 2 2 "disk1.vmdk" Sample.tracker in
  Cmd.alreadyUploaded (Progress.UpdateFileProgress 3 3 "disk1.vmdk" 10 t)
                      "disk1.vmdk" = true.
Proof.
  cbv zeta.
  destruct (completion_is_sticky
              (Progress.MarkFileCompleted 2 2 "disk1.vmdk" Sample.tracker)
              "disk1.vmdk"
              {| Progress.FileProgress.FileName := "disk1.vmdk";
                 Progress.FileProgress.TotalSize := 100;
                 Progress.FileProgress.UploadedSize := 100;
                 Progress.FileProgress.ChunksTotal := 1;
                 Progress.FileProgress.ChunksUploaded := 1;
                 Progress.FileProgress.StartTime := 1;
                 Progress.FileProgress.LastUpdate := 2;
                 Progress.FileProgress.IsCompleted := true;
                 Progress.FileProgress.SHA1Hash := "" |})
    as (Hupdate & _).
  - vm_compute. reflexivity.
  - reflexivity.
  - apply Hupdate.
Defined.

(** X15.  The two chunk counts are consistent: when the full size of a
    freshly registered item is reported, the number of uploaded chunks that
    [UpdateFileProgress] computes equals the total that [AddFile] computed,
    and the item is flagged completed. *)
Theorem chunk_counts_meet
        (n1 n2 n3 u1 u2 : Progress.Time) (name hash : string) (size : Z)
        (t : Progress.Tracker) :
  0 <= size ->
  size + Progress.chunkSize <= Int64.max_int ->
  exists file,
    Progress.GetFileProgress
      name
      (Progress.UpdateFileProgress u1 u2 name size
         (Progress.AddFile n1 n2 n3 name size hash t))
    = Some file /\
    Progress.FileProgress.ChunksUploaded file
    = Progress.FileProgress.ChunksTotal file /\
    Progress.FileProgress.ChunksTotal file
    = (size + Progress.chunkSize - 1) / Progress.chunkSize /\
    Progress.FileProgress.UploadedSize file
    = Progress.FileProgress.TotalSize file /\
    Progress.FileProgress.IsCompleted file = true.
Proof.
  intros Hsize Hmax.
  unfold Progress.UpdateFileProgress, Progress.AddFile,
    Progress.GetFileProgress.
  cbn [Progress.session Progress.with_session Progress.UploadSession.Files].
  rewrite lookup_insert_eq.
  cbn [Progress.session Progress.with_session Progress.UploadSession.Files].
  rewrite lookup_insert_eq.
  eexists. split; [reflexivity|].
  cbn [Progress.FileProgress.ChunksUploaded Progress.FileProgress.ChunksTotal
       Progress.FileProgress.UploadedSize Progress.FileProgress.TotalSize
       Progress.FileProgress.IsCompleted].
  rewrite Z.leb_refl.
  assert (Hcs : Progress.chunkSize = 33554432) by reflexivity.
  unfold Int64.max_int in Hmax.
  pose proof (Z.div_mod size Progress.chunkSize ltac:(lia)) as Hdm.
  pose proof (Z.mod_pos_bound size Progress.chunkSize ltac:(lia)) as Hmod.
  assert (Hq : 0 <= size / Progress.chunkSize) by (apply Z.div_pos; lia).
  assert (Hqle : size / Progress.chunkSize <= size)
    by (apply Z.div_le_upper_bound; nia).
  assert (Hceil : (size + Progress.chunkSize - 1) / Progress.chunkSize
                  = size / Progress.chunkSize
                    + (if 0 <? size mod Progress.chunkSize then 1 else 0)).
  { destruct (Z.ltb_spec 0 (size mod Progress.chunkSize)).
    - symmetry. apply (Z.div_unique _ _ _ (size mod Progress.chunkSize - 1));
        lia.
    - symmetry. apply (Z.div_unique _ _ _ (Progress.chunkSize - 1)); lia. }
  assert (Htotal : Int64.div (Int64.sub (Int64.add size Progress.chunkSize) 1)
                             Progress.chunkSize
                   = (size + Progress.chunkSize - 1) / Progress.chunkSize).
  { unfold Int64.div, Int64.sub, Int64.add.
    rewrite (wrap_in_range (size + Progress.chunkSize))
      by (unfold Int64.in_range, Int64.min_int, Int64.max_int; lia).
    rewrite (wrap_in_range (size + Progress.chunkSize - 1))
      by (unfold Int64.in_range, Int64.min_int, Int64.max_int; lia).
    rewrite Z.quot_div_nonneg by lia.
    apply wrap_in_range.
    unfold Int64.in_range, Int64.min_int, Int64.max_int.
    rewrite Hceil. destruct (0 <? size mod Progress.chunkSize); lia. }
  rewrite Htotal.
  split; [|auto].
  unfold Int64.rem. rewrite Z.rem_mod_nonneg by lia.
  assert (Hdiv : Int64.div size Progress.chunkSize
                 = size / Progress.chunkSize).
  { unfold Int64.div. rewrite Z.quot_div_nonneg by lia.
    apply wrap_in_range.
    unfold Int64.in_range, Int64.min_int, Int64.max_int. lia. }
  rewrite Hdiv, Hceil.
  destruct (0 <? size mod Progress.chunkSize); [|lia].
  apply wrap_in_range.
  unfold Int64.in_range, Int64.min_int, Int64.max_int. lia.
Qed.

Lemma chunk_counts_meet_witness :
  exists file,
    Progress.GetFileProgress
      "disk9.vmdk"
      (Progress.UpdateFileProgress 4 4 "disk9.vmdk" 104857600
         (Progress.AddFile 3 3 3 "disk9.vmdk" 104857600 "" Sample.tracker))
    = Some file /\
    Progress.FileProgress.ChunksUploaded file = 4 /\
    Progress.FileProgress.ChunksTotal file = 4.
Proof.
  destruct (chunk_counts_meet 3 3 3 4 4 "disk9.vmdk" "" 104857600
                              Sample.tracker)
    as (file & Hget & Hup & Htot & _).
  - lia.
  - vm_compute. discriminate.
  - exists file. split; [exact Hget|].
    rewrite Hup, Htot. split; reflexivity.
Defined.

(** X16.  [Close] and [Delete] on a tracker whose stop channel is already
    closed panic, so a second [Delete], or a [Delete] after [Close], does.
    On an open channel [Delete] returns with the channel closed and every
    other file as it was.  When it returns nil the session file is gone and
    loading the session again fails with a read error; it does return nil
    when the operating system refuses nothing and the file name is not
    empty.  When the final save is refused and no session file was there,
    it returns the error of the removal and leaves the files as they
    were. *)
Theorem Delete_removes_session_file
        (formatTime : Progress.Time -> string)
        (parseTime : string -> option Progress.Time)
        (Text : Type) (render : Json.value -> Text)
        (parse : Text -> option Json.value)
        (writeFault : string -> option (Progress.WriteFault Text))
        (removeRefused : string -> bool)
        (t : Progress.Tracker) (fs : gmap string Text) :
  let name := Progress.sessionFile t in
  let Close := Progress.Close formatTime Text render writeFault in
  let Delete := Progress.Delete formatTime Text render writeFault
                                removeRefused in
  (exists msg, Close t true fs = Panicked msg) /\
  (exists msg, Delete t true fs = Panicked msg) /\
  exists r fs',
    Delete t false fs = Returned (r, true, fs') /\
    (forall other, other <> name -> fs' !! other = fs !! other) /\
    (r = None ->
     fs' !! name = None /\
     exists e, Progress.LoadTracker parseTime Text parse fs' name = Err e) /\
    (writeFault name = None -> removeRefused name = false -> name <> "" ->
     r = None) /\
    (writeFault name = Some (Progress.Refused Text) -> fs !! name = None ->
     r <> None /\ fs' = fs).
Proof.
  intros name Close Delete. subst Close Delete.
  split; [eexists; reflexivity|]. split; [eexists; reflexivity|].
  unfold Progress.Delete, Progress.Close.
  set (fs1 := snd (Progress.finalSave formatTime Text render writeFault t fs)).
  assert (Hframe : forall other, other <> name -> fs1 !! other = fs !! other).
  { intros other Hother. subst fs1.
    unfold Progress.finalSave, Progress.Save, Progress.WriteFile.
    fold name.
    destruct (writeFault name) as [[|content]|]; cbn [snd].
    - reflexivity.
    - apply lookup_insert_ne. congruence.
    - destruct (String.eqb name ""); cbn [snd]; [reflexivity|].
      apply lookup_insert_ne. congruence. }
  assert (Hclean : writeFault name = None -> name <> "" ->
                   fs1 !! name <> None).
  { intros Hw Hname. subst fs1.
    unfold Progress.finalSave, Progress.Save, Progress.WriteFile.
    fold name. rewrite Hw.
    destruct (String.eqb_spec name ""); [contradiction|].
    cbn [snd]. rewrite lookup_insert_eq. discriminate. }
  assert (Hrefused : writeFault name = Some (Progress.Refused Text) ->
                     fs1 = fs).
  { intros Hw. subst fs1. unfold Progress.finalSave. fold name.
    rewrite Hw. reflexivity. }
  unfold Progress.Remove. fold name.
  destruct (fs1 !! name) as [data|] eqn:Efile.
  - destruct (removeRefused name) eqn:Edeny.
    + eexists. exists fs1. split; [reflexivity|].
      split; [exact Hframe|].
      split; [discriminate|]. split; [discriminate|].
      intros Hw Hnone. rewrite (Hrefused Hw) in Efile. congruence.
    + eexists. eexists. split; [reflexivity|]. split.
      { intros other Hother. rewrite lookup_delete_ne by congruence.
        apply Hframe. exact Hother. }
      split.
      { intros _. split; [apply lookup_delete_eq|].
        unfold Progress.LoadTracker, Progress.ReadFile.
        rewrite lookup_delete_eq. eauto. }
      split; [reflexivity|].
      intros Hw Hnone. rewrite (Hrefused Hw) in Efile. congruence.
  - eexists. exists fs1. split; [reflexivity|].
    split; [exact Hframe|].
    split; [discriminate|]. split.
    + intros Hw _ Hname. destruct (Hclean Hw Hname). reflexivity.
    + intros Hw _. split; [discriminate | exact (Hrefused Hw)].
Qed.

(** A fresh session on a system that refuses nothing is saved and removed;
    on a system that refuses the write, nothing is there to remove. *)
Lemma Delete_removes_session_file_witness :
  (exists fs',
      Progress.Delete Sample.formatTime Json.value (fun doc => doc)
                      (fun _ => None) (fun _ => false)
                      Sample.tracker false ∅
      = Returned (None, true, fs') /\
      fs' !! ".upload-session-1700000000.json" = None) /\
  (exists e,
      Progress.Delete Sample.formatTime Json.value (fun doc => doc)
                      (fun _ => Some (Progress.Refused Json.value))
                      (fun _ => false)
                      Sample.tracker false ∅
      = Returned (Some e, true, ∅)) /\
  (exists msg,
      Progress.Delete Sample.formatTime Json.value (fun doc => doc)
                      (fun _ => None) (fun _ => false)
                      Sample.tracker true ∅
      = Panicked msg).
Proof.
  split; [|split].
  - destruct (Delete_removes_session_file
                Sample.formatTime Sample.parseTime Json.value (fun doc => doc)
                Some (fun _ => None) (fun _ => false) Sample.tracker ∅)
      as (_ & _ & r & fs' & Hdel & _ & Hgone & Hnil & _).
    cbv zeta in Hnil, Hgone.
    specialize (Hnil eq_refl eq_refl ltac:(discriminate)). subst r.
    exists fs'. split; [exact Hdel|]. apply (Hgone eq_refl).
  - destruct (Delete_removes_session_file
                Sample.formatTime Sample.parseTime Json.value (fun doc => doc)
                Some (fun _ => Some (Progress.Refused Json.value))
                (fun _ => false) Sample.tracker ∅)
      as (_ & _ & r & fs' & Hdel & _ & _ & _ & Herr).
    cbv zeta in Herr.
    destruct (Herr eq_refl (lookup_empty _)) as [Hr ->].
    destruct r as [e|]; [|contradiction].
    exists e. exact Hdel.
  - apply (Delete_removes_session_file
             Sample.formatTime Sample.parseTime Json.value (fun doc => doc)
             Some (fun _ => None) (fun _ => false) Sample.tracker ∅).
Defined.

(** ** The unit [formatBytes] picks *)

Lemma scale_spec (fuel : nat) :
  forall n div exp,
    1 <= n < Progress.unit ^ Z.of_nat fuel ->
    0 < div -> div * n <= Int64.max_int ->
    0 <= exp -> exp + n <= Int64.max_int ->
    exists k,
      0 <= k < Z.of_nat fuel /\
      Progress.scale fuel n div exp
      = Some (div * Progress.unit ^ k, exp + k) /\
      Progress.unit ^ k <= n < Progress.unit ^ (k + 1).
Proof.
  unfold Progress.unit.
  induction fuel as [|fuel IH]; intros n div exp Hn Hdiv Hmax Hexp Hexpmax.
  - cbn in Hn. lia.
  - rewrite Nat2Z.inj_succ, Z.pow_succ_r in Hn by lia.
    cbn [Progress.scale]. unfold Progress.unit.
    unfold Int64.max_int in *.
    destruct (Z.leb_spec 1024 n) as [Hbig|Hsmall].
    + pose proof (Z.div_mod n 1024 ltac:(lia)) as Hdm.
      pose proof (Z.mod_pos_bound n 1024 ltac:(lia)) as Hmod.
      assert (Hq : 1 <= n / 1024)
        by (apply Z.div_le_lower_bound; lia).
      assert (Hqlt : n / 1024 < 1024 ^ Z.of_nat fuel)
        by (apply Z.div_lt_upper_bound; lia).
      assert (Hdivn : Int64.div n 1024 = n / 1024).
      { unfold Int64.div. rewrite Z.quot_div_nonneg by lia.
        apply wrap_in_range.
        unfold Int64.in_range, Int64.min_int, Int64.max_int. nia. }
      assert (Hmul : Int64.mul div 1024 = div * 1024).
      { apply wrap_in_range.
        unfold Int64.in_range, Int64.min_int, Int64.max_int. nia. }
      assert (Hadd : Int64.add exp 1 = exp + 1).
      { apply wrap_in_range.
        unfold Int64.in_range, Int64.min_int, Int64.max_int. lia. }
      rewrite Hdivn, Hmul, Hadd.
      destruct (IH (n / 1024) (div * 1024) (exp + 1)) as (k & Hk & Hrun & Hb);
        [lia | lia | nia | lia | lia |].
      exists (k + 1). split; [lia|]. split.
      * unfold Progress.unit in Hrun. rewrite Hrun.
        rewrite (Z.pow_add_r 1024 k 1) by lia. f_equal. f_equal; lia.
      * unfold Progress.unit in Hb.
        rewrite (Z.pow_add_r 1024 k 1) in Hb by lia.
        rewrite (Z.pow_add_r 1024 (k + 1) 1), (Z.pow_add_r 1024 k 1) by lia.
        change (1024 ^ 1) with 1024 in *.
        assert (0 < 1024 ^ k) by (apply Z.pow_pos_nonneg; lia).
        set (p := 1024 ^ k) in *. set (q := n / 1024) in *.
        split; nia.
    + exists 0. split; [lia|]. split.
      * f_equal. f_equal; lia.
      * change (1024 ^ 0) with 1. change (1024 ^ (0 + 1)) with 1024. lia.
Qed.

(** X17.  For every size from 1024 bytes up to the largest 64-bit value,
    [formatBytes] finds its unit within six steps: the divisor is a power
    of 1024 between 1024 and 1024^6 with [div <= bytes < 1024 * div], and
    the index into ["KMGTPE"] is in range, so a letter is always found. *)
Theorem formatBytes_unit_in_range (bytes : Z) (fuel : nat) :
  Progress.unit <= bytes <= Int64.max_int ->
  (6 <= fuel)%nat ->
  exists div letter exp,
    Progress.formatBytes_unit fuel bytes = Some (div, letter) /\
    0 <= exp <= 5 /\
    div = Progress.unit ^ (exp + 1) /\
    Progress.suffix exp = Some letter /\
    div <= bytes < Progress.unit * div.
Proof.
  intros [Hlo Hhi] Hfuel.
  unfold Progress.formatBytes_unit.
  unfold Progress.unit, Int64.max_int in *.
  pose proof (Z.div_mod bytes 1024 ltac:(lia)) as Hdm.
  pose proof (Z.mod_pos_bound bytes 1024 ltac:(lia)) as Hmod.
  assert (Hq : 1 <= bytes / 1024) by (apply Z.div_le_lower_bound; lia).
  assert (Hdivb : Int64.div bytes 1024 = bytes / 1024).
  { unfold Int64.div. rewrite Z.quot_div_nonneg by lia.
    apply wrap_in_range.
    unfold Int64.in_range, Int64.min_int, Int64.max_int. nia. }
  rewrite Hdivb.
  assert (H6 : bytes / 1024 < 1024 ^ 6)
    by (apply Z.div_lt_upper_bound; lia).
  destruct (scale_spec 6 (bytes / 1024) 1024 0) as (k & Hk & Hrun & Hb);
    [unfold Progress.unit; lia | lia | unfold Int64.max_int; nia | lia
     | unfold Int64.max_int; nia |].
  unfold Progress.unit in Hrun, Hb.
  assert (Hmore : Progress.scale fuel (bytes / 1024) 1024 0
                  = Some (1024 * 1024 ^ k, 0 + k)).
  { destruct (scale_spec fuel (bytes / 1024) 1024 0)
      as (k' & Hk' & Hrun' & Hb');
      [unfold Progress.unit; split; [lia|];
       eapply Z.lt_le_trans; [exact H6|];
       apply Z.pow_le_mono_r; lia
      | lia | unfold Int64.max_int; nia | lia
      | unfold Int64.max_int; nia |].
    unfold Progress.unit in Hrun', Hb'. rewrite Hrun'.
    assert (k' = k); [|subst; reflexivity].
    destruct (Z.lt_trichotomy k' k) as [Hlt|[Heq|Hgt]]; [|exact Heq|].
    - assert (1024 ^ (k' + 1) <= 1024 ^ k)
        by (apply Z.pow_le_mono_r; lia). lia.
    - assert (1024 ^ (k + 1) <= 1024 ^ k')
        by (apply Z.pow_le_mono_r; lia). lia. }
  rewrite Hmore, Z.add_0_l.
  assert (Hsuffix : exists letter, Progress.suffix k = Some letter).
  { assert (Hcases : k = 0 \/ k = 1 \/ k = 2 \/ k = 3 \/ k = 4 \/ k = 5)
      by lia.
    destruct Hcases as [-> | [-> | [-> | [-> | [-> | ->]]]]];
      eexists; reflexivity. }
  destruct Hsuffix as [letter Hletter]. rewrite Hletter.
  exists (1024 * 1024 ^ k), letter, k.
  split; [reflexivity|]. split; [lia|].
  split; [rewrite (Z.pow_add_r 1024 k 1) by lia; change (1024 ^ 1) with 1024;
          lia|].
  split; [exact Hletter|].
  rewrite (Z.pow_add_r 1024 k 1) in Hb by lia. change (1024 ^ 1) with 1024 in Hb.
  nia.
Qed.

Lemma formatBytes_unit_in_range_witness :
  exists div letter exp,
    Progress.formatBytes_unit 6 104857600 = Some (div, letter) /\
    0 <= exp <= 5 /\
    div = Progress.unit ^ (exp + 1) /\
    Progress.suffix exp = Some letter /\
    div <= 104857600 < Progress.unit * div.
Proof.
  apply (formatBytes_unit_in_range 104857600 6).
  - split; vm_compute; discriminate.
  - lia.
Defined.

(** ** The sequential upload *)

Section StreamFacts.

Variable W : Type.
Variable put : W -> Z -> Z -> option string * W.
Variables C offset total : Z.
Hypothesis HC : 0 < C.
Hypothesis Hmax : total + C <= Int64.max_int.

(** While [todo] chunks remain for the bytes from [cur] on, the loop asks
    for the ranges the queueing loop would compute, in the same order, until
    one is refused. *)
Lemma streamLoop_follows_enqueue (todo : nat) :
  forall (fuel : nat) (k cur : Z) (w : W) (sent : list (Z * Z))
         (reported : list Z),
    (todo < fuel)%nat -> 0 <= cur ->
    (Z.of_nat todo - 1) * C < total - cur <= Z.of_nat todo * C ->
    exists out n,
      Uploader.streamLoop W put fuel C offset total cur w sent reported
      = Some out /\
      Uploader.reportedBytes out
      = reported ++ List.map (fun i => Z.min total (cur + (Z.of_nat i + 1) * C))
                             (seq 0 n) /\
      match Uploader.streamError out with
      | None =>
          n = todo /\
          Uploader.requests out
          = sent ++ List.map Uploader.range
                             (Uploader.enqueue todo C offset total k cur)
      | Some e =>
          (n < todo)%nat /\
          Uploader.requests out
          = sent ++ List.map Uploader.range
                             (take (S n)
                                   (Uploader.enqueue todo C offset total k cur))
          /\
          exists err,
            e = ("failed to upload chunk at offset "
                 ++ Str.Itoa (cur + Z.of_nat n * C) ++ ": " ++ err)%string
      end.
Proof.
  induction todo as [|todo IH];
    intros fuel k cur w sent reported Hfuel Hcur Hinv;
    (destruct fuel as [|fuel]; [lia|]); cbn [Uploader.streamLoop].
  - destruct (Z.ltb_spec cur total) as [Hlt|_]; [lia|].
    eexists. exists 0%nat. split; [reflexivity|]. cbn.
    rewrite !app_nil_r. auto.
  - destruct (Z.ltb_spec cur total) as [_|Hge]; [|lia].
    assert (Hadd : Int64.add cur C = cur + C).
    { apply wrap_in_range.
      unfold Int64.in_range, Int64.min_int, Int64.max_int in *. lia. }
    assert (Hsub : Int64.sub total cur = total - cur).
    { apply wrap_in_range.
      unfold Int64.in_range, Int64.min_int, Int64.max_int in *. lia. }
    cbn [Uploader.enqueue]. rewrite Hadd, Hsub.
    set (size := if total <? cur + C then total - cur else C).
    assert (Hsize : size = Z.min C (total - cur)).
    { subst size. destruct (Z.ltb_spec total (cur + C)); lia. }
    assert (Hnext : Int64.add cur size = cur + size).
    { apply wrap_in_range.
      unfold Int64.in_range, Int64.min_int, Int64.max_int in *. lia. }
    rewrite Hnext.
    destruct (put w (Int64.add offset cur) size) as [[err|] w'].
    + eexists. exists 0%nat. split; [reflexivity|].
      cbn [Uploader.streamError Uploader.requests Uploader.reportedBytes
           seq List.map take Uploader.range Uploader.ovaOffset
           Uploader.chunkSize].
      rewrite app_nil_r. split; [reflexivity|].
      split; [lia|]. split; [reflexivity|].
      exists err. rewrite Z.mul_0_l, Z.add_0_r. reflexivity.
    + destruct (IH fuel (Int64.add k 1) (cur + size) w'
                   (sent ++ [(Int64.add offset cur, size)])
                   (reported ++ [cur + size]))
        as (out & n & Hrun & Hrep & Hend); [lia | lia | nia |].
      exists out, (S n). split; [exact Hrun|].
      assert (Hfull : (0 < n)%nat -> size = C).
      { intros Hn. destruct (Uploader.streamError out);
          [destruct Hend as (Hlt & _) | destruct Hend as (Heq & _)]; nia. }
      split.
      * rewrite Hrep, <- app_assoc. f_equal.
        cbn [seq List.map app]. f_equal; [lia|].
        rewrite <- seq_shift, List.map_map.
        destruct n as [|n]; [reflexivity|].
        rewrite (Hfull ltac:(lia)).
        apply List.map_ext. intros i. f_equal. lia.
      * destruct (Uploader.streamError out) as [e|].
        -- destruct Hend as (Hlt & Hreq & err & He).
           split; [lia|]. split.
           ++ rewrite Hreq, <- app_assoc. reflexivity.
           ++ exists err. rewrite He.
              destruct n as [|n].
              ** rewrite Z.mul_0_l, Z.add_0_r.
                 assert (todo <> 0%nat) by lia.
                 assert (size = C) by nia.
                 do 3 f_equal. lia.
              ** rewrite (Hfull ltac:(lia)). do 3 f_equal. lia.
        -- destruct Hend as (Heq & Hreq).
           split; [lia|]. rewrite Hreq, <- app_assoc. reflexivity.
Qed.

End StreamFacts.

(** X18.  The sequential upload asks for the ranges the parallel upload
    queues, in the same order, for a payload of [total >= 0] bytes and a
    chunk size [C > 0] (with [total + C] within the 64-bit range), whatever
    the endpoint answers.  It stops at the first range that is refused: the
    requests are then the queue up to that range, and the error names the
    number of bytes accepted before it.  The values handed to the progress
    callback are [C], [2C], ... capped at [total], one per accepted range;
    when no range is refused every range of the queue has been sent. *)
Theorem sequential_upload_follows_queue
        (W : Type) (put : W -> Z -> Z -> option string * W)
        (C offset total : Z) (w : W) (fuel : nat) :
  0 < C -> 0 <= total -> total + C <= Int64.max_int ->
  (Z.to_nat (Uploader.totalChunks C total) < fuel)%nat ->
  let queue := List.map Uploader.range (Uploader.workQueue C offset total) in
  exists out n,
    Uploader.uploadFromOVAChunkedQuiet W put fuel C offset total w
    = Returned (Some out) /\
    Uploader.reportedBytes out
    = List.map (fun i => Z.min total ((Z.of_nat i + 1) * C)) (seq 0 n) /\
    match Uploader.streamError out with
    | None => Uploader.requests out = queue /\ n = List.length queue
    | Some e =>
        Uploader.requests out = take (S n) queue /\
        (n < List.length queue)%nat /\
        exists err,
          e = ("failed to upload chunk at offset "
               ++ Str.Itoa (Z.of_nat n * C) ++ ": " ++ err)%string
    end.
Proof.
  intros HC Htotal Hmax Hfuel queue.
  unfold Uploader.uploadFromOVAChunkedQuiet.
  destruct (Z.eqb_spec C 0) as [?|_]; [lia|].
  set (todo := Z.to_nat (Uploader.totalChunks C total)) in *.
  assert (Hinv : (Z.of_nat todo - 1) * C < total - 0 <= Z.of_nat todo * C).
  { subst todo. destruct (Z.eq_dec total 0) as [->|Hpos].
    - replace (Uploader.totalChunks C 0) with 0; [cbn; lia|].
      unfold Uploader.totalChunks, Int64.add, Int64.sub, Int64.div.
      rewrite (wrap_in_range (0 + C))
        by (unfold Int64.in_range, Int64.min_int, Int64.max_int in *; lia).
      rewrite (wrap_in_range (0 + C - 1))
        by (unfold Int64.in_range, Int64.min_int, Int64.max_int in *; lia).
      rewrite Z.quot_small by lia. reflexivity.
    - destruct (totalChunks_ceiling C total HC ltac:(lia) Hmax)
        as (_ & Hn0 & Hn).
      rewrite Z2Nat.id by lia. lia. }
  destruct (streamLoop_follows_enqueue W put C offset total HC Hmax todo
              fuel 1 0 w [] [] Hfuel ltac:(lia) Hinv)
    as (out & n & Hrun & Hrep & Hend).
  exists out, n. split; [rewrite Hrun; reflexivity|].
  split.
  - rewrite Hrep. cbn [app]. apply List.map_ext. intros i. f_equal; lia.
  - subst queue. unfold Uploader.workQueue. fold todo.
    rewrite length_map, enqueue_length.
    destruct (Uploader.streamError out) as [e|].
    + destruct Hend as (Hlt & Hreq & err & He).
      split; [rewrite Hreq; cbn [app]; symmetry; apply firstn_map|].
      split; [exact Hlt|]. exists err. rewrite He. reflexivity.
    + destruct Hend as (Heq & Hreq). split; [exact Hreq | exact Heq].
Qed.

Lemma sequential_upload_follows_queue_witness :
  let put := fun (w : nat) (ovaOffset chunkSize : Z) =>
               (if ovaOffset =? 1088 then Some "EOF" else None, S w) in
  exists out,
    Uploader.uploadFromOVAChunkedQuiet nat put 5 32 1024 100 0%nat
    = Returned (Some out) /\
    Uploader.requests out = [(1024, 32); (1056, 32); (1088, 32)] /\
    Uploader.reportedBytes out = [32; 64] /\
    Uploader.streamError out
    = Some "failed to upload chunk at offset 64: EOF" /\
    Uploader.endpoint out = 3%nat.
Proof.
  cbv zeta.
  destruct (sequential_upload_follows_queue
              nat (fun (w : nat) (ovaOffset chunkSize : Z) =>
                     (if ovaOffset =? 1088 then Some "EOF" else None, S w))
              32 1024 100 0%nat 5)
    as (out & n & Hrun & Hrep & Hend).
  - lia.
  - lia.
  - vm_compute; discriminate.
  - vm_compute. lia.
  - exists out. split; [exact Hrun|].
    vm_compute in Hrun. injection Hrun as <-.
    repeat split; reflexivity.
Defined.

(** ** Registration at the start of an upload *)

(** An item as [AddFile] leaves it. *)
Lemma addOne_registers (clock : nat -> Progress.Time)
      (st : nat * Progress.Tracker) (f : Ova.OVAFile) :
  exists file,
    Progress.GetFileProgress (Ova.Name f) (snd (Cmd.addOne clock st f))
    = Some file /\
    Progress.FileProgress.IsCompleted file = false /\
    Progress.FileProgress.UploadedSize file = 0 /\
    Progress.FileProgress.ChunksUploaded file = 0.
Proof.
  destruct st as [n t].
  unfold Cmd.addOne, Progress.GetFileProgress, Progress.AddFile. cbn.
  rewrite lookup_insert_eq. eexists. split; [reflexivity|]. cbn. auto.
Qed.

Lemma addOne_keeps_unstarted (clock : nat -> Progress.Time)
      (st : nat * Progress.Tracker) (f : Ova.OVAFile) (name : string) :
  (exists file,
      Progress.GetFileProgress name (snd st) = Some file /\
      Progress.FileProgress.IsCompleted file = false /\
      Progress.FileProgress.UploadedSize file = 0 /\
      Progress.FileProgress.ChunksUploaded file = 0) ->
  exists file,
    Progress.GetFileProgress name (snd (Cmd.addOne clock st f)) = Some file /\
    Progress.FileProgress.IsCompleted file = false /\
    Progress.FileProgress.UploadedSize file = 0 /\
    Progress.FileProgress.ChunksUploaded file = 0.
Proof.
  intros Hold.
  destruct (String.eqb_spec (Ova.Name f) name) as [<-|Hne].
  - apply addOne_registers.
  - destruct st as [n t]. destruct Hold as (file & Hget & Hrest).
    exists file. split; [|exact Hrest].
    unfold Cmd.addOne, Progress.GetFileProgress, Progress.AddFile in *.
    cbn in *. rewrite lookup_insert_ne by exact Hne. exact Hget.
Qed.

Lemma fold_addOne_keeps_unstarted (clock : nat -> Progress.Time)
      (fs : list Ova.OVAFile) (name : string) :
  forall st,
    (exists file,
        Progress.GetFileProgress name (snd st) = Some file /\
        Progress.FileProgress.IsCompleted file = false /\
        Progress.FileProgress.UploadedSize file = 0 /\
        Progress.FileProgress.ChunksUploaded file = 0) ->
    exists file,
      Progress.GetFileProgress
        name (snd (fold_left (Cmd.addOne clock) fs st)) = Some file /\
      Progress.FileProgress.IsCompleted file = false /\
      Progress.FileProgress.UploadedSize file = 0 /\
      Progress.FileProgress.ChunksUploaded file = 0.
Proof.
  induction fs as [|f fs IH]; intros st Hold; cbn [fold_left].
  - exact Hold.
  - apply IH. apply addOne_keeps_unstarted. exact Hold.
Qed.

(** The aggregate counters after a run of registrations. *)
Lemma fold_addOne_session (clock : nat -> Progress.Time)
      (fs : list Ova.OVAFile) :
  forall st,
    let s := Progress.session (snd st) in
    let s' := Progress.session (snd (fold_left (Cmd.addOne clock) fs st)) in
    Int64.wrap (Progress.UploadSession.TotalSize s')
    = Int64.wrap (Progress.UploadSession.TotalSize s
                  + fold_right (fun f acc => Ova.Size f + acc) 0 fs) /\
    Progress.UploadSession.UploadedSize s'
    = Progress.UploadSession.UploadedSize s /\
    Progress.UploadSession.IsCompleted s'
    = Progress.UploadSession.IsCompleted s.
Proof.
  induction fs as [|f fs IH]; intros st; cbn [fold_left fold_right].
  - rewrite Z.add_0_r. auto.
  - destruct (IH (Cmd.addOne clock st f)) as (Ht & Hu & Hc).
    cbv zeta. rewrite Ht, Hu, Hc. destruct st as [n t].
    unfold Cmd.addOne, Progress.AddFile. cbn.
    unfold Int64.add. rewrite wrap_wrap_add_l.
    split; [f_equal; lia | auto].
Qed.

(** [GetTotalVMDKSize] is the sum of the sizes, as a 64-bit integer. *)
Lemma GetTotalVMDKSize_sum (fs : list Ova.OVAFile) :
  forall acc,
    Int64.wrap (fold_left (fun total vmdk => Int64.add total (Ova.Size vmdk))
                          fs acc)
    = Int64.wrap (acc + fold_right (fun f acc => Ova.Size f + acc) 0 fs).
Proof.
  induction fs as [|f fs IH]; intros acc; cbn [fold_left fold_right].
  - f_equal; lia.
  - rewrite IH. unfold Int64.add. rewrite wrap_wrap_add_l. f_equal; lia.
Qed.

(** X19.  Registration at the start of [runUpload] starts every file of
    the package over, whatever the tracker held, a loaded session included:
    its item is not completed and has nothing uploaded, so the test that
    skips a disk answers no.  The session's uploaded counter and completed
    flag are left as they were, and its total grows by the size of the
    descriptor and of the disks ([GetTotalVMDKSize]). *)
Theorem registration_starts_over
        (clock : nat -> Progress.Time) (pkg : Ova.OVAPackage)
        (t : Progress.Tracker) :
  let t' := Cmd.registerFiles clock pkg t in
  (forall f,
      Ova.OVFFile pkg = Some f \/ In f (Ova.VMDKFiles pkg) ->
      Cmd.alreadyUploaded t' (Ova.Name f) = false /\
      exists file,
        Progress.GetFileProgress (Ova.Name f) t' = Some file /\
        Progress.FileProgress.UploadedSize file = 0 /\
        Progress.FileProgress.ChunksUploaded file = 0) /\
  Progress.UploadSession.UploadedSize (Progress.session t')
  = Progress.UploadSession.UploadedSize (Progress.session t) /\
  Progress.UploadSession.IsCompleted (Progress.session t')
  = Progress.UploadSession.IsCompleted (Progress.session t) /\
  Int64.wrap (Progress.UploadSession.TotalSize (Progress.session t'))
  = Int64.wrap (Progress.UploadSession.TotalSize (Progress.session t)
                + match Ova.OVFFile pkg with
                  | Some ovf => Ova.Size ovf
                  | None => 0
                  end
                + Ova.GetTotalVMDKSize pkg).
Proof.
  intros t'. subst t'. unfold Cmd.registerFiles.
  set (st := match Ova.OVFFile pkg with
             | Some f => Cmd.addOne clock (0%nat, t) f
             | None => (0%nat, t)
             end).
  split.
  - intros f Hin.
    assert (Hfile : exists file,
               Progress.GetFileProgress
                 (Ova.Name f)
                 (snd (fold_left (Cmd.addOne clock) (Ova.VMDKFiles pkg) st))
               = Some file /\
               Progress.FileProgress.IsCompleted file = false /\
               Progress.FileProgress.UploadedSize file = 0 /\
               Progress.FileProgress.ChunksUploaded file = 0).
    { destruct Hin as [Hovf|Hvmdk].
      - apply fold_addOne_keeps_unstarted. subst st. rewrite Hovf.
        apply addOne_registers.
      - apply in_split in Hvmdk as (before & after & ->).
        rewrite fold_left_app. cbn [fold_left].
        apply fold_addOne_keeps_unstarted. apply addOne_registers. }
    destruct Hfile as (file & Hget & Hflag & Hup & Hchunks).
    split; [unfold Cmd.alreadyUploaded; rewrite Hget; exact Hflag|].
    exists file. auto.
  - destruct (fold_addOne_session clock (Ova.VMDKFiles pkg) st)
      as (Ht & Hu & Hc).
    cbv zeta in Ht, Hu, Hc. rewrite Hu, Hc, Ht.
    assert (HG : Int64.wrap (Ova.GetTotalVMDKSize pkg)
                 = Int64.wrap (fold_right (fun f acc => Ova.Size f + acc) 0
                                          (Ova.VMDKFiles pkg))).
    { unfold Ova.GetTotalVMDKSize. rewrite GetTotalVMDKSize_sum.
      f_equal; lia. }
    rewrite <- (wrap_wrap_add_r _ (Ova.GetTotalVMDKSize pkg)), HG,
      wrap_wrap_add_r.
    subst st. destruct (Ova.OVFFile pkg) as [ovf|].
    + split; [reflexivity|]. split; [reflexivity|].
      apply wrap_congruent.
      unfold Cmd.addOne, Progress.AddFile, Int64.add.
      cbn [snd Progress.session Progress.with_session
           Progress.UploadSession.TotalSize].
      apply wrap_idempotent.
    + split; [reflexivity|]. split; [reflexivity|].
      cbn [snd]. f_equal; lia.
Qed.

Lemma registration_starts_over_witness :
  let loaded := Progress.MarkFileCompleted 5 5 "disk1.vmdk" Sample.tracker in
  let t' := Cmd.registerFiles (fun n => 6 + Z.of_nat n) Sample.package
                              loaded in
  Cmd.alreadyUploaded loaded "disk1.vmdk" = true /\
  Cmd.alreadyUploaded t' "disk1.vmdk" = false /\
  Progress.UploadSession.UploadedSize (Progress.session t') = 100 /\
  Progress.UploadSession.TotalSize (Progress.session loaded) = 100 /\
  Progress.UploadSession.TotalSize (Progress.session t') = 204.
Proof.
  cbv zeta. split; [reflexivity|]. split.
  - destruct (registration_starts_over
                (fun n => 6 + Z.of_nat n) Sample.package
                (Progress.MarkFileCompleted 5 5 "disk1.vmdk" Sample.tracker))
      as [Hfiles _].
    apply (Hfiles {| Ova.Name := "disk1.vmdk"; Ova.Size := 100;
                     Ova.Offset := 4; Ova.SHA1Hash := "" |}).
    right. left. reflexivity.
  - repeat split; reflexivity.
Defined.

(** ** The manifest *)

Lemma fold_insert_unlisted (manifest : list Ova.ManifestEntry.t)
      (name : string) :
  Forall (fun e => Ova.ManifestEntry.FileName e <> name) manifest ->
  forall acc : gmap string string,
    fold_left
      (fun m e => <[Ova.ManifestEntry.FileName e
                    := Ova.ManifestEntry.SHA1Hash e]> m)
      manifest acc !! name
    = acc !! name.
Proof.
  induction 1 as [|e rest Hne _ IH]; intros acc; cbn [fold_left].
  - reflexivity.
  - rewrite IH. apply lookup_insert_ne. exact Hne.
Qed.

Lemma manifestMap_last (before after : list Ova.ManifestEntry.t)
      (e : Ova.ManifestEntry.t) :
  Forall (fun e' => Ova.ManifestEntry.FileName e'
                    <> Ova.ManifestEntry.FileName e) after ->
  Ova.manifestMap (before ++ e :: after) !! Ova.ManifestEntry.FileName e
  = Some (Ova.ManifestEntry.SHA1Hash e).
Proof.
  intros Hafter. unfold Ova.manifestMap.
  rewrite fold_left_app. cbn [fold_left].
  rewrite fold_insert_unlisted by exact Hafter.
  apply lookup_insert_eq.
Qed.

(** X20.  When the manifest lists a disk more than once the last entry
    decides its hash, and a disk the manifest does not list (names are
    compared byte for byte) is left as it was; name, size and offset never
    change. *)
Theorem manifest_last_entry_wins
        (pkg : Ova.OVAPackage) (manifest : list Ova.ManifestEntry.t)
        (i : nat) (f : Ova.OVAFile) :
  Ova.VMDKFiles pkg !! i = Some f ->
  let pkg' := Ova.updateHashesFromManifest pkg manifest in
  (forall before e after,
      manifest = before ++ e :: after ->
      Ova.ManifestEntry.FileName e = Ova.Name f ->
      Forall (fun e' => Ova.ManifestEntry.FileName e' <> Ova.Name f) after ->
      Ova.VMDKFiles pkg' !! i
      = Some {| Ova.Name := Ova.Name f; Ova.Size := Ova.Size f;
                Ova.Offset := Ova.Offset f;
                Ova.SHA1Hash := Ova.ManifestEntry.SHA1Hash e |}) /\
  (Forall (fun e => Ova.ManifestEntry.FileName e <> Ova.Name f) manifest ->
   Ova.VMDKFiles pkg' !! i = Some f).
Proof.
  intros Hget pkg'. subst pkg'.
  unfold Ova.updateHashesFromManifest. cbn [Ova.VMDKFiles].
  split.
  - intros before e after -> Hname Hafter.
    rewrite list_lookup_fmap, Hget. cbn [fmap option_fmap option_map].
    unfold Ova.setHash. rewrite <- Hname.
    rewrite manifestMap_last by (rewrite Hname; exact Hafter).
    reflexivity.
  - intros Hnone.
    rewrite list_lookup_fmap, Hget. cbn [fmap option_fmap option_map].
    unfold Ova.setHash, Ova.manifestMap.
    rewrite fold_insert_unlisted by exact Hnone.
    rewrite lookup_empty. reflexivity.
Qed.

Lemma manifest_last_entry_wins_witness :
  Ova.VMDKFiles (Ova.updateHashesFromManifest Sample.package Sample.manifest)
  !! 0%nat
  = Some {| Ova.Name := "disk1.vmdk"; Ova.Size := 100; Ova.Offset := 4;
            Ova.SHA1Hash := "bbbb" |}.
Proof.
  destruct (manifest_last_entry_wins
              Sample.package Sample.manifest 0
              {| Ova.Name := "disk1.vmdk"; Ova.Size := 100; Ova.Offset := 4;
                 Ova.SHA1Hash := "" |} eq_refl) as [Hlast _].
  apply (Hlast [ {| Ova.ManifestEntry.FileName := "disk1.vmdk";
                    Ova.ManifestEntry.SHA1Hash := "aaaa" |} ]
               {| Ova.ManifestEntry.FileName := "disk1.vmdk";
                  Ova.ManifestEntry.SHA1Hash := "bbbb" |} []).
  - reflexivity.
  - reflexivity.
  - constructor.
Defined.

(** ** Failures of the archive reader *)

Lemma index_read_error (hs : list Tar.Header) (msg : string)
      (rest : list Tar.next) :
  forall offset pkg,
    Ova.index (List.map Tar.Entry hs ++ Tar.ReadError msg :: rest) offset pkg
    = Err (Ova.TarReadFailed msg).
Proof.
  induction hs as [|h hs IH]; intros offset pkg; cbn [List.map app Ova.index].
  - reflexivity.
  - destruct (negb (Ascii.eqb (Tar.Typeflag h) Tar.TypeReg)); apply IH.
Qed.

(** X21.  A failure of the archive reader makes [ParseOVA] fail with that
    error, whatever entries were read before it (a descriptor and disks
    included) and whatever would follow. *)
Theorem ParseOVA_read_error
        (FindStringSubmatch : string -> list string)
        (disk : string -> option Ova.File) (ovaPath : string)
        (file : Ova.File) (hs : list Tar.Header) (msg : string)
        (rest : list Tar.next) :
  disk ovaPath = Some file ->
  Ova.records file = List.map Tar.Entry hs ++ Tar.ReadError msg :: rest ->
  Ova.ParseOVA FindStringSubmatch disk ovaPath
  = Err (Ova.TarReadFailed msg).
Proof.
  intros Hdisk Hrecords. unfold Ova.ParseOVA.
  rewrite Hdisk, Hrecords, index_read_error. reflexivity.
Qed.

Lemma ParseOVA_read_error_witness :
  Ova.ParseOVA Sample.no_match (fun _ => Some Sample.cut_short) "vm.ova"
  = Err (Ova.TarReadFailed "unexpected EOF").
Proof.
  apply (ParseOVA_read_error
           Sample.no_match (fun _ => Some Sample.cut_short) "vm.ova"
           Sample.cut_short
           [Sample.regular "vm.ovf" 4; Sample.regular "disk1.vmdk" 8]
           "unexpected EOF" []).
  - reflexivity.
  - reflexivity.
Defined.

(** ** Cancellation of the retry loop *)

(** X22.  When the context is done during the wait that follows the
    [k+1]-th failed attempt (all attempts so far having failed with errors
    classified retryable, below the ceiling, and no earlier wait having been
    interrupted), [Execute] returns the cancellation error after exactly
    [k + 1] invocations: the operation is not invoked again, and the error
    of the last attempt is not part of what is returned. *)
Theorem Execute_cancelled_during_wait
        (W : Type) (fn : W -> option string * W)
        (ctxDone : Z -> bool) (ctxErr : string) (rnd : Z -> Q)
        (fpu : Float64.Platform)
        (rm : Retry.RetryManager) (w : W) (k : nat) :
  (forall i, (i <= k)%nat ->
             exists err, fst (fn (Retry.nth_world fn i w)) = Some err /\
                         Retry.IsRetryableError rm err = true) ->
  Retry.maxRetries rm <= 0 \/ Z.of_nat k + 1 < Retry.maxRetries rm ->
  (forall i, (i < k)%nat -> ctxDone (Z.of_nat i + 1) = false) ->
  ctxDone (Z.of_nat k + 1) = true ->
  forall fuel, (k < fuel)%nat ->
  exists out,
    Retry.ExecuteWithStats W fn ctxDone ctxErr rnd fpu rm fuel w = Some out /\
    Retry.returned out = Some (Retry.CancelledError ctxErr) /\
    Retry.invocations out = S k.
Proof.
  intros Hfail Hceil Hwait Hdone fuel Hfuel.
  unfold Retry.ExecuteWithStats.
  replace fuel with (k + S (fuel - S k))%nat by lia.
  edestruct (loop_skip_retries W fn ctxDone ctxErr rnd fpu rm k)
    as (stats' & log' & ->).
  { intros i Hi. destruct (Hfail i ltac:(lia)) as (err & Herr & Hre).
    exists err. split; [exact Herr|]. split; [|apply Hwait; exact Hi].
    apply shouldRetry_below_ceiling; [exact Hre | lia]. }
  destruct (Hfail k (le_n k)) as (err & Herr & Hre).
  destruct (fn (Retry.nth_world fn k w)) as [o w'] eqn:Efn.
  cbn in Herr. subst o.
  edestruct (loop_cancelled W fn ctxDone ctxErr rnd fpu rm)
    as (out & -> & Hcalls & Hret);
    [exact Efn
    | apply shouldRetry_below_ceiling; [exact Hre | lia]
    | exact Hdone |].
  exists out. split; [reflexivity|]. split; [exact Hret | lia].
Qed.

Lemma Execute_cancelled_during_wait_witness :
  let fn := fun n : nat => (Some "connection refused", S n) in
  exists out,
    Retry.ExecuteWithStats nat fn (fun attempt => attempt =? 3)
                           "context canceled" (fun _ => 1 # 2) Sample.fpu
                           Retry.CreateNetworkRetryManager 3 0%nat
    = Some out /\
    Retry.returned out = Some (Retry.CancelledError "context canceled") /\
    Retry.invocations out = 3%nat.
Proof.
  cbv zeta.
  apply (Execute_cancelled_during_wait
           nat (fun n : nat => (Some "connection refused", S n))
           (fun attempt => attempt =? 3) "context canceled"
           (fun _ => 1 # 2) Sample.fpu
           Retry.CreateNetworkRetryManager 0%nat 2).
  - intros i Hi. exists "connection refused". split; reflexivity.
  - left. vm_compute. discriminate.
  - intros i Hi. destruct i as [|[|i]]; [reflexivity | reflexivity | lia].
  - reflexivity.
  - lia.
Defined.
